(** * Usability Testing Tool (Main.py): record stores and form stages

    A shallow embedding of [Main.py].  The script appends one row per form
    submission to a comma-separated file per stage ([save_to_csv]), reads the
    files back ([load_from_csv]) and, in [main], runs the Streamlit tabs top
    to bottom on every interaction: consent, demographics, task, exit
    questionnaire, report.  [save_to_csv], [load_from_csv] and [main] follow
    the script statement by statement; a script run is a computation in a
    state and exception monad over the files, the session state and the
    elements shown on the page.

    What the script calls but does not define is modelled as its
    environment, under the defaults the script relies on:
    - the file system is a finite map from paths to file contents; the data
      folder, created when the script starts, is taken to exist, and file
      operations do not fail;
    - Streamlit runs [main] again on every interaction, with the values the
      widgets return; files and [st.session_state] persist from run to run;
      titles and fixed texts are not recorded;
    - [DataFrame.to_csv] writes through Python's [csv.writer] with minimal
      quoting, a comma delimiter and a line feed terminator (POSIX), a field
      being quoted when it holds a comma, a quote, a line feed or a carriage
      return (CPython 3.13);
    - [pandas.read_csv] is the C tokenizer with its default options (blank
      lines skipped, first line taken as the header), followed by the check
      of the number of fields per line and by the type inference per column
      (pandas 2): int64, or uint64 when an integer overflows int64, then
      float64, bool and object, a column of integers that cannot be kept as
      numbers being left as text;
    - floats are IEEE 754 binary64 numbers (primitive floats); how a float is
      printed in decimal and read back is left abstract ([FloatText]), and
      every statement below holds whatever these two functions are. *)

From Stdlib Require Import ZArith String Ascii List Bool Lia DecimalString DecimalPos.
From Stdlib Require Import Floats.PrimFloat Floats.FloatOps Floats.SpecFloat Uint63.
From stdpp Require Import gmap strings list.

Local Open Scope Z_scope.

(** ** Python values *)

Inductive pyval : Type :=
| PyNone
| PyBool (b : bool)
| PyInt (z : Z)
| PyFloat (f : float)
| PyStr (s : string).

(** Truth value testing, as in [x if x else y]. *)
Definition truthy (v : pyval) : bool :=
  match v with
  | PyNone => false
  | PyBool b => b
  | PyInt z => negb (z =? 0)
  | PyFloat f => negb (PrimFloat.eqb f 0%float)
  | PyStr s => negb (String.eqb s "")
  end.

(** A dict literal: keys in insertion order. *)
Definition dict : Type := list (string * pyval).

Definition keys (d : dict) : list string := d.*1.
Definition values (d : dict) : list pyval := d.*2.

Inductive exn : Type := ParserError | EmptyDataError | KeyError | TypeError.

Inductive result (A : Type) : Type :=
| Ok (a : A)
| Raise (e : exn).
Arguments Ok {A} a.
Arguments Raise {A} e.

(** Decimal text of floats: [repr] on the way out, the tokenizer's
    [xstrtod] on the way in. *)
Class FloatText : Type := {
  float_repr : float -> string;
  xstrtod : string -> float
}.

(** ** Characters *)

Definition QUOTE : ascii := "034"%char.
Definition COMMA : ascii := ","%char.
Definition LF : ascii := "010"%char.
Definition CR : ascii := "013"%char.
Definition SPACE : ascii := " "%char.
Definition TAB : ascii := "009"%char.

(** ** csv.writer, QUOTE_MINIMAL *)

Definition is_special (c : ascii) : bool :=
  Ascii.eqb c COMMA || Ascii.eqb c QUOTE || Ascii.eqb c LF || Ascii.eqb c CR.

Fixpoint needs_quoting (s : string) : bool :=
  match s with
  | EmptyString => false
  | String c s' => is_special c || needs_quoting s'
  end.

Fixpoint double_quotes (s : string) : string :=
  match s with
  | EmptyString => EmptyString
  | String c s' =>
      if Ascii.eqb c QUOTE then String QUOTE (String QUOTE (double_quotes s'))
      else String c (double_quotes s')
  end.

Definition csv_field (s : string) : string :=
  if needs_quoting s then String QUOTE (double_quotes s +:+ String QUOTE "")
  else s.

Fixpoint join_fields (cells : list string) : string :=
  match cells with
  | [] => ""
  | [c] => csv_field c
  | c :: cs => csv_field c +:+ String COMMA (join_fields cs)
  end.

(** A row made of one empty field is written quoted, so that it is not an
    empty line. *)
Definition csv_writerow (cells : list string) : string :=
  match cells with
  | [c] =>
      (if String.eqb c "" then String QUOTE (String QUOTE "") else csv_field c)
      +:+ String LF ""
  | _ => join_fields cells +:+ String LF ""
  end.

Definition csv_writerows (rows : list (list string)) : string :=
  foldr (fun r acc => csv_writerow r +:+ acc) "" rows.

(** ** The tokenizer of read_csv *)

Inductive ParserState : Type :=
| START_RECORD
| START_FIELD
| IN_FIELD
| IN_QUOTED_FIELD
| QUOTE_IN_QUOTED_FIELD
| EAT_CRNL
| EAT_CRNL_NOP
| WHITESPACE_LINE.

(** [word] is the field being read, [fields] the fields of the line being
    read, [lines] the finished lines; in state [WHITESPACE_LINE], [word]
    holds the blanks read so far, which the tokenizer re-reads as the start
    of a field when the line turns out not to be blank. *)
Record parser_t : Type := {
  state : ParserState;
  word : string;
  fields : list string;
  lines : list (list string)
}.

Definition parser_new : parser_t :=
  {| state := START_RECORD; word := ""; fields := []; lines := [] |}.

Definition set_state (st : ParserState) (p : parser_t) : parser_t :=
  {| state := st; word := word p; fields := fields p; lines := lines p |}.

Definition push_char (c : ascii) (p : parser_t) : parser_t :=
  {| state := state p; word := word p +:+ String c "";
     fields := fields p; lines := lines p |}.

Definition end_field (p : parser_t) : parser_t :=
  {| state := state p; word := "";
     fields := fields p ++ [word p]; lines := lines p |}.

Definition end_line (p : parser_t) : parser_t :=
  {| state := START_RECORD; word := "";
     fields := []; lines := lines p ++ [fields p] |}.

Definition skip_line (st : ParserState) (p : parser_t) : parser_t :=
  {| state := st; word := ""; fields := []; lines := lines p |}.

Definition is_whitespace (c : ascii) : bool :=
  Ascii.eqb c SPACE || Ascii.eqb c TAB.

Definition in_field (c : ascii) (p : parser_t) : parser_t :=
  if Ascii.eqb c LF then end_line (end_field p)
  else if Ascii.eqb c CR then set_state EAT_CRNL (end_field p)
  else if Ascii.eqb c COMMA then set_state START_FIELD (end_field p)
  else push_char c p.

Definition start_field (c : ascii) (p : parser_t) : parser_t :=
  if Ascii.eqb c LF then end_line (end_field p)
  else if Ascii.eqb c CR then set_state EAT_CRNL (end_field p)
  else if Ascii.eqb c QUOTE then set_state IN_QUOTED_FIELD p
  else if Ascii.eqb c COMMA then set_state START_FIELD (end_field p)
  else set_state IN_FIELD (push_char c p).

Definition start_record (c : ascii) (p : parser_t) : parser_t :=
  if Ascii.eqb c LF then skip_line START_RECORD p
  else if Ascii.eqb c CR then skip_line EAT_CRNL_NOP p
  else if is_whitespace c then set_state WHITESPACE_LINE (push_char c p)
  else start_field c p.

Definition tokenize_byte (c : ascii) (p : parser_t) : parser_t :=
  match state p with
  | START_RECORD => start_record c p
  | START_FIELD => start_field c p
  | IN_FIELD => in_field c p
  | IN_QUOTED_FIELD =>
      if Ascii.eqb c QUOTE then set_state QUOTE_IN_QUOTED_FIELD p
      else push_char c p
  | QUOTE_IN_QUOTED_FIELD =>
      if Ascii.eqb c QUOTE then set_state IN_QUOTED_FIELD (push_char c p)
      else if Ascii.eqb c COMMA then set_state START_FIELD (end_field p)
      else if Ascii.eqb c LF then end_line (end_field p)
      else if Ascii.eqb c CR then set_state EAT_CRNL (end_field p)
      else set_state IN_FIELD (push_char c p)
  | EAT_CRNL =>
      if Ascii.eqb c LF then end_line p
      else if Ascii.eqb c COMMA then set_state START_FIELD (end_field (end_line p))
      else start_record c (end_line p)
  | EAT_CRNL_NOP =>
      if Ascii.eqb c LF || Ascii.eqb c COMMA then set_state START_RECORD p
      else start_record c (set_state START_RECORD p)
  | WHITESPACE_LINE =>
      if Ascii.eqb c LF then skip_line START_RECORD p
      else if Ascii.eqb c CR then skip_line EAT_CRNL_NOP p
      else if is_whitespace c then push_char c p
      else in_field c (set_state IN_FIELD p)
  end.

Fixpoint tokenize_bytes (s : string) (p : parser_t) : parser_t :=
  match s with
  | EmptyString => p
  | String c s' => tokenize_bytes s' (tokenize_byte c p)
  end.

(** End of input: a pending field and line are closed; an open quoted
    field is an error. *)
Definition parser_handle_eof (p : parser_t) : result (list (list string)) :=
  match state p with
  | START_RECORD | WHITESPACE_LINE | EAT_CRNL_NOP => Ok (lines p)
  | IN_QUOTED_FIELD => Raise ParserError
  | IN_FIELD | START_FIELD | QUOTE_IN_QUOTED_FIELD => Ok (lines (end_line (end_field p)))
  | EAT_CRNL => Ok (lines (end_line p))
  end.

Definition tokenize_all (text : string) : result (list (list string)) :=
  parser_handle_eof (tokenize_bytes text parser_new).

(** ** Reading numbers, booleans and missing values *)

Definition isspace_ascii (c : ascii) : bool :=
  let n := nat_of_ascii c in
  Nat.eqb n 32 || (Nat.leb 9 n && Nat.leb n 13).

Definition isdigit_ascii (c : ascii) : bool :=
  let n := nat_of_ascii c in Nat.leb 48 n && Nat.leb n 57.

Definition digit_value (c : ascii) : Z := Z.of_nat (nat_of_ascii c) - 48.

Fixpoint skip_spaces (s : string) : string :=
  match s with
  | String c s' => if isspace_ascii c then skip_spaces s' else s
  | EmptyString => EmptyString
  end.

Definition skip_sign (s : string) : bool * string :=
  match s with
  | String c s' =>
      if Ascii.eqb c "-" then (true, s')
      else if Ascii.eqb c "+" then (false, s')
      else (false, s)
  | EmptyString => (false, s)
  end.

(** Reads a run of digits: its value on top of [acc], how many there were,
    and what follows. *)
Fixpoint read_digits (s : string) (acc : Z) (n : nat) : Z * nat * string :=
  match s with
  | String c s' =>
      if isdigit_ascii c then read_digits s' (acc * 10 + digit_value c) (S n)
      else (acc, n, s)
  | EmptyString => (acc, n, s)
  end.

Definition INT64_MIN : Z := - 2 ^ 63.
Definition INT64_MAX : Z := 2 ^ 63 - 1.

Definition str_to_int64 (s : string) : option Z :=
  let '(neg, p) := skip_sign (skip_spaces s) in
  let '(v, n, rest) := read_digits p 0 0 in
  let v := if neg then - v else v in
  match n, skip_spaces rest with
  | S _, EmptyString =>
      if (INT64_MIN <=? v) && (v <=? INT64_MAX) then Some v else None
  | _, _ => None
  end.

(** The error of [str_to_int64], when it has one.  Digits are required
    after the sign; the run of digits is read before what follows it is
    looked at, so that a number out of range is an overflow whatever
    follows it. *)
Inductive parse_error : Type := ERROR_NO_DIGITS | ERROR_OVERFLOW | ERROR_INVALID_CHARS.

Definition str_to_int64_error (s : string) : option parse_error :=
  let '(neg, p) := skip_sign (skip_spaces s) in
  let '(v, n, rest) := read_digits p 0 0 in
  let v := if neg then - v else v in
  match n with
  | O => Some ERROR_NO_DIGITS
  | S _ =>
      if (INT64_MIN <=? v) && (v <=? INT64_MAX) then
        match skip_spaces rest with
        | EmptyString => None
        | String _ _ => Some ERROR_INVALID_CHARS
        end
      else Some ERROR_OVERFLOW
  end.

Definition UINT64_MAX : Z := 2 ^ 64 - 1.

(** [str_to_uint64]: a word that starts with a minus sign is a signed
    integer, and is not read any further. *)
Inductive uint_word : Type :=
| UINT (z : Z)
| SINT
| UINT_ERROR (e : parse_error).

Definition str_to_uint64 (s : string) : uint_word :=
  match skip_spaces s with
  | EmptyString => UINT_ERROR ERROR_NO_DIGITS
  | String c p' =>
      if Ascii.eqb c "-" then SINT
      else
        let p := if Ascii.eqb c "+" then p' else String c p' in
        let '(v, n, rest) := read_digits p 0 0 in
        match n with
        | O => UINT_ERROR ERROR_NO_DIGITS
        | S _ =>
            if v <=? UINT64_MAX then
              match skip_spaces rest with
              | EmptyString => UINT v
              | String _ _ => UINT_ERROR ERROR_INVALID_CHARS
              end
            else UINT_ERROR ERROR_OVERFLOW
        end
  end.

Definition tolower_ascii (c : ascii) : ascii :=
  let n := nat_of_ascii c in
  if Nat.leb 65 n && Nat.leb n 90 then ascii_of_nat (n + 32) else c.

Fixpoint lower (s : string) : string :=
  match s with
  | String c s' => String (tolower_ascii c) (lower s')
  | EmptyString => EmptyString
  end.

(** The shape of a decimal literal accepted by the float reader: blanks,
    sign, digits with an optional point, an optional exponent that needs
    digits, blanks. *)
Definition float_syntax (s : string) : bool :=
  let '(_, p) := skip_sign (skip_spaces s) in
  let '(_, n1, p) := read_digits p 0 0 in
  let '(n2, p) :=
    match p with
    | String c p' =>
        if Ascii.eqb c "." then let '(_, n2, p'') := read_digits p' 0 0 in (n2, p'')
        else (0%nat, p)
    | EmptyString => (0%nat, p)
    end in
  match (n1 + n2)%nat with
  | O => false
  | S _ =>
      let p :=
        match p with
        | String c p' =>
            if Ascii.eqb (tolower_ascii c) "e" then
              let '(_, n3, p'') := read_digits (skip_sign p').2 0 0 in
              match n3 with O => p | S _ => p'' end
            else p
        | EmptyString => p
        end in
      match skip_spaces p with EmptyString => true | _ => false end
  end.

Definition to_double `{FloatText} (s : string) : option float :=
  if float_syntax s then Some (xstrtod s)
  else
    let l := lower s in
    if String.eqb l "inf" || String.eqb l "+inf"
       || String.eqb l "infinity" || String.eqb l "+infinity" then Some infinity
    else if String.eqb l "-inf" || String.eqb l "-infinity" then Some neg_infinity
    else None.

Definition to_boolean (s : string) : option bool :=
  let l := lower s in
  if String.eqb l "true" then Some true
  else if String.eqb l "false" then Some false
  else None.

Definition na_values : list string :=
  [ ""; "#N/A"; "#N/A N/A"; "#NA"; "-1.#IND"; "-1.#QNAN"; "-NaN"; "-nan";
    "1.#IND"; "1.#QNAN"; "<NA>"; "N/A"; "NA"; "NULL"; "NaN"; "None"; "n/a";
    "nan"; "null" ].

Definition is_na (s : string) : bool := existsb (String.eqb s) na_values.

(** ** Data frames *)

Inductive dtype : Type := Int64 | UInt64 | Float64 | BoolT | Object.

(** Row-major: [df_rows] has one list of cells per row, [df_index] one label
    tuple per row. *)
Record DataFrame : Type := {
  df_columns : list string;
  df_dtypes : list dtype;
  df_index : list (list pyval);
  df_rows : list (list pyval)
}.

(** [pd.DataFrame()] *)
Definition DataFrame_empty : DataFrame :=
  {| df_columns := []; df_dtypes := []; df_index := []; df_rows := [] |}.

Definition RangeIndex (n : nat) : list (list pyval) :=
  (fun i => [PyInt (Z.of_nat i)]) <$> seq 0 n.

Definition dtype_of_value (v : pyval) : dtype :=
  match v with
  | PyBool _ => BoolT
  | PyInt _ => Int64
  | PyFloat _ => Float64
  | PyNone | PyStr _ => Object
  end.

(** [pd.DataFrame([d])]: one row, the columns are the keys of [d]. *)
Definition DataFrame_of_record (d : dict) : DataFrame :=
  {| df_columns := keys d;
     df_dtypes := dtype_of_value <$> values d;
     df_index := RangeIndex 1;
     df_rows := [values d] |}.

(** [df.empty] *)
Definition df_empty (df : DataFrame) : bool :=
  Nat.eqb (length (df_rows df)) 0 || Nat.eqb (length (df_columns df)) 0.

Definition isnan (f : float) : bool := negb (PrimFloat.eqb f f).

Definition Z_to_string (z : Z) : string := NilZero.string_of_int (Z.to_int z).

(** ** The world of a script run: files, session state, what is shown *)

Inductive ui : Type :=
| st_warning (s : string)
| st_success (s : string)
| st_info (s : string)
| st_write (s : string)
| st_dataframe (df : DataFrame).

(** [st.session_state] only ever receives the two floats of the task timer. *)
Record world : Type := {
  fs : gmap string string;
  session_state : gmap string float;
  screen : list ui
}.

(** State and exceptions. *)
Definition M (A : Type) : Type := world -> result A * world.

Definition ret {A} (a : A) : M A := fun w => (Ok a, w).

Definition bind {A B} (m : M A) (k : A -> M B) : M B :=
  fun w =>
    match m w with
    | (Ok a, w') => k a w'
    | (Raise e, w') => (Raise e, w')
    end.

Notation "x <- m ;; k" := (bind m (fun x => k))
  (at level 100, m at next level, right associativity).
Notation "m ;; k" := (bind m (fun _ => k))
  (at level 100, right associativity).

Definition lift {A} (r : result A) : M A := fun w => (r, w).

Definition when (b : bool) (m : M unit) : M unit := if b then m else ret tt.

Definition show (u : ui) : M unit :=
  fun w => (Ok tt, {| fs := fs w; session_state := session_state w;
                      screen := screen w ++ [u] |}).

Definition get_fs : M (gmap string string) := fun w => (Ok (fs w), w).

Definition put_fs (f : gmap string string) : M unit :=
  fun w => (Ok tt, {| fs := f; session_state := session_state w; screen := screen w |}).

Definition get_session : M (gmap string float) := fun w => (Ok (session_state w), w).

Definition put_session (s : gmap string float) : M unit :=
  fun w => (Ok tt, {| fs := fs w; session_state := s; screen := screen w |}).

(** [os.path.isfile] *)
Definition isfile (f : gmap string string) (path : string) : bool :=
  bool_decide (is_Some (f !! path)).

Inductive file_mode : Type := mode_w | mode_a.

(** ** Formatting and averaging *)

Definition Z_to_float (z : Z) : float :=
  match z with
  | Z0 => 0%float
  | Zpos _ => PrimFloat.of_uint63 (Uint63.of_Z z)
  | Zneg _ => PrimFloat.opp (PrimFloat.of_uint63 (Uint63.of_Z (- z)))
  end.

(** [m * 2^e] rounded to the nearest integer, ties to even. *)
Definition round_half_even (m e : Z) : Z :=
  if 0 <=? e then m * 2 ^ e
  else
    let den := 2 ^ (- e) in
    let q := m / den in
    let r := m mod den in
    if 2 * r <? den then q
    else if den <? 2 * r then q + 1
    else if Z.even q then q else q + 1.

Definition two_digits (n : Z) : string :=
  Z_to_string (n / 10) +:+ Z_to_string (n mod 10).

(** The format specification [.2f]. *)
Definition format_2f (x : float) : string :=
  match Prim2SF x with
  | S754_nan => "nan"
  | S754_infinity s => if s then "-inf" else "inf"
  | S754_zero s => if s then "-0.00" else "0.00"
  | S754_finite s m e =>
      let q := round_half_even (Zpos m * 100) e in
      (if s then "-" else "") +:+ Z_to_string (q / 100) +:+ "." +:+ two_digits (q mod 100)
  end.

Definition Series : Type := dtype * list pyval.

Definition int_of (v : pyval) : Z :=
  match v with
  | PyInt z => z
  | PyBool b => if b then 1 else 0
  | _ => 0
  end.

Definition float_of (v : pyval) : float :=
  match v with
  | PyFloat f => f
  | _ => PrimFloat.nan
  end.

Definition sum_Z (zs : list Z) : Z := foldr Z.add 0 zs.

(** An integer below 2^64 as the nearest float: the two halves are floats,
    and their sum is rounded once. *)
Definition uint64_to_float (z : Z) : float :=
  (Z_to_float (z / 2 ^ 32) * Z_to_float (2 ^ 32) + Z_to_float (z mod 2 ^ 32))%float.

(** [Series.mean()].  An int64 or bool column is summed exactly and the sum
    converted (as long as the partial sums stay below 2^53 this is the number
    numpy's float64 accumulation yields); a uint64 column is converted and
    summed from the left; a float64 column skips its missing values and is
    summed from the left; an object column cannot be averaged. *)
Definition Series_mean (s : Series) : result float :=
  match s.1 with
  | Int64 | BoolT =>
      Ok (Z_to_float (sum_Z (int_of <$> s.2)) / Z_to_float (Z.of_nat (length s.2)))%float
  | UInt64 =>
      let xs := (fun v => uint64_to_float (int_of v)) <$> s.2 in
      Ok (fold_left PrimFloat.add xs 0 / Z_to_float (Z.of_nat (length xs)))%float
  | Float64 =>
      let xs := filter (fun f => isnan f = false) (float_of <$> s.2) in
      Ok (fold_left PrimFloat.add xs 0 / Z_to_float (Z.of_nat (length xs)))%float
  | Object => Raise TypeError
  end.

Fixpoint index_of (name : string) (l : list string) : option nat :=
  match l with
  | [] => None
  | x :: l' => if String.eqb x name then Some 0%nat else S <$> index_of name l'
  end.

(** [df[name]] *)
Definition df_getitem (df : DataFrame) (name : string) : result Series :=
  match index_of name (df_columns df) with
  | Some j => Ok (nth j (df_dtypes df) Object, (fun r => nth j r PyNone) <$> df_rows df)
  | None => Raise KeyError
  end.

(** An instance to run examples with: a finite float is printed with its
    exact decimal expansion (Python prints the shortest decimal that reads
    back as the same float; the two agree on the dyadic values used in the
    examples), and read by accumulating its digits and scaling by a power of
    ten. *)
Fixpoint strip_zeros (fuel : nat) (frac : Z) (k : nat) : Z * nat :=
  match fuel, k with
  | S fuel', S k' => if frac mod 10 =? 0 then strip_zeros fuel' (frac / 10) k' else (frac, k)
  | _, _ => (frac, k)
  end.

Fixpoint zeros (n : nat) : string :=
  match n with
  | O => ""
  | S n' => String "0" (zeros n')
  end.

Definition fraction_text (frac : Z) (k : nat) : string :=
  match k with
  | O => "0"
  | _ => let d := Z_to_string frac in zeros (k - String.length d) +:+ d
  end.

Definition exact_decimal (x : float) : string :=
  match Prim2SF x with
  | S754_nan => "nan"
  | S754_infinity s => if s then "-inf" else "inf"
  | S754_zero s => if s then "-0.0" else "0.0"
  | S754_finite s m e =>
      let sign := if s then "-" else "" in
      if 0 <=? e then sign +:+ Z_to_string (Zpos m * 2 ^ e) +:+ ".0"
      else
        let k := Z.to_nat (- e) in
        let n := Zpos m * 5 ^ (- e) in
        let '(frac, k') := strip_zeros k (n mod 10 ^ (- e)) k in
        sign +:+ Z_to_string (n / 10 ^ (- e)) +:+ "." +:+ fraction_text frac k'
  end.

Definition read_decimal (s : string) : float :=
  let '(neg, p) := skip_sign (skip_spaces s) in
  let '(v1, _, p) := read_digits p 0 0 in
  let '(v, decimals, p) :=
    match p with
    | String c p' => if Ascii.eqb c "." then read_digits p' v1 0 else (v1, 0%nat, p)
    | EmptyString => (v1, 0%nat, p)
    end in
  let exponent :=
    match p with
    | String c p' =>
        if Ascii.eqb (tolower_ascii c) "e" then
          let '(eneg, p'') := skip_sign p' in
          let '(n, _, _) := read_digits p'' 0 0 in
          if eneg then - n else n
        else 0
    | EmptyString => 0
    end - Z.of_nat decimals in
  let number := Z_to_float v in
  let scaled :=
    if 0 <=? exponent then (number * Z_to_float (10 ^ exponent))%float
    else (number / Z_to_float (10 ^ (- exponent)))%float in
  if neg then PrimFloat.opp scaled else scaled.

Definition decimal_text : FloatText :=
  {| float_repr := exact_decimal; xstrtod := read_decimal |}.

Section Program.

Context `{FT : FloatText}.

(** ** DataFrame.to_csv(index=False) *)

(** Missing values are written as the empty field. *)
Definition cell_text (v : pyval) : string :=
  match v with
  | PyNone => ""
  | PyBool b => if b then "True" else "False"
  | PyInt z => Z_to_string z
  | PyFloat f => if isnan f then "" else float_repr f
  | PyStr s => s
  end.

Definition row_text (r : list pyval) : list string := cell_text <$> r.

Definition csv_text (df : DataFrame) (header : bool) : string :=
  (if header then csv_writerow (df_columns df) else "")
  +:+ csv_writerows (row_text <$> df_rows df).

Definition to_csv (df : DataFrame) (path : string) (mode : file_mode) (header : bool)
  : M unit :=
  f <- get_fs ;;
  match mode with
  | mode_w => put_fs (<[path := csv_text df header]> f)
  | mode_a => put_fs (<[path := default "" (f !! path) +:+ csv_text df header]> f)
  end.

(** ** pandas.read_csv *)

Definition pad_line (n : nat) (l : list string) : list string :=
  l ++ replicate (n - length l) "".

(** Lines after the first data line: one with more fields than expected is
    an error, one with fewer is filled up with empty fields. *)
Fixpoint end_lines (ex_fields : nat) (ls : list (list string))
  : result (list (list string)) :=
  match ls with
  | [] => Ok []
  | l :: ls' =>
      if Nat.ltb ex_fields (length l) then Raise ParserError
      else match end_lines ex_fields ls' with
           | Ok r => Ok (pad_line ex_fields l :: r)
           | Raise e => Raise e
           end
  end.

(** The first data line is never an error: it may be longer than the
    header, and then its leading fields are the index. *)
Definition data_lines (header : list string) (data : list (list string))
  : result (list (list string)) :=
  match data with
  | [] => Ok []
  | l1 :: rest =>
      let l1' := pad_line (length header) l1 in
      match end_lines (length l1') rest with
      | Ok r => Ok (l1' :: r)
      | Raise e => Raise e
      end
  end.

(** Header names; an empty name is replaced.  Header names are taken to be
    distinct (dict keys are). *)
Definition header_names (header : list string) : list string :=
  imap (fun i s => match s with
                   | EmptyString => "Unnamed: " +:+ Z_to_string (Z.of_nat i)
                   | _ => s
                   end) header.

(** What a column is converted to: int64; int64 with missing values, which
    becomes float64; uint64; float64; bool; bool with missing values, which
    becomes object; text with missing values as NaN; text as it is. *)
Inductive coltype : Type :=
| CInt | CIntNA | CUInt | CFloat | CBool | CBoolNA | CStr | CRaw.

Definition is_int (s : string) : bool :=
  negb (is_na s) && bool_decide (is_Some (str_to_int64 s)).
Definition is_float (s : string) : bool :=
  is_na s || bool_decide (is_Some (to_double s)).
Definition is_bool (s : string) : bool :=
  is_na s || bool_decide (is_Some (to_boolean s)).

(** [_column_has_float] reads the words of the column until one decides:
    a point, or an exponent letter after a digit, is a float; another
    character that is not a digit, or not a blank or a sign before the
    first digit, is not a number, and ends the search. *)
Fixpoint scan_word (found_first_digit : bool) (word : string) : option bool :=
  match word with
  | EmptyString => None
  | String c word' =>
      if Ascii.eqb c "." then Some true
      else if negb found_first_digit
              && (Ascii.eqb c SPACE || Ascii.eqb c "+" || Ascii.eqb c "-")
      then scan_word found_first_digit word'
      else if negb found_first_digit && negb (isdigit_ascii c) then Some false
      else if negb found_first_digit then scan_word true word'
      else if Ascii.eqb c "e" || Ascii.eqb c "E" then Some true
      else if negb (isdigit_ascii c) then Some false
      else scan_word found_first_digit word'
  end.

Fixpoint column_has_float (cells : list string) : bool :=
  match cells with
  | [] => false
  | c :: cells' =>
      if is_na c then column_has_float cells'
      else match scan_word false c with
           | Some b => b
           | None => column_has_float cells'
           end
  end.

(** How an attempt at a conversion of the column ends: converted, not
    convertible (the next type is tried), [OverflowError], [ValueError]. *)
Inductive attempt : Type := Converted | NotConverted | Overflows | Conflict.

(** [_try_int64] stops at the first word with an error. *)
Fixpoint try_int64 (cells : list string) : attempt :=
  match cells with
  | [] => Converted
  | c :: cells' =>
      if is_na c then try_int64 cells'
      else match str_to_int64_error c with
           | None => try_int64 cells'
           | Some ERROR_OVERFLOW => Overflows
           | Some _ => NotConverted
           end
  end.

Record uint_state : Type := {
  seen_sint : bool;
  seen_uint : bool;
  seen_null : bool
}.

(** [_try_uint64]: tried when [_try_int64] overflows.  A column with an
    integer above the signed range and a negative or a missing one cannot
    be a numerical column. *)
Fixpoint try_uint64_words (cells : list string) (st : uint_state) : attempt :=
  match cells with
  | [] =>
      if seen_uint st && (seen_sint st || seen_null st) then Conflict
      else if seen_sint st then Overflows
      else Converted
  | c :: cells' =>
      if is_na c then
        try_uint64_words cells'
          {| seen_sint := seen_sint st; seen_uint := seen_uint st; seen_null := true |}
      else match str_to_uint64 c with
           | SINT =>
               try_uint64_words cells'
                 {| seen_sint := true; seen_uint := seen_uint st;
                    seen_null := seen_null st |}
           | UINT z =>
               try_uint64_words cells'
                 {| seen_sint := seen_sint st;
                    seen_uint := seen_uint st || (INT64_MAX <? z);
                    seen_null := seen_null st |}
           | UINT_ERROR ERROR_OVERFLOW => Overflows
           | UINT_ERROR _ => NotConverted
           end
  end.

Definition try_uint64 (cells : list string) : attempt :=
  try_uint64_words cells
    {| seen_sint := false; seen_uint := false; seen_null := false |}.

(** The types after the integers: float64, bool, text. *)
Definition infer_later (cells : list string) : coltype :=
  if forallb is_float cells then CFloat
  else if forallb is_bool cells then
         (if existsb is_na cells then CBoolNA else CBool)
  else CStr.

(** The conversions are tried in this order on the whole column
    ([_convert_tokens]); the integers are skipped for a column that has a
    float.  An overflow of the unsigned integers leaves the words as text,
    with the missing values as NaN; a conflict leaves them as they are. *)
Definition infer_type (cells : list string) : coltype :=
  match cells with
  | [] => CStr
  | _ =>
      if column_has_float cells then infer_later cells
      else match try_int64 cells with
           | Converted => if existsb is_na cells then CIntNA else CInt
           | Overflows =>
               match try_uint64 cells with
               | Converted => CUInt
               | NotConverted => infer_later cells
               | Overflows => CStr
               | Conflict => CRaw
               end
           | _ => infer_later cells
           end
  end.

Definition dtype_of (t : coltype) : dtype :=
  match t with
  | CInt => Int64
  | CUInt => UInt64
  | CIntNA | CFloat => Float64
  | CBool => BoolT
  | CBoolNA | CStr | CRaw => Object
  end.

(** The value of an unsigned word. *)
Definition uint_of (s : string) : Z :=
  match str_to_uint64 s with
  | UINT z => z
  | _ => 0
  end.

(** In an int64 column with missing values, the missing values are marked
    by the least integer, and every cell that holds it becomes NaN when the
    column is made a float column. *)
Definition convert (t : coltype) (s : string) : pyval :=
  match t with
  | CInt => PyInt (default 0 (str_to_int64 s))
  | CIntNA =>
      let z := if is_na s then INT64_MIN else default 0 (str_to_int64 s) in
      PyFloat (if z =? INT64_MIN then PrimFloat.nan else Z_to_float z)
  | CUInt => PyInt (uint_of s)
  | CFloat => PyFloat (if is_na s then PrimFloat.nan else default PrimFloat.nan (to_double s))
  | CBool => PyBool (default false (to_boolean s))
  | CBoolNA =>
      if is_na s then PyFloat PrimFloat.nan else PyBool (default false (to_boolean s))
  | CStr => if is_na s then PyFloat PrimFloat.nan else PyStr s
  | CRaw => PyStr s
  end.

Definition column (j : nat) (table : list (list string)) : list string :=
  (fun r => nth j r "") <$> table.

Definition column_types (width : nat) (table : list (list string)) : list coltype :=
  (fun j => infer_type (column j table)) <$> seq 0 width.

Definition convert_row (types : list coltype) (r : list string) : list pyval :=
  zip_with convert types r.

Definition frame_of_table (header : list string) (table : list (list string))
  : DataFrame :=
  let width := match table with
               | [] => length header
               | r :: _ => length r
               end in
  let leading := (width - length header)%nat in
  let types := column_types width table in
  let rows := convert_row types <$> table in
  {| df_columns := header_names header;
     df_dtypes := dtype_of <$> drop leading types;
     df_index := match leading with
                 | O => RangeIndex (length table)
                 | S _ => take leading <$> rows
                 end;
     df_rows := drop leading <$> rows |}.

Definition read_csv (text : string) : result DataFrame :=
  match tokenize_all text with
  | Raise e => Raise e
  | Ok [] => Raise EmptyDataError
  | Ok (header :: data) =>
      match data_lines header data with
      | Raise e => Raise e
      | Ok table => Ok (frame_of_table header table)
      end
  end.

(** ** Main.py *)

Definition DATA_FOLDER : string := "data".
Definition CONSENT_CSV : string := DATA_FOLDER +:+ "/consent_data.csv".
Definition DEMOGRAPHIC_CSV : string := DATA_FOLDER +:+ "/demographic_data.csv".
Definition TASK_CSV : string := DATA_FOLDER +:+ "/task_data.csv".
Definition EXIT_CSV : string := DATA_FOLDER +:+ "/exit_data.csv".

(** [save_to_csv] (lines 18 to 24): the row is written with a header when
    the file does not exist, and appended without one when it does. *)
Definition save_to_csv (data_dict : dict) (csv_file : string) : M unit :=
  let df_new := DataFrame_of_record data_dict in
  f <- get_fs ;;
  if negb (isfile f csv_file) then to_csv df_new csv_file mode_w true
  else to_csv df_new csv_file mode_a false.

(** [load_from_csv] (lines 27 to 32) *)
Definition load_from_csv (csv_file : string) : M DataFrame :=
  f <- get_fs ;;
  if isfile f csv_file then lift (read_csv (default "" (f !! csv_file)))
  else ret DataFrame_empty.

(** The clock as a script run reads it: [time.time()] and the local time
    that [time.strftime] formats.  A run is short: it reads one instant. *)
Record struct_time : Type := {
  tm_year : nat; tm_mon : nat; tm_mday : nat;
  tm_hour : nat; tm_min : nat; tm_sec : nat
}.

Record clock : Type := {
  time_time : float;
  localtime : struct_time
}.

Definition pad2 (n : nat) : string := two_digits (Z.of_nat n).

(** [time.strftime("%Y-%m-%d %H:%M:%S")] *)
Definition strftime (t : struct_time) : string :=
  Z_to_string (Z.of_nat (tm_year t)) +:+ "-" +:+ pad2 (tm_mon t) +:+ "-" +:+ pad2 (tm_mday t)
  +:+ " " +:+ pad2 (tm_hour t) +:+ ":" +:+ pad2 (tm_min t) +:+ ":" +:+ pad2 (tm_sec t).

(** What the widgets return in one script run.  The number input keeps
    [age] within 0 and 120 and the sliders keep [satisfaction] and
    [difficulty] within 1 and 5; where a statement depends on it, it says so. *)
Record widgets : Type := {
  consent_given : bool;
  submit_consent : bool;
  name : string;
  age : Z;
  occupation : string;
  familiarity : string;
  submitted : bool;
  selected_task : string;
  start_task_timer : bool;
  stop_task_timer : bool;
  success : string;
  notes : string;
  save_task_results : bool;
  satisfaction : Z;
  difficulty : Z;
  open_feedback : string;
  submitted_exit : bool
}.

Definition consent_dict (ts : string) (given : bool) : dict :=
  [("timestamp", PyStr ts); ("consent_given", PyBool given)].

(** The consent tab (lines 57 to 79) *)
Definition consent_tab (w : widgets) (clk : clock) : M unit :=
  when (submit_consent w)
    (if negb (consent_given w) then
       show (st_warning "You must agree to the consent terms before proceeding.")
     else
       let data_dict := consent_dict (strftime (localtime clk)) (consent_given w) in
       save_to_csv data_dict CONSENT_CSV ;;
       show (st_success "Consent submitted. Thank you!")).

Definition demographic_dict (ts name : string) (age : Z) (occupation familiarity : string)
  : dict :=
  [("timestamp", PyStr ts); ("name", PyStr name); ("age", PyInt age);
   ("occupation", PyStr occupation); ("familiarity", PyStr familiarity)].

(** The demographics tab (lines 81 to 106) *)
Definition demographics_tab (w : widgets) (clk : clock) : M unit :=
  when (submitted w)
    (let data_dict :=
       demographic_dict (strftime (localtime clk)) (name w) (age w)
                        (occupation w) (familiarity w) in
     save_to_csv data_dict DEMOGRAPHIC_CSV ;;
     show (st_success "Demographics submitted. Thank you!")).

Definition task_dict (ts task success : string) (duration_val : pyval) (notes : string)
  : dict :=
  [("timestamp", PyStr ts); ("task_name", PyStr task); ("success", PyStr success);
   ("duration_seconds", if truthy duration_val then duration_val else PyStr "");
   ("notes", PyStr notes)].

(** [st.session_state.get(key, None)] *)
Definition session_get (s : gmap string float) (key : string) : pyval :=
  match s !! key with
  | Some f => PyFloat f
  | None => PyNone
  end.

Fixpoint for_each {A} (l : list A) (body : A -> M unit) : M unit :=
  match l with
  | [] => ret tt
  | x :: l' => body x ;; for_each l' body
  end.

(** The task tab (lines 108 to 140) *)
Definition tasks_tab (w : widgets) (clk : clock) : M unit :=
  when (start_task_timer w)
    (s <- get_session ;;
     put_session (<["start_time" := time_time clk]> s)) ;;
  s <- get_session ;;
  when (stop_task_timer w && bool_decide (is_Some (s !! "start_time")))
    (let duration := (time_time clk - default 0 (s !! "start_time"))%float in
     put_session (<["task_duration" := duration]> s)) ;;
  when (save_task_results w)
    (s <- get_session ;;
     let duration_val := session_get s "task_duration" in
     let data_dict :=
       task_dict (strftime (localtime clk)) (selected_task w) (success w)
                 duration_val (notes w) in
     save_to_csv data_dict TASK_CSV ;;
     show (st_success "Task data saved.") ;;
     for_each ["start_time"; "task_duration"]
       (fun key =>
          s <- get_session ;;
          when (bool_decide (is_Some (s !! key))) (put_session (delete key s)))).

Definition exit_dict (ts : string) (satisfaction difficulty : Z) (open_feedback : string)
  : dict :=
  [("timestamp", PyStr ts); ("satisfaction", PyInt satisfaction);
   ("difficulty", PyInt difficulty); ("open_feedback", PyStr open_feedback)].

(** The exit questionnaire tab (lines 142 to 179) *)
Definition exit_tab (w : widgets) (clk : clock) : M unit :=
  when (submitted_exit w)
    (let data_dict :=
       exit_dict (strftime (localtime clk)) (satisfaction w) (difficulty w)
                 (open_feedback w) in
     save_to_csv data_dict EXIT_CSV ;;
     show (st_success "Exit questionnaire data saved.")).

Definition mean_of (df : DataFrame) (column : string) : M float :=
  s <- lift (df_getitem df column) ;;
  lift (Series_mean s).

(** The aggregated statistics at the end of the report (lines 213 to 217) *)
Definition report_averages (exit_df : DataFrame) : M unit :=
  when (negb (df_empty exit_df))
    (avg_satisfaction <- mean_of exit_df "satisfaction" ;;
     avg_difficulty <- mean_of exit_df "difficulty" ;;
     show (st_write ("**Average Satisfaction (1–5)**: " +:+ format_2f avg_satisfaction)) ;;
     show (st_write ("**Average Difficulty (1–5)**: " +:+ format_2f avg_difficulty))).

(** The report tab (lines 181 to 217) *)
Definition report_tab : M unit :=
  consent_df <- load_from_csv CONSENT_CSV ;;
  (if negb (df_empty consent_df) then show (st_dataframe consent_df)
   else show (st_info "No consent data available yet.")) ;;
  demographic_df <- load_from_csv DEMOGRAPHIC_CSV ;;
  (if negb (df_empty demographic_df) then show (st_dataframe demographic_df)
   else show (st_info "No demographic data available yet.")) ;;
  task_df <- load_from_csv TASK_CSV ;;
  (if negb (df_empty task_df) then show (st_dataframe task_df)
   else show (st_info "No task data available yet.")) ;;
  exit_df <- load_from_csv EXIT_CSV ;;
  (if negb (df_empty exit_df) then show (st_dataframe exit_df)
   else show (st_info "No exit questionnaire data available yet.")) ;;
  report_averages exit_df.

(** One run of the script (lines 35 to 217); titles and fixed texts are
    not recorded. *)
Definition main (w : widgets) (clk : clock) : M unit :=
  consent_tab w clk ;;
  demographics_tab w clk ;;
  tasks_tab w clk ;;
  exit_tab w clk ;;
  report_tab.

(** Streamlit runs the script again on every interaction, on a cleared
    page; files and session state persist, also when the run raised. *)
Definition rerun (w : widgets) (clk : clock) (wd : world) : result unit * world :=
  main w clk {| fs := fs wd; session_state := session_state wd; screen := [] |}.

Definition interact (wd : world) (i : widgets * clock) : world :=
  (rerun i.1 i.2 wd).2.

Definition session (inputs : list (widgets * clock)) (wd : world) : world :=
  foldl interact wd inputs.

Definition world_init : world :=
  {| fs := ∅; session_state := ∅; screen := [] |}.

End Program.

(** * Specification vocabulary *)

Section Vocabulary.

Context `{FT : FloatText}.

(** ** Rows and stores *)

Fixpoint all_blank (s : string) : bool :=
  match s with
  | EmptyString => true
  | String c s' => is_whitespace c && all_blank s'
  end.

(** Rows that the tokenizer does not take for a blank line: a row of one
    field made of blanks only would be skipped. *)
Definition visible_row (r : list string) : bool :=
  match r with
  | [] => false
  | [c] => String.eqb c "" || negb (all_blank c)
  | _ => true
  end.

(** The cells a record is written as. *)
Definition record_row (d : dict) : list string := row_text (values d).

(** The file that holds [rows] under the header [ks]. *)
Definition store_text (ks : list string) (rows : list (list string)) : string :=
  csv_writerows (ks :: rows).

(** A store holds no row when its file does not exist yet. *)
Definition store_holds (f : gmap string string) (path : string)
           (ks : list string) (rows : list (list string)) : Prop :=
  match rows with
  | [] => f !! path = None
  | _ :: _ => f !! path = Some (store_text ks rows)
  end.

(** What [save_to_csv] leaves in the file, from what was there. *)
Definition file_after_save (d : dict) (old : option string) : string :=
  match old with
  | None => csv_writerow (keys d) +:+ csv_writerow (record_row d)
  | Some text => text +:+ csv_writerow (record_row d)
  end.

(** Saving a sequence of records of one kind, one after the other. *)
Definition save_all (ds : list dict) (path : string) : M unit :=
  for_each ds (fun d => save_to_csv d path).

Definition save_if (b : bool) (d : dict) (path : string) (f : gmap string string)
  : gmap string string :=
  if b then <[path := file_after_save d (f !! path)]> f else f.

(** A file that ends where a line ends: the tokenizer is back at the start
    of a record, with the lines [L] read. *)
Definition ends_at_line (text : string) (L : list (list string)) : Prop :=
  tokenize_bytes text parser_new = Build_parser_t START_RECORD "" [] L.

Fixpoint has_char (a : ascii) (s : string) : bool :=
  match s with
  | EmptyString => false
  | String c s' => Ascii.eqb c a || has_char a s'
  end.

(** ** Worlds *)

Definition with_fs (wd : world) (f : gmap string string) : world :=
  {| fs := f; session_state := session_state wd; screen := screen wd |}.

Definition with_session (wd : world) (s : gmap string float) : world :=
  {| fs := fs wd; session_state := s; screen := screen wd |}.

Definition with_screen (wd : world) (l : list ui) : world :=
  {| fs := fs wd; session_state := session_state wd; screen := l |}.

Definition shown (wd : world) (u : ui) : world :=
  {| fs := fs wd; session_state := session_state wd; screen := screen wd ++ [u] |}.

Definition cleared (wd : world) : world :=
  {| fs := fs wd; session_state := session_state wd; screen := [] |}.

(** The file of a stage after a record was saved to it. *)
Definition saved (d : dict) (path : string) (wd : world) : world :=
  with_fs wd (<[path := file_after_save d (fs wd !! path)]> (fs wd)).

(** The report reads and shows, and changes nothing else. *)
Definition readonly {A} (m : M A) : Prop :=
  forall wd, exists (r : result A) (l : list ui),
    m wd = (r, {| fs := fs wd; session_state := session_state wd;
                  screen := screen wd ++ l |}).

(** What a computation shows and how it ends do not depend on the page it
    starts on, and it changes nothing but the page. *)
Definition page_free {A} (m : M A) : Prop :=
  forall wd,
    m wd = ((m (cleared wd)).1,
            with_screen wd (screen wd ++ screen (m (cleared wd)).2)).

(** ** Stages and script runs *)

Inductive stage : Type := Consent | Demographics | Task | Exit.

Definition stage_path (st : stage) : string :=
  match st with
  | Consent => CONSENT_CSV
  | Demographics => DEMOGRAPHIC_CSV
  | Task => TASK_CSV
  | Exit => EXIT_CSV
  end.

(** The keys of the dict each stage builds. *)
Definition stage_keys (st : stage) : list string :=
  match st with
  | Consent => keys (consent_dict "" true)
  | Demographics => keys (demographic_dict "" "" 0 "" "")
  | Task => keys (task_dict "" "" "" PyNone "")
  | Exit => keys (exit_dict "" 0 0 "")
  end.

Inductive button : Type :=
| SubmitConsent | SubmitDemographics | StartTaskTimer | StopTaskTimer
| SaveTaskResults | SubmitExit.

Definition is_button (b b' : button) : bool :=
  match b, b' with
  | SubmitConsent, SubmitConsent | SubmitDemographics, SubmitDemographics
  | StartTaskTimer, StartTaskTimer | StopTaskTimer, StopTaskTimer
  | SaveTaskResults, SaveTaskResults | SubmitExit, SubmitExit => true
  | _, _ => false
  end.

(** A script run is started by one click: the button clicked returns True,
    every other button False; the other widgets keep their values. *)
Definition click (b : button) (w : widgets) : widgets :=
  {| consent_given := consent_given w;
     submit_consent := is_button b SubmitConsent;
     name := name w; age := age w; occupation := occupation w;
     familiarity := familiarity w;
     submitted := is_button b SubmitDemographics;
     selected_task := selected_task w;
     start_task_timer := is_button b StartTaskTimer;
     stop_task_timer := is_button b StopTaskTimer;
     success := success w; notes := notes w;
     save_task_results := is_button b SaveTaskResults;
     satisfaction := satisfaction w; difficulty := difficulty w;
     open_feedback := open_feedback w;
     submitted_exit := is_button b SubmitExit |}.

(** The session state after the two timer buttons of a run were handled. *)
Definition timer_state (w : widgets) (clk : clock) (s : gmap string float)
  : gmap string float :=
  let s1 := if start_task_timer w then <["start_time" := time_time clk]> s else s in
  if stop_task_timer w && bool_decide (is_Some (s1 !! "start_time")) then
    <["task_duration" := (time_time clk - default 0 (s1 !! "start_time"))%float]> s1
  else s1.

(** The record that Save Task Results builds in a run. *)
Definition task_record (w : widgets) (clk : clock) (s : gmap string float) : dict :=
  task_dict (strftime (localtime clk)) (selected_task w) (success w)
            (session_get (timer_state w clk s) "task_duration") (notes w).

(** The session state a run leaves behind. *)
Definition next_session (w : widgets) (clk : clock) (s : gmap string float)
  : gmap string float :=
  if save_task_results w then
    delete "task_duration" (delete "start_time" (timer_state w clk s))
  else timer_state w clk s.

(** The world after the four form tabs of a run. *)
Definition after_forms (w : widgets) (clk : clock) (wd : world) : world :=
  (exit_tab w clk
     (tasks_tab w clk
        (demographics_tab w clk (consent_tab w clk wd).2).2).2).2.

(** Whether a run submits a stage: its button was pressed and, for the
    consent form, the box was checked. *)
Definition pressed (st : stage) (w : widgets) : bool :=
  match st with
  | Consent => submit_consent w && consent_given w
  | Demographics => submitted w
  | Task => save_task_results w
  | Exit => submitted_exit w
  end.

(** The dict a run builds for a stage. *)
Definition stage_record (st : stage) (w : widgets) (clk : clock)
           (s : gmap string float) : dict :=
  match st with
  | Consent => consent_dict (strftime (localtime clk)) true
  | Demographics =>
      demographic_dict (strftime (localtime clk)) (name w) (age w)
                       (occupation w) (familiarity w)
  | Task => task_record w clk s
  | Exit =>
      exit_dict (strftime (localtime clk)) (satisfaction w) (difficulty w)
                (open_feedback w)
  end.

(** The same widget values submitted once per clock reading. *)
Definition resubmit (w : widgets) (clks : list clock) : list (widgets * clock) :=
  (fun c => (w, c)) <$> clks.

(** The value of the duration field of a task record. *)
Definition duration_field (d : dict) : option pyval :=
  snd <$> d !! 3%nat.

(** Every store is either absent or holds rows as wide as its header: the
    stores of a data folder that only this script ever wrote to. *)
Definition stores_ok (f : gmap string string) : Prop :=
  forall st, exists rows,
    store_holds f (stage_path st) (stage_keys st) rows
    /\ Forall (fun r => length r = length (stage_keys st)) rows.

(** ** Consent *)

Definition consent_warning : ui :=
  st_warning "You must agree to the consent terms before proceeding.".

(** Submit Consent pressed with the box unchecked. *)
Definition unchecked_submit (i : widgets * clock) : Prop :=
  submit_consent i.1 = true /\ consent_given i.1 = false.

(** A row of the consent store whose flag is True. *)
Definition consent_flag_true (r : list string) : Prop :=
  exists ts, r = record_row (consent_dict ts true).

Definition consent_store_ok (f : gmap string string) : Prop :=
  exists rows, store_holds f CONSENT_CSV (stage_keys Consent) rows
               /\ Forall consent_flag_true rows.

(** ** Exit questionnaire and report *)

Record exit_answer : Type := {
  ans_timestamp : string;
  ans_satisfaction : Z;
  ans_difficulty : Z;
  ans_feedback : string
}.

Definition exit_record (a : exit_answer) : dict :=
  exit_dict (ans_timestamp a) (ans_satisfaction a) (ans_difficulty a) (ans_feedback a).

Definition exit_rows (answers : list exit_answer) : list (list string) :=
  (fun a => record_row (exit_record a)) <$> answers.

(** What the two sliders can return. *)
Definition on_scale (z : Z) : Prop := 1 <= z <= 5.

Definition valid_answer (a : exit_answer) : Prop :=
  on_scale (ans_satisfaction a) /\ on_scale (ans_difficulty a).

Definition arithmetic_mean (zs : list Z) : float :=
  (Z_to_float (sum_Z zs) / Z_to_float (Z.of_nat (length zs)))%float.

Definition exit_columns : list string :=
  ["timestamp"; "satisfaction"; "difficulty"; "open_feedback"].

Definition satisfaction_line (x : float) : ui :=
  st_write ("**Average Satisfaction (1–5)**: " +:+ format_2f x).

Definition difficulty_line (x : float) : ui :=
  st_write ("**Average Difficulty (1–5)**: " +:+ format_2f x).

(** What the report shows for a store: its table, or that there is none. *)
Definition table_or_info (df : DataFrame) (info : string) : ui :=
  if negb (df_empty df) then st_dataframe df else st_info info.

(** ** Runs, pages and cells *)

(** The six buttons of the page. *)
Definition no_button (w : widgets) : Prop :=
  submit_consent w = false /\ submitted w = false /\ start_task_timer w = false
  /\ stop_task_timer w = false /\ save_task_results w = false
  /\ submitted_exit w = false.

(** Neither key of the timer is in the session state. *)
Definition timer_clear (s : gmap string float) : Prop :=
  s !! "start_time" = None /\ s !! "task_duration" = None.

Definition success_message (st : stage) : ui :=
  match st with
  | Consent => st_success "Consent submitted. Thank you!"
  | Demographics => st_success "Demographics submitted. Thank you!"
  | Task => st_success "Task data saved."
  | Exit => st_success "Exit questionnaire data saved."
  end.

(** The messages of the four forms, in the order of the tabs. *)
Definition form_messages (w : widgets) : list ui :=
  (if submit_consent w
   then [if consent_given w then success_message Consent else consent_warning]
   else [])
  ++ (if submitted w then [success_message Demographics] else [])
  ++ (if save_task_results w then [success_message Task] else [])
  ++ (if submitted_exit w then [success_message Exit] else []).

(** The records that the runs of a session save for a stage, in the order
    of the runs; the task record of a run depends on the session state the
    run starts from. *)
Fixpoint submissions (st : stage) (inputs : list (widgets * clock))
         (s : gmap string float) : list dict :=
  match inputs with
  | [] => []
  | i :: rest =>
      (if pressed st i.1 then [stage_record st i.1 i.2 s] else [])
      ++ submissions st rest (next_session i.1 i.2 s)
  end.

Definition info_messages : list ui :=
  [st_info "No consent data available yet.";
   st_info "No demographic data available yet.";
   st_info "No task data available yet.";
   st_info "No exit questionnaire data available yet."].

(** The two lines of averages, when there is an answer. *)
Definition averages (answers : list exit_answer) : list ui :=
  match answers with
  | [] => []
  | _ :: _ =>
      [satisfaction_line (arithmetic_mean (ans_satisfaction <$> answers));
       difficulty_line (arithmetic_mean (ans_difficulty <$> answers))]
  end.

(** The exit store holds answers on the scale of the sliders. *)
Definition exit_store_ok (f : gmap string string) : Prop :=
  exists answers,
    store_holds f EXIT_CSV (stage_keys Exit) (exit_rows answers)
    /\ Forall valid_answer answers.

Definition sliders_on_scale (w : widgets) : Prop :=
  on_scale (satisfaction w) /\ on_scale (difficulty w).

(** The answer that Submit Exit Questionnaire saves in a run. *)
Definition run_answer (w : widgets) (clk : clock) : exit_answer :=
  {| ans_timestamp := strftime (localtime clk); ans_satisfaction := satisfaction w;
     ans_difficulty := difficulty w; ans_feedback := open_feedback w |}.




(** Every record of [ds] holds at [j] a value that [P] holds of. *)
Definition column_holds (P : pyval -> Prop) (j : nat) (ds : list dict) : Prop :=
  Forall (fun d => exists v, values d !! j = Some v /\ P v) ds.

(** A word that holds an integer outside the signed 64 bits. *)
Definition overflows_int64 (s : string) : bool :=
  match str_to_int64_error s with
  | Some ERROR_OVERFLOW => true
  | _ => false
  end.

(** A float whose text is read back as the same float, and not as an
    integer, in the signed 64 bits or outside them, or a missing value:
    what [repr] and the reader of pandas do for the durations of a session,
    as far as the reader is exact. *)
Definition prints_exactly (f : float) : Prop :=
  isnan f = false
  /\ is_na (float_repr f) = false
  /\ str_to_int64 (float_repr f) = None
  /\ overflows_int64 (float_repr f) = false
  /\ float_syntax (float_repr f) = true
  /\ xstrtod (float_repr f) = f.

(** What a duration is saved as: nothing, or a float. *)
Definition float_or_nothing (v : pyval) : Prop :=
  v = PyStr "" \/ exists f, v = PyFloat f /\ prints_exactly f.

(** A text of line feeds, spaces and tabs. *)
Fixpoint only_blanks (s : string) : bool :=
  match s with
  | EmptyString => true
  | String c s' => (Ascii.eqb c LF || is_whitespace c) && only_blanks s'
  end.

End Vocabulary.

(** ** Data for the concrete runs *)

Definition example_widgets : widgets :=
  {| consent_given := false; submit_consent := false;
     name := "Ada"; age := 36; occupation := "Engineer";
     familiarity := "I'm slightly familiar"; submitted := false;
     selected_task := "Task 1: Example Task";
     start_task_timer := false; stop_task_timer := false;
     success := "Yes"; notes := ""; save_task_results := false;
     satisfaction := 3; difficulty := 3; open_feedback := "";
     submitted_exit := false |}.

(** 7 March 2024, 09:05 and [sec] seconds, [seconds] on the system clock. *)
Definition clock_at (seconds : float) (sec : nat) : clock :=
  {| time_time := seconds;
     localtime := {| tm_year := 2024; tm_mon := 3; tm_mday := 7;
                     tm_hour := 9; tm_min := 5; tm_sec := sec |} |}.

Definition line (s : string) : string := s +:+ String LF "".

Definition answer (ts : string) (s d : Z) (fb : string) : exit_answer :=
  {| ans_timestamp := ts; ans_satisfaction := s; ans_difficulty := d;
     ans_feedback := fb |}.

Definition with_answers (s d : Z) (fb : string) (w : widgets) : widgets :=
  {| consent_given := consent_given w; submit_consent := submit_consent w;
     name := name w; age := age w; occupation := occupation w;
     familiarity := familiarity w; submitted := submitted w;
     selected_task := selected_task w;
     start_task_timer := start_task_timer w; stop_task_timer := stop_task_timer w;
     success := success w; notes := notes w;
     save_task_results := save_task_results w;
     satisfaction := s; difficulty := d; open_feedback := fb;
     submitted_exit := submitted_exit w |}.


Definition unchecked_press (sec : nat) : widgets * clock :=
  (click SubmitConsent example_widgets, clock_at 100 sec).

Definition checked_press (sec : nat) : widgets * clock :=
  (click SubmitConsent
     {| consent_given := true; submit_consent := false;
        name := ""; age := 0; occupation := ""; familiarity := "";
        submitted := false; selected_task := "Task 1: Example Task";
        start_task_timer := false; stop_task_timer := false;
        success := "Yes"; notes := ""; save_task_results := false;
        satisfaction := 3; difficulty := 3; open_feedback := "";
        submitted_exit := false |},
   clock_at 100 sec).

Definition three_answers : list exit_answer :=
  [answer "2024-03-07 09:05:00" 5 2 "a,b";
   answer "2024-03-07 09:05:01" 4 3 "";
   answer "2024-03-07 09:05:02" 3 4 "none"].

Definition three_exit_submissions : list (widgets * clock) :=
  [(click SubmitExit (with_answers 5 2 "a,b" example_widgets), clock_at 100 0);
   (click SubmitExit (with_answers 4 3 "" example_widgets), clock_at 101 1);
   (click SubmitExit (with_answers 3 4 "none" example_widgets), clock_at 102 2)].

Definition one_answer_world : world :=
  (save_to_csv (FT := decimal_text) (exit_dict "2024-03-07 09:05:00" 4 3 "")
               EXIT_CSV world_init).2.

(** A consent store to which an exit record was appended: it cannot be read. *)
Definition mismatched_world : world :=
  (save_all (FT := decimal_text) [consent_dict "2024-03-07 09:05:00" true;
             exit_dict "2024-03-07 09:06:00" 5 1 "none"]
            CONSENT_CSV world_init).2.

(** A consent file of two blank lines. *)
Definition blank_consent_world : world :=
  with_fs world_init (<[CONSENT_CSV := line "" +:+ line "  "]> ∅).

(** An exit file that holds a consent record. *)
Definition misfiled_world : world :=
  (save_to_csv (FT := decimal_text) (consent_dict "2024-03-07 09:05:00" true)
               EXIT_CSV world_init).2.

Definition two_task_records : list dict :=
  [task_dict "2024-03-07 09:05:20" "Task 1: Example Task" "Yes" (PyFloat 12.5) "";
   task_dict "2024-03-07 09:07:00" "Task 1: Example Task" "No" (PyStr "") "gave up"].

Definition two_demographic_records : list dict :=
  [stage_record Demographics example_widgets (clock_at 100 0) ∅;
   demographic_dict "2024-03-07 09:09:00" "None" 120 "" "I've never used it"].

Definition start_press : widgets * clock :=
  (click StartTaskTimer example_widgets, clock_at 100 0).

Definition stop_press : widgets * clock :=
  (click StopTaskTimer example_widgets, clock_at 112.5 12).

(** * Facts *)

(** ** Strings *)

Lemma append_cons (c : ascii) (s t : string) : String c s +:+ t = String c (s +:+ t).
Proof. reflexivity. Qed.

Lemma append_one (c : ascii) (t : string) : String c "" +:+ t = String c t.
Proof. reflexivity. Qed.

Lemma append_nil_r (s : string) : s +:+ "" = s.
Proof.
  induction s as [|c s IH]; [reflexivity | now rewrite append_cons, IH].
Qed.

Lemma append_assoc (s1 s2 s3 : string) : (s1 +:+ s2) +:+ s3 = s1 +:+ (s2 +:+ s3).
Proof.
  induction s1 as [|c s1 IH]; [reflexivity | now rewrite !append_cons, IH].
Qed.

Lemma append_snoc (w : string) (c : ascii) (s : string) :
  (w +:+ String c "") +:+ s = w +:+ String c s.
Proof. now rewrite append_assoc. Qed.

(** ** The tokenizer reads back what the writer wrote *)

Lemma tokenize_bytes_app (s1 s2 : string) (p : parser_t) :
  tokenize_bytes (s1 +:+ s2) p = tokenize_bytes s2 (tokenize_bytes s1 p).
Proof.
  revert p; induction s1 as [|c s1 IH]; intros p; [reflexivity |].
  rewrite append_cons. simpl. apply IH.
Qed.

Lemma is_special_false (c : ascii) :
  is_special c = false ->
  Ascii.eqb c COMMA = false /\ Ascii.eqb c QUOTE = false
  /\ Ascii.eqb c LF = false /\ Ascii.eqb c CR = false.
Proof.
  unfold is_special. intros H.
  repeat (apply orb_false_iff in H; destruct H as [H ?]). auto.
Qed.

Lemma needs_quoting_cons (c : ascii) (s : string) :
  needs_quoting (String c s) = false -> is_special c = false /\ needs_quoting s = false.
Proof. simpl. intros H. now apply orb_false_iff in H. Qed.

Ltac plain_char H :=
  let Hc := fresh "Hcomma" in
  let Hq := fresh "Hquote" in
  let Hl := fresh "Hlf" in
  let Hr := fresh "Hcr" in
  destruct (is_special_false _ H) as (Hc & Hq & Hl & Hr).

Lemma in_field_plain (s w : string) (fl : list string) (L : list (list string)) :
  needs_quoting s = false ->
  tokenize_bytes s (Build_parser_t IN_FIELD w fl L)
  = Build_parser_t IN_FIELD (w +:+ s) fl L.
Proof.
  revert w. induction s as [|c s IH]; intros w Hs.
  - simpl. now rewrite append_nil_r.
  - apply needs_quoting_cons in Hs. destruct Hs as [Hc Hs]. plain_char Hc.
    simpl. unfold tokenize_byte, in_field; simpl.
    rewrite Hlf, Hcr, Hcomma. unfold push_char; simpl.
    rewrite IH by assumption. now rewrite append_snoc.
Qed.

Lemma whitespace_line_plain (s w : string) (L : list (list string)) :
  needs_quoting s = false ->
  tokenize_bytes s (Build_parser_t WHITESPACE_LINE w [] L)
  = Build_parser_t (if all_blank s then WHITESPACE_LINE else IN_FIELD) (w +:+ s) [] L.
Proof.
  revert w. induction s as [|c s IH]; intros w Hs.
  - simpl. now rewrite append_nil_r.
  - apply needs_quoting_cons in Hs. destruct Hs as [Hc Hs]. plain_char Hc.
    simpl. unfold tokenize_byte; simpl. rewrite Hlf, Hcr.
    destruct (is_whitespace c) eqn:Hw; simpl.
    + unfold push_char; simpl. rewrite IH by assumption. now rewrite append_snoc.
    + unfold in_field, set_state; simpl. rewrite Hlf, Hcr, Hcomma.
      unfold push_char; simpl.
      rewrite in_field_plain by assumption. now rewrite append_snoc.
Qed.

Lemma start_record_plain (c : ascii) (s : string) (L : list (list string)) :
  needs_quoting (String c s) = false ->
  tokenize_bytes (String c s) (Build_parser_t START_RECORD "" [] L)
  = Build_parser_t (if all_blank (String c s) then WHITESPACE_LINE else IN_FIELD)
                   (String c s) [] L.
Proof.
  intros Hs. apply needs_quoting_cons in Hs. destruct Hs as [Hc Hs]. plain_char Hc.
  simpl. unfold tokenize_byte, start_record; simpl. rewrite Hlf, Hcr.
  destruct (is_whitespace c) eqn:Hw; simpl.
  - unfold set_state, push_char; simpl. now rewrite whitespace_line_plain.
  - unfold start_field; simpl. rewrite Hlf, Hcr, Hquote, Hcomma.
    unfold set_state, push_char; simpl. now rewrite in_field_plain.
Qed.

Lemma start_field_plain (c : ascii) (s : string) (fl : list string) (L : list (list string)) :
  needs_quoting (String c s) = false ->
  tokenize_bytes (String c s) (Build_parser_t START_FIELD "" fl L)
  = Build_parser_t IN_FIELD (String c s) fl L.
Proof.
  intros Hs. apply needs_quoting_cons in Hs. destruct Hs as [Hc Hs]. plain_char Hc.
  simpl. unfold tokenize_byte, start_field; simpl. rewrite Hlf, Hcr, Hquote, Hcomma.
  unfold set_state, push_char; simpl. now rewrite in_field_plain.
Qed.

Lemma in_quoted_field (s w : string) (fl : list string) (L : list (list string)) :
  tokenize_bytes (double_quotes s) (Build_parser_t IN_QUOTED_FIELD w fl L)
  = Build_parser_t IN_QUOTED_FIELD (w +:+ s) fl L.
Proof.
  revert w. induction s as [|c s IH]; intros w.
  - simpl. now rewrite append_nil_r.
  - simpl. destruct (Ascii.eqb c QUOTE) eqn:Hq.
    + apply Ascii.eqb_eq in Hq. subst c. simpl. unfold tokenize_byte; simpl.
      unfold set_state, push_char; simpl. rewrite IH. now rewrite append_snoc.
    + simpl. unfold tokenize_byte; simpl. rewrite Hq.
      unfold push_char; simpl. rewrite IH. now rewrite append_snoc.
Qed.

(** A quoted field, from either state in which a field may start. *)
Lemma quoted_field (s : string) (st : ParserState) (fl : list string)
      (L : list (list string)) :
  st = START_FIELD \/ (st = START_RECORD /\ fl = []) ->
  tokenize_bytes (String QUOTE (double_quotes s +:+ String QUOTE ""))
                 (Build_parser_t st "" fl L)
  = Build_parser_t QUOTE_IN_QUOTED_FIELD s fl L.
Proof.
  intros Hst.
  assert (Hopen : tokenize_byte QUOTE (Build_parser_t st "" fl L)
                  = Build_parser_t IN_QUOTED_FIELD "" fl L).
  { destruct Hst as [-> | [-> ->]]; reflexivity. }
  change (tokenize_bytes (String QUOTE ?x) ?p)
    with (tokenize_bytes x (tokenize_byte QUOTE p)).
  rewrite Hopen, tokenize_bytes_app, in_quoted_field. reflexivity.
Qed.

Lemma field_then_comma (s : string) (st : ParserState) (fl : list string)
      (L : list (list string)) (rest : string) :
  st = START_FIELD \/ (st = START_RECORD /\ fl = []) ->
  tokenize_bytes (csv_field s +:+ String COMMA rest) (Build_parser_t st "" fl L)
  = tokenize_bytes rest (Build_parser_t START_FIELD "" (fl ++ [s]) L).
Proof.
  intros Hst. rewrite tokenize_bytes_app. unfold csv_field.
  destruct (needs_quoting s) eqn:Hq.
  - rewrite quoted_field by assumption. reflexivity.
  - destruct s as [|c s].
    + destruct Hst as [-> | [-> ->]]; reflexivity.
    + destruct Hst as [-> | [-> ->]].
      * rewrite start_field_plain by assumption. reflexivity.
      * rewrite start_record_plain by assumption.
        destruct (all_blank (String c s)); reflexivity.
Qed.

Lemma field_then_lf (s : string) (fl : list string) (L : list (list string))
      (rest : string) :
  tokenize_bytes (csv_field s +:+ String LF rest) (Build_parser_t START_FIELD "" fl L)
  = tokenize_bytes rest (Build_parser_t START_RECORD "" [] (L ++ [fl ++ [s]])).
Proof.
  rewrite tokenize_bytes_app. unfold csv_field.
  destruct (needs_quoting s) eqn:Hq.
  - rewrite quoted_field by auto. reflexivity.
  - destruct s as [|c s]; [reflexivity |].
    rewrite start_field_plain by assumption. reflexivity.
Qed.

Lemma single_field_lf (s : string) (L : list (list string)) (rest : string) :
  s <> "" -> all_blank s = false ->
  tokenize_bytes (csv_field s +:+ String LF rest) (Build_parser_t START_RECORD "" [] L)
  = tokenize_bytes rest (Build_parser_t START_RECORD "" [] (L ++ [[s]])).
Proof.
  intros Hne Hb. rewrite tokenize_bytes_app. unfold csv_field.
  destruct (needs_quoting s) eqn:Hq.
  - rewrite quoted_field by auto. reflexivity.
  - destruct s as [|c s]; [congruence |].
    rewrite start_record_plain by assumption. rewrite Hb. reflexivity.
Qed.

Lemma join_fields_cons (c c' : string) (cs : list string) :
  join_fields (c :: c' :: cs) = csv_field c +:+ String COMMA (join_fields (c' :: cs)).
Proof. reflexivity. Qed.

(** The fields of a line after its first one. *)
Lemma fields_then_lf (cells : list string) (fl : list string) (L : list (list string))
      (rest : string) :
  cells <> [] ->
  tokenize_bytes (join_fields cells +:+ String LF rest)
                 (Build_parser_t START_FIELD "" fl L)
  = tokenize_bytes rest (Build_parser_t START_RECORD "" [] (L ++ [fl ++ cells])).
Proof.
  revert fl. induction cells as [|c cells IH]; intros fl Hne; [congruence |].
  destruct cells as [|c' cells].
  - apply field_then_lf.
  - rewrite join_fields_cons, (append_assoc (csv_field c) _ _), append_cons.
    rewrite field_then_comma by auto.
    rewrite IH by discriminate. now rewrite <- app_assoc.
Qed.

Lemma csv_writerow_read (r : list string) (L : list (list string)) (rest : string) :
  visible_row r = true ->
  tokenize_bytes (csv_writerow r +:+ rest) (Build_parser_t START_RECORD "" [] L)
  = tokenize_bytes rest (Build_parser_t START_RECORD "" [] (L ++ [r])).
Proof.
  intros Hv. destruct r as [|c [|c' cells]]; [discriminate | |].
  - unfold csv_writerow. destruct c as [|a c]; [reflexivity |].
    simpl in Hv. apply negb_true_iff in Hv.
    change (String.eqb (String a c) "") with false. cbv iota.
    rewrite (append_assoc (csv_field _) (String LF "") rest), append_one.
    apply single_field_lf; [discriminate | exact Hv].
  - unfold csv_writerow. rewrite join_fields_cons.
    rewrite (append_assoc (csv_field c +:+ _) (String LF "") rest), append_one.
    rewrite (append_assoc (csv_field c) _ _), append_cons.
    rewrite field_then_comma by auto.
    rewrite fields_then_lf by discriminate. reflexivity.
Qed.

Lemma csv_writerows_app (rows1 rows2 : list (list string)) :
  csv_writerows (rows1 ++ rows2) = csv_writerows rows1 +:+ csv_writerows rows2.
Proof.
  induction rows1 as [|r rows1 IH]; [reflexivity |].
  simpl. rewrite IH. now rewrite append_assoc.
Qed.

Lemma csv_writerows_read (rows : list (list string)) (L : list (list string)) :
  Forall (fun r => visible_row r = true) rows ->
  tokenize_bytes (csv_writerows rows) (Build_parser_t START_RECORD "" [] L)
  = Build_parser_t START_RECORD "" [] (L ++ rows).
Proof.
  intros Hv. revert L. induction Hv as [|r rows Hr _ IH]; intros L.
  - simpl. now rewrite app_nil_r.
  - simpl. rewrite csv_writerow_read by assumption. rewrite IH.
    now rewrite <- app_assoc.
Qed.

(** Reading the text of visible rows gives back the rows. *)
Lemma tokenize_all_writerows (rows : list (list string)) :
  Forall (fun r => visible_row r = true) rows ->
  tokenize_all (csv_writerows rows) = Ok rows.
Proof.
  intros Hv. unfold tokenize_all, parser_new.
  rewrite csv_writerows_read by assumption. reflexivity.
Qed.

Section Facts.

Context `{FT : FloatText}.

(** ** Stores *)

Lemma save_to_csv_run (d : dict) (path : string) (wd : world) :
  save_to_csv d path wd
  = (Ok tt, with_fs wd (<[path := file_after_save d (fs wd !! path)]> (fs wd))).
Proof.
  unfold save_to_csv, bind, get_fs, isfile, file_after_save, record_row.
  destruct (fs wd !! path) as [text|] eqn:Hf.
  - rewrite bool_decide_eq_true_2 by eauto. simpl.
    unfold to_csv, bind, get_fs, put_fs, with_fs, csv_text. simpl.
    rewrite Hf. simpl. now rewrite append_nil_r.
  - rewrite bool_decide_eq_false_2 by (intros [? ?]; discriminate). simpl.
    unfold to_csv, bind, get_fs, put_fs, with_fs, csv_text. simpl.
    now rewrite append_nil_r.
Qed.

Lemma load_from_csv_run (path : string) (wd : world) :
  load_from_csv path wd
  = (match fs wd !! path with
     | Some text => read_csv text
     | None => Ok DataFrame_empty
     end, wd).
Proof.
  unfold load_from_csv, bind, get_fs, isfile.
  destruct (fs wd !! path) as [text|] eqn:Hf.
  - rewrite bool_decide_eq_true_2 by eauto. reflexivity.
  - rewrite bool_decide_eq_false_2 by (intros [? ?]; discriminate). reflexivity.
Qed.

Lemma store_holds_save (f : gmap string string) (path : string) (d : dict)
      (rows : list (list string)) :
  store_holds f path (keys d) rows ->
  store_holds (<[path := file_after_save d (f !! path)]> f) path (keys d)
              (rows ++ [record_row d]).
Proof.
  unfold store_holds. destruct rows as [|r rows]; intros Hf; rewrite Hf; simpl.
  - rewrite lookup_insert_eq. unfold store_text. simpl. now rewrite append_nil_r.
  - rewrite lookup_insert_eq. f_equal. unfold store_text.
    change (keys d :: r :: rows ++ [record_row d])
      with ((keys d :: r :: rows) ++ [record_row d]).
    rewrite csv_writerows_app. simpl. now rewrite append_nil_r.
Qed.


(** ** Reading a store *)

Lemma pad_line_full (n : nat) (l : list string) : length l = n -> pad_line n l = l.
Proof.
  intros <-. unfold pad_line. rewrite Nat.sub_diag. simpl. apply app_nil_r.
Qed.

Lemma end_lines_even (n : nat) (rows : list (list string)) :
  Forall (fun r => length r = n) rows -> end_lines n rows = Ok rows.
Proof.
  induction 1 as [|r rows Hr _ IH]; [reflexivity |].
  simpl. rewrite Hr. rewrite Nat.ltb_irrefl. rewrite IH.
  rewrite <- Hr at 1. now rewrite pad_line_full.
Qed.

Lemma data_lines_even (header : list string) (rows : list (list string)) :
  Forall (fun r => length r = length header) rows -> data_lines header rows = Ok rows.
Proof.
  intros Hrows. destruct rows as [|r rows]; [reflexivity |].
  inversion Hrows as [|? ? Hr Hrest]; subst. unfold data_lines.
  rewrite (pad_line_full (length header) r Hr), Hr.
  now rewrite end_lines_even.
Qed.

Lemma visible_row_wide (r : list string) : (1 < length r)%nat -> visible_row r = true.
Proof. destruct r as [|c [|c' r]]; simpl; [lia | lia | reflexivity]. Qed.

(** A store of rows as wide as its header reads back as the table of its
    rows. *)
Lemma read_csv_store (ks : list string) (rows : list (list string)) :
  (1 < length ks)%nat ->
  Forall (fun r => length r = length ks) rows ->
  read_csv (store_text ks rows) = Ok (frame_of_table ks rows).
Proof.
  intros Hks Hrows. unfold read_csv, store_text.
  rewrite tokenize_all_writerows.
  - now rewrite data_lines_even.
  - constructor; [now apply visible_row_wide |].
    eapply Forall_impl; [exact Hrows |]. simpl. intros r Hr.
    apply visible_row_wide. now rewrite Hr.
Qed.

Lemma frame_of_table_rows (ks : list string) (rows : list (list string)) :
  Forall (fun r => length r = length ks) rows ->
  df_rows (frame_of_table ks rows)
  = convert_row (column_types (length ks) rows) <$> rows.
Proof.
  intros Hrows. unfold frame_of_table. simpl.
  destruct rows as [|r rows]; [reflexivity |].
  inversion Hrows as [|? ? Hr _]; subst. rewrite Hr, Nat.sub_diag.
  simpl. f_equal. rewrite <- list_fmap_compose.
  apply list_fmap_ext. intros ? ? ?. reflexivity.
Qed.

(** Loading a store: one row per row held, in order. *)
Lemma load_store (wd : world) (path : string) (ks : list string)
      (rows : list (list string)) :
  (1 < length ks)%nat ->
  Forall (fun r => length r = length ks) rows ->
  store_holds (fs wd) path ks rows ->
  exists df, load_from_csv path wd = (Ok df, wd)
             /\ df_rows df = convert_row (column_types (length ks) rows) <$> rows.
Proof.
  intros Hks Hwidth Hst. rewrite load_from_csv_run. unfold store_holds in Hst.
  destruct rows as [|r rows]; rewrite Hst.
  - exists DataFrame_empty. split; reflexivity.
  - rewrite read_csv_store by assumption. eexists. split; [reflexivity |].
    now apply frame_of_table_rows.
Qed.

(** ** The four stages *)

Lemma stage_keys_wide (st : stage) : (1 < length (stage_keys st))%nat.
Proof. destruct st; simpl; lia. Qed.

Lemma record_row_length (d : dict) : length (record_row d) = length (keys d).
Proof. unfold record_row, row_text, values, keys. now rewrite !length_fmap. Qed.


(** ** One script run *)

Lemma consent_tab_run (w : widgets) (clk : clock) (wd : world) :
  consent_tab w clk wd
  = (Ok tt,
     if submit_consent w then
       if consent_given w then
         shown (saved (consent_dict (strftime (localtime clk)) true) CONSENT_CSV wd)
               (st_success "Consent submitted. Thank you!")
       else shown wd (st_warning "You must agree to the consent terms before proceeding.")
     else wd).
Proof.
  unfold consent_tab, when.
  destruct (submit_consent w); [|reflexivity].
  destruct (consent_given w); simpl; [|reflexivity].
  unfold bind. rewrite save_to_csv_run. reflexivity.
Qed.

Lemma demographics_tab_run (w : widgets) (clk : clock) (wd : world) :
  demographics_tab w clk wd
  = (Ok tt,
     if submitted w then
       shown (saved (demographic_dict (strftime (localtime clk)) (name w) (age w)
                                      (occupation w) (familiarity w))
                    DEMOGRAPHIC_CSV wd)
             (st_success "Demographics submitted. Thank you!")
     else wd).
Proof.
  unfold demographics_tab, when.
  destruct (submitted w); [|reflexivity].
  unfold bind. rewrite save_to_csv_run. reflexivity.
Qed.

Lemma exit_tab_run (w : widgets) (clk : clock) (wd : world) :
  exit_tab w clk wd
  = (Ok tt,
     if submitted_exit w then
       shown (saved (exit_dict (strftime (localtime clk)) (satisfaction w) (difficulty w)
                               (open_feedback w))
                    EXIT_CSV wd)
             (st_success "Exit questionnaire data saved.")
     else wd).
Proof.
  unfold exit_tab, when.
  destruct (submitted_exit w); [|reflexivity].
  unfold bind. rewrite save_to_csv_run. reflexivity.
Qed.

Lemma delete_if_present (key : string) (wd : world) :
  (s <- get_session ;;
   when (bool_decide (is_Some (s !! key))) (put_session (delete key s))) wd
  = (Ok tt, with_session wd (delete key (session_state wd))).
Proof.
  unfold bind, get_session, when, put_session, with_session.
  destruct (session_state wd !! key) eqn:Hk.
  - rewrite bool_decide_eq_true_2 by eauto. reflexivity.
  - rewrite bool_decide_eq_false_2 by (intros [? ?]; discriminate).
    rewrite delete_id by assumption. simpl. destruct wd; reflexivity.
Qed.

Lemma tasks_tab_run (w : widgets) (clk : clock) (wd : world) :
  tasks_tab w clk wd
  = (Ok tt,
     let s := timer_state w clk (session_state wd) in
     if save_task_results w then
       with_session
         (shown (saved (task_record w clk (session_state wd)) TASK_CSV wd)
                (st_success "Task data saved."))
         (delete "task_duration" (delete "start_time" s))
     else with_session wd s).
Proof.
  unfold tasks_tab, task_record, timer_state.
  unfold bind at 1. unfold when at 1.
  pose (s1 := if start_task_timer w
              then <["start_time" := time_time clk]> (session_state wd)
              else session_state wd).
  assert (Hstart :
    (if start_task_timer w
     then bind get_session
            (fun s => put_session (<["start_time" := time_time clk]> s))
     else ret tt) wd = (Ok tt, with_session wd s1)).
  { subst s1. destruct (start_task_timer w); [reflexivity |].
    destruct wd; reflexivity. }
  rewrite Hstart. clear Hstart.
  unfold bind at 1. unfold get_session at 1. simpl session_state.
  unfold bind at 1. unfold when at 1.
  pose (s2 := if stop_task_timer w && bool_decide (is_Some (s1 !! "start_time"))
              then <["task_duration" :=
                       (time_time clk - default 0 (s1 !! "start_time"))%float]> s1
              else s1).
  assert (Hstop :
    (if stop_task_timer w && bool_decide (is_Some (s1 !! "start_time"))
     then put_session
            (<["task_duration" := (time_time clk - default 0 (s1 !! "start_time"))%float]> s1)
     else ret tt) (with_session wd s1) = (Ok tt, with_session wd s2)).
  { subst s2. destruct (stop_task_timer w && _); reflexivity. }
  rewrite Hstop. clear Hstop.
  unfold when at 1. destruct (save_task_results w); [|reflexivity].
  unfold bind at 1. unfold get_session at 1. simpl session_state.
  unfold bind at 1. rewrite save_to_csv_run.
  unfold bind at 1. unfold show at 1.
  simpl for_each. unfold bind at 1. rewrite delete_if_present.
  unfold bind at 1. rewrite delete_if_present. reflexivity.
Qed.

Lemma readonly_ret {A} (a : A) : readonly (ret a).
Proof. intros wd. exists (Ok a), []. rewrite app_nil_r. destruct wd; reflexivity. Qed.

Lemma readonly_lift {A} (r : result A) : readonly (lift r).
Proof. intros wd. exists r, []. rewrite app_nil_r. destruct wd; reflexivity. Qed.

Lemma readonly_show (u : ui) : readonly (show u).
Proof. intros wd. exists (Ok tt), [u]. reflexivity. Qed.

Lemma readonly_bind {A B} (m : M A) (k : A -> M B) :
  readonly m -> (forall a, readonly (k a)) -> readonly (bind m k).
Proof.
  intros Hm Hk wd. unfold bind. destruct (Hm wd) as (r & l & ->).
  destruct r as [a|e].
  - destruct (Hk a {| fs := fs wd; session_state := session_state wd;
                      screen := screen wd ++ l |}) as (r' & l' & ->).
    exists r', (l ++ l'). simpl. now rewrite app_assoc.
  - exists (Raise e), l. reflexivity.
Qed.

Lemma readonly_load (path : string) : readonly (load_from_csv path).
Proof.
  intros wd. rewrite load_from_csv_run. eexists _, []. rewrite app_nil_r.
  destruct wd; reflexivity.
Qed.

Ltac readonly_steps :=
  repeat first
    [ apply readonly_load | apply readonly_show | apply readonly_ret
    | apply readonly_lift
    | match goal with |- readonly (if ?b then _ else _) => destruct b end
    | apply readonly_bind; [|intros ?] ].

Lemma readonly_report_averages (df : DataFrame) : readonly (report_averages df).
Proof. unfold report_averages, when, mean_of. readonly_steps. Qed.

Lemma readonly_report_tab : readonly report_tab.
Proof.
  unfold report_tab.
  repeat first
    [ apply readonly_load | apply readonly_show | apply readonly_report_averages
    | match goal with |- readonly (if ?b then _ else _) => destruct b end
    | apply readonly_bind; [|intros ?] ].
Qed.

Lemma main_run (w : widgets) (clk : clock) (wd : world) :
  main w clk wd = report_tab (after_forms w clk wd).
Proof.
  unfold main, after_forms. unfold bind at 1. rewrite consent_tab_run. simpl.
  unfold bind at 1. rewrite demographics_tab_run. simpl.
  unfold bind at 1. rewrite tasks_tab_run. simpl.
  unfold bind at 1. rewrite exit_tab_run. reflexivity.
Qed.

Lemma save_if_lookup_ne (b : bool) (d : dict) (path path' : string)
      (f : gmap string string) :
  path <> path' -> save_if b d path f !! path' = f !! path'.
Proof. intros Hne. unfold save_if. destruct b; [now rewrite lookup_insert_ne | reflexivity]. Qed.

Lemma save_if_lookup (b : bool) (d : dict) (path : string) (f : gmap string string) :
  save_if b d path f !! path
  = if b then Some (file_after_save d (f !! path)) else f !! path.
Proof. unfold save_if. destruct b; [now rewrite lookup_insert_eq | reflexivity]. Qed.

Lemma after_forms_fs (w : widgets) (clk : clock) (wd : world) :
  fs (after_forms w clk wd)
  = save_if (submitted_exit w)
      (exit_dict (strftime (localtime clk)) (satisfaction w) (difficulty w)
                 (open_feedback w)) EXIT_CSV
      (save_if (save_task_results w) (task_record w clk (session_state wd)) TASK_CSV
         (save_if (submitted w)
            (demographic_dict (strftime (localtime clk)) (name w) (age w)
                              (occupation w) (familiarity w)) DEMOGRAPHIC_CSV
            (save_if (submit_consent w && consent_given w)
               (consent_dict (strftime (localtime clk)) true) CONSENT_CSV (fs wd)))).
Proof.
  unfold after_forms.
  rewrite exit_tab_run, tasks_tab_run, demographics_tab_run, consent_tab_run.
  destruct (submit_consent w), (consent_given w), (submitted w),
    (save_task_results w), (submitted_exit w); reflexivity.
Qed.

Lemma after_forms_session (w : widgets) (clk : clock) (wd : world) :
  session_state (after_forms w clk wd) = next_session w clk (session_state wd).
Proof.
  unfold after_forms, next_session.
  rewrite exit_tab_run, tasks_tab_run, demographics_tab_run, consent_tab_run.
  destruct (submit_consent w), (consent_given w), (submitted w),
    (save_task_results w), (submitted_exit w); reflexivity.
Qed.

Lemma after_forms_warning (w : widgets) (clk : clock) (wd : world) :
  submit_consent w = true -> consent_given w = false ->
  exists l, screen (after_forms w clk wd)
            = screen wd
              ++ st_warning "You must agree to the consent terms before proceeding." :: l.
Proof.
  intros Hs Hg. unfold after_forms.
  rewrite exit_tab_run, tasks_tab_run, demographics_tab_run, consent_tab_run.
  rewrite Hs, Hg.
  destruct (submitted w), (save_task_results w), (submitted_exit w);
    simpl; rewrite <- ?app_assoc; eexists; reflexivity.
Qed.

Lemma rerun_run (w : widgets) (clk : clock) (wd : world) :
  exists (r : result unit) (l : list ui),
    rerun w clk wd
    = (r, {| fs := fs (after_forms w clk (cleared wd));
             session_state := next_session w clk (session_state wd);
             screen := screen (after_forms w clk (cleared wd)) ++ l |}).
Proof.
  unfold rerun. fold (cleared wd). rewrite main_run.
  destruct (readonly_report_tab (after_forms w clk (cleared wd))) as (r & l & ->).
  exists r, l. now rewrite after_forms_session.
Qed.

Lemma rerun_fs (w : widgets) (clk : clock) (wd : world) :
  fs (rerun w clk wd).2 = fs (after_forms w clk (cleared wd)).
Proof. destruct (rerun_run w clk wd) as (r & l & ->). reflexivity. Qed.

Lemma rerun_session (w : widgets) (clk : clock) (wd : world) :
  session_state (rerun w clk wd).2 = next_session w clk (session_state wd).
Proof. destruct (rerun_run w clk wd) as (r & l & ->). reflexivity. Qed.

Lemma session_cons (i : widgets * clock) (inputs : list (widgets * clock)) (wd : world) :
  session (i :: inputs) wd = session inputs (interact wd i).
Proof. reflexivity. Qed.

Lemma session_snoc (inputs : list (widgets * clock)) (i : widgets * clock) (wd : world) :
  session (inputs ++ [i]) wd = interact (session inputs wd) i.
Proof. unfold session. now rewrite foldl_app. Qed.

Lemma stage_record_keys (st : stage) (w : widgets) (clk : clock) (s : gmap string float) :
  keys (stage_record st w clk s) = stage_keys st.
Proof. destruct st; reflexivity. Qed.

Ltac paths_differ := let H := fresh in intros H; vm_compute in H; discriminate H.

Lemma rerun_stage_file (st : stage) (w : widgets) (clk : clock) (wd : world) :
  fs (rerun w clk wd).2 !! stage_path st
  = if pressed st w then
      Some (file_after_save (stage_record st w clk (session_state wd))
                            (fs wd !! stage_path st))
    else fs wd !! stage_path st.
Proof.
  rewrite rerun_fs, after_forms_fs. simpl fs. simpl session_state.
  destruct st; simpl stage_path; simpl pressed; simpl stage_record.
  - rewrite !save_if_lookup_ne by paths_differ. apply save_if_lookup.
  - rewrite !save_if_lookup_ne by paths_differ. rewrite save_if_lookup.
    now rewrite save_if_lookup_ne by paths_differ.
  - rewrite !save_if_lookup_ne by paths_differ. rewrite save_if_lookup.
    now rewrite !save_if_lookup_ne by paths_differ.
  - rewrite save_if_lookup. now rewrite !save_if_lookup_ne by paths_differ.
Qed.

Lemma store_holds_lookup (f f' : gmap string string) (path : string)
      (ks : list string) (rows : list (list string)) :
  f' !! path = f !! path -> store_holds f path ks rows -> store_holds f' path ks rows.
Proof. unfold store_holds. intros ->. auto. Qed.

Lemma store_holds_saved (f f' : gmap string string) (path : string) (d : dict)
      (rows : list (list string)) :
  f' !! path = Some (file_after_save d (f !! path)) ->
  store_holds f path (keys d) rows ->
  store_holds f' path (keys d) (rows ++ [record_row d]).
Proof.
  intros Hf' Hst. apply (store_holds_save f path d rows) in Hst.
  eapply store_holds_lookup; [|exact Hst]. now rewrite lookup_insert_eq.
Qed.

(** One run and one stage store: a submission appends its record, anything
    else leaves the store as it was. *)
Lemma rerun_store (st : stage) (w : widgets) (clk : clock) (wd : world)
      (rows : list (list string)) :
  store_holds (fs wd) (stage_path st) (stage_keys st) rows ->
  store_holds (fs (rerun w clk wd).2) (stage_path st) (stage_keys st)
    (if pressed st w
     then rows ++ [record_row (stage_record st w clk (session_state wd))]
     else rows).
Proof.
  intros Hst. pose proof (rerun_stage_file st w clk wd) as Hf.
  destruct (pressed st w).
  - rewrite <- (stage_record_keys st w clk (session_state wd)) in Hst |- *.
    eapply store_holds_saved; eassumption.
  - eapply store_holds_lookup; eassumption.
Qed.

(** ** Consent *)

(** C2: however many times Submit Consent is pressed with the box unchecked,
    the consent file is left as it was (no record is appended), and every
    such press shows the warning. *)
Theorem unchecked_consent_appends_nothing (inputs : list (widgets * clock)) (wd : world) :
  Forall unchecked_submit inputs ->
  fs (session inputs wd) !! CONSENT_CSV = fs wd !! CONSENT_CSV
  /\ forall pre i post,
      inputs = pre ++ i :: post ->
      consent_warning ∈ screen (session (pre ++ [i]) wd).
Proof.
  intros Hall. split.
  - revert wd. induction Hall as [|[w clk] inputs [Hs Hg] _ IH]; intros wd.
    + reflexivity.
    + simpl in Hs, Hg. rewrite session_cons, IH.
      pose proof (rerun_stage_file Consent w clk wd) as Hf.
      unfold pressed, stage_path in Hf. rewrite Hs, Hg in Hf. exact Hf.
  - intros pre [w clk] post ->.
    apply Forall_app in Hall. destruct Hall as [_ Hi].
    apply Forall_cons in Hi. destruct Hi as [[Hs Hg] _]. simpl in Hs, Hg.
    rewrite session_snoc. unfold interact. simpl.
    destruct (rerun_run w clk (session pre wd)) as (r & l & ->). simpl.
    destruct (after_forms_warning w clk (cleared (session pre wd)) Hs Hg) as (l' & ->).
    simpl. apply elem_of_cons. now left.
Qed.

Lemma consent_store_ok_rerun (w : widgets) (clk : clock) (wd : world) :
  consent_store_ok (fs wd) -> consent_store_ok (fs (rerun w clk wd).2).
Proof.
  intros (rows & Hst & Hrows).
  pose proof (rerun_store Consent w clk wd rows Hst) as Hst'.
  destruct (pressed Consent w).
  - eexists. split; [exact Hst' |].
    apply Forall_app. split; [assumption |].
    constructor; [|constructor]. eexists. reflexivity.
  - exists rows. auto.
Qed.

Lemma consent_store_ok_session (inputs : list (widgets * clock)) (wd : world) :
  consent_store_ok (fs wd) -> consent_store_ok (fs (session inputs wd)).
Proof.
  revert wd. induction inputs as [|[w clk] inputs IH]; intros wd Hok; [assumption |].
  rewrite session_cons. apply IH. now apply consent_store_ok_rerun.
Qed.

Lemma infer_type_all_true (cells : list string) :
  cells <> [] -> Forall (fun c => c = "True") cells -> infer_type cells = CBool.
Proof.
  intros Hne Hall. destruct cells as [|c cells]; [congruence |].
  inversion Hall as [|? ? Hc Hrest]; subst.
  assert (Hbool : forallb is_bool cells = true).
  { clear Hall Hne. induction Hrest as [|c cells -> _ IH]; [reflexivity |].
    simpl. now rewrite IH. }
  assert (Hna : existsb is_na cells = false).
  { clear Hall Hne Hbool. induction Hrest as [|c cells -> _ IH]; [reflexivity |].
    simpl. now rewrite IH. }
  unfold infer_type.
  change (column_has_float ("True" :: cells)) with false.
  change (try_int64 ("True" :: cells)) with NotConverted.
  cbv iota. unfold infer_later.
  change (forallb is_float ("True" :: cells)) with false.
  change (forallb is_bool ("True" :: cells)) with (forallb is_bool cells).
  change (existsb is_na ("True" :: cells)) with (existsb is_na cells).
  now rewrite Hbool, Hna.
Qed.

Lemma column_types_two (rows : list (list string)) :
  column_types 2 rows = [infer_type (column 0 rows); infer_type (column 1 rows)].
Proof. reflexivity. Qed.

Lemma consent_row_cells (ts : string) : record_row (consent_dict ts true) = [ts; "True"].
Proof. reflexivity. Qed.

Lemma convert_row_two (t0 t1 : coltype) (a b : string) :
  convert_row [t0; t1] [a; b] = [convert t0 a; convert t1 b].
Proof. reflexivity. Qed.

Lemma consent_store_load (wd : world) :
  consent_store_ok (fs wd) ->
  exists df, load_from_csv CONSENT_CSV wd = (Ok df, wd)
             /\ Forall (fun row => row !! 1%nat = Some (PyBool true)) (df_rows df).
Proof.
  intros (rows & Hst & Hrows). rewrite load_from_csv_run.
  destruct rows as [|r rows]; unfold store_holds in Hst; rewrite Hst.
  - exists DataFrame_empty. split; [reflexivity | constructor].
  - assert (Hwidth : Forall (fun r => length r = length (stage_keys Consent)) (r :: rows)).
    { eapply Forall_impl; [exact Hrows |]. intros ? (ts & ->). reflexivity. }
    rewrite read_csv_store by (assumption || (simpl; lia)).
    eexists. split; [reflexivity |].
    rewrite frame_of_table_rows by assumption.
    apply Forall_fmap.
    assert (Htype : infer_type (column 1 (r :: rows)) = CBool).
    { apply infer_type_all_true; [discriminate |].
      unfold column. apply Forall_fmap.
      eapply Forall_impl; [exact Hrows |]. intros ? (ts & ->). reflexivity. }
    change (length (stage_keys Consent)) with 2%nat.
    rewrite column_types_two, Htype.
    eapply Forall_impl; [exact Hrows |]. intros ? (ts & ->).
    rewrite consent_row_cells. unfold compose. rewrite convert_row_two. reflexivity.
Qed.

(** C10: from a consent store whose rows all have the flag True (such as
    the store that does not exist yet), no sequence of script runs leads to a
    store with another row; loaded, every row has the flag True. *)
Theorem consent_store_flags_true (inputs : list (widgets * clock)) (wd : world) :
  consent_store_ok (fs wd) ->
  consent_store_ok (fs (session inputs wd))
  /\ exists df,
      load_from_csv CONSENT_CSV (session inputs wd) = (Ok df, session inputs wd)
      /\ Forall (fun row => row !! 1%nat = Some (PyBool true)) (df_rows df).
Proof.
  intros Hok. pose proof (consent_store_ok_session inputs wd Hok) as Hok'.
  split; [assumption |]. now apply consent_store_load.
Qed.

(** ** Submissions *)

(** C6: a submission to a stage appends exactly one record to the store of
    that stage, and submitting the same values again and again appends one
    record per submission, each built from the same values: nothing is
    deduplicated.  Loading the store afterwards returns one row more per
    submission. *)
Theorem each_submit_appends_one_record (st : stage) (w : widgets) (clks : list clock)
        (wd : world) (rows : list (list string)) :
  store_holds (fs wd) (stage_path st) (stage_keys st) rows ->
  Forall (fun r => length r = length (stage_keys st)) rows ->
  pressed st w = true ->
  exists new,
    store_holds (fs (session (resubmit w clks) wd)) (stage_path st) (stage_keys st)
                (rows ++ new)
    /\ length new = length clks
    /\ (forall (i : nat) (c : clock),
        clks !! i = Some c ->
        exists s, new !! i = Some (record_row (stage_record st w c s)))
    /\ exists df,
        load_from_csv (stage_path st) (session (resubmit w clks) wd)
        = (Ok df, session (resubmit w clks) wd)
        /\ length (df_rows df) = (length rows + length clks)%nat.
Proof.
  intros Hst Hwidth Hp.
  assert (Hnew : exists new,
    store_holds (fs (session (resubmit w clks) wd)) (stage_path st) (stage_keys st)
                (rows ++ new)
    /\ length new = length clks
    /\ forall (i : nat) (c : clock),
        clks !! i = Some c ->
        exists s, new !! i = Some (record_row (stage_record st w c s))).
  { clear Hwidth. revert wd rows Hst.
    induction clks as [|c clks IH]; intros wd rows Hst.
    - exists []. rewrite app_nil_r. repeat split; [assumption |].
      intros i c Hi. rewrite lookup_nil in Hi. discriminate.
    - pose proof (rerun_store st w c wd rows Hst) as Hst'. rewrite Hp in Hst'.
      change (resubmit w (c :: clks)) with ((w, c) :: resubmit w clks).
      rewrite session_cons.
      destruct (IH (interact wd (w, c)) _ Hst') as (new & Hnew & Hlen & Hdup).
      exists (record_row (stage_record st w c (session_state wd)) :: new).
      split; [|split].
      + rewrite <- app_assoc in Hnew. exact Hnew.
      + simpl. now rewrite Hlen.
      + intros [|i] c' Hi; simpl in Hi.
        * injection Hi as <-. eexists. reflexivity.
        * apply Hdup. exact Hi. }
  destruct Hnew as (new & Hnew & Hlen & Hdup).
  exists new. repeat split; try assumption.
  assert (Hwidth' : Forall (fun r => length r = length (stage_keys st)) (rows ++ new)).
  { apply Forall_app. split; [assumption |].
    apply Forall_lookup. intros i r Hi.
    destruct (clks !! i) as [c|] eqn:Hc.
    - destruct (Hdup i c Hc) as (s & Hs). rewrite Hs in Hi. injection Hi as <-.
      now rewrite record_row_length, stage_record_keys.
    - apply lookup_ge_None in Hc. apply lookup_lt_Some in Hi. lia. }
  destruct (load_store _ _ _ _ (stage_keys_wide st) Hwidth' Hnew) as (df & Hload & Hrows).
  exists df. split; [exact Hload |].
  rewrite Hrows, length_fmap, length_app. lia.
Qed.

(** ** Header and rows *)

Lemma ends_at_line_append (text : string) (L : list (list string)) (r : list string) :
  ends_at_line text L -> visible_row r = true ->
  ends_at_line (text +:+ csv_writerow r) (L ++ [r]).
Proof.
  unfold ends_at_line. intros Htext Hr.
  rewrite tokenize_bytes_app, Htext.
  rewrite <- (append_nil_r (csv_writerow r)).
  now rewrite csv_writerow_read.
Qed.

Lemma ends_at_line_all (text : string) (L : list (list string)) :
  ends_at_line text L -> tokenize_all text = Ok L.
Proof. unfold ends_at_line, tokenize_all. now intros ->. Qed.

(** C7: the first append creates the file with a header line made of the
    keys of the record, followed by its row; an append to an existing file
    adds the row after what was there, so that the lines already in the file,
    its header first, are read back unchanged with exactly one line after
    them. *)
Theorem header_written_by_first_append (d : dict) (path : string) (wd : world) :
  visible_row (keys d) = true ->
  visible_row (record_row d) = true ->
  exists wd',
    save_to_csv d path wd = (Ok tt, wd')
    /\ (fs wd !! path = None ->
        fs wd' !! path = Some (csv_writerow (keys d) +:+ csv_writerow (record_row d))
        /\ tokenize_all (csv_writerow (keys d) +:+ csv_writerow (record_row d))
           = Ok [keys d; record_row d])
    /\ (forall text L,
        fs wd !! path = Some text ->
        ends_at_line text L ->
        fs wd' !! path = Some (text +:+ csv_writerow (record_row d))
        /\ tokenize_all (text +:+ csv_writerow (record_row d)) = Ok (L ++ [record_row d])).
Proof.
  intros Hk Hr. eexists. split; [apply save_to_csv_run |]. split.
  - intros Hnone. simpl. rewrite lookup_insert_eq, Hnone. split; [reflexivity |].
    apply ends_at_line_all.
    apply (ends_at_line_append _ [keys d]); [|assumption].
    apply (ends_at_line_append "" []); [reflexivity | assumption].
  - intros text L Hsome Hends. simpl. rewrite lookup_insert_eq, Hsome.
    split; [reflexivity |].
    apply ends_at_line_all. now apply ends_at_line_append.
Qed.

(** C8: a record is appended whatever its keys are: after a first record
    [d0], saving [d] completes and leaves the header of [d0] followed by the
    two rows; the keys of [d] are written nowhere.  Loading then either
    fails, when [d] has more fields than the header, or files the values of
    [d] under the columns of [d0]. *)
Theorem mismatched_record_is_appended (d0 d : dict) (path : string) (wd : world) :
  fs wd !! path = None ->
  (1 < length (keys d0))%nat ->
  visible_row (record_row d) = true ->
  exists wd',
    save_all [d0; d] path wd = (Ok tt, wd')
    /\ fs wd' !! path = Some (store_text (keys d0) [record_row d0; record_row d])
    /\ load_from_csv path wd'
       = (if Nat.ltb (length (keys d0)) (length (keys d)) then Raise ParserError
          else Ok (frame_of_table (keys d0)
                     [record_row d0; pad_line (length (keys d0)) (record_row d)]),
          wd').
Proof.
  intros Hnone Hk Hr.
  assert (Hfile : fs (saved d path (saved d0 path wd)) !! path
                  = Some (store_text (keys d0) [record_row d0; record_row d])).
  { unfold saved. simpl. rewrite !lookup_insert_eq, Hnone. simpl.
    unfold store_text. simpl. now rewrite append_nil_r, append_assoc. }
  exists (saved d path (saved d0 path wd)). split; [|split].
  - unfold save_all. simpl. unfold bind. now rewrite !save_to_csv_run.
  - exact Hfile.
  - rewrite load_from_csv_run, Hfile. f_equal.
    unfold read_csv, store_text.
    rewrite tokenize_all_writerows.
    2:{ repeat constructor; try assumption; apply visible_row_wide;
        [|rewrite record_row_length]; assumption. }
    unfold data_lines.
    rewrite (pad_line_full (length (keys d0)) (record_row d0))
      by apply record_row_length.
    simpl end_lines. rewrite !record_row_length.
    destruct (Nat.ltb (length (keys d0)) (length (keys d))); reflexivity.
Qed.

(** ** The task timer *)

Lemma task_record_duration (w : widgets) (clk : clock) (s : gmap string float) :
  duration_field (task_record w clk s)
  = Some (let duration_val := session_get (timer_state w clk s) "task_duration" in
          if truthy duration_val then duration_val else PyStr "").
Proof. reflexivity. Qed.

Lemma timer_state_idle (w : widgets) (clk : clock) (s : gmap string float) :
  start_task_timer w = false -> stop_task_timer w = false -> timer_state w clk s = s.
Proof. unfold timer_state. now intros -> ->. Qed.

Lemma timer_state_not_stopped (w : widgets) (clk : clock) (s : gmap string float) :
  stop_task_timer w = false ->
  timer_state w clk s !! "task_duration" = s !! "task_duration".
Proof.
  unfold timer_state. intros ->. simpl.
  destruct (start_task_timer w); [now rewrite lookup_insert_ne | reflexivity].
Qed.

(** The session state after Start at [c1] and then Stop at [c2]. *)
Lemma session_start_stop (w : widgets) (c1 c2 : clock) (wd : world) :
  session_state
    (session [(click StartTaskTimer w, c1); (click StopTaskTimer w, c2)] wd)
  !! "task_duration"
  = Some (time_time c2 - time_time c1)%float.
Proof.
  rewrite !session_cons. unfold session, interact. simpl foldl.
  rewrite !rerun_session. unfold next_session, timer_state. simpl.
  rewrite lookup_insert_eq. simpl. apply lookup_insert_eq.
Qed.

(** Start, then Stop, then Save: a duration that tests true is recorded as
    the difference of the two clock readings. *)
Lemma timer_duration_recorded (w : widgets) (c1 c2 c3 : clock) (wd : world) :
  truthy (PyFloat (time_time c2 - time_time c1)) = true ->
  duration_field
    (task_record (click SaveTaskResults w) c3
       (session_state
          (session [(click StartTaskTimer w, c1); (click StopTaskTimer w, c2)] wd)))
  = Some (PyFloat (time_time c2 - time_time c1)).
Proof.
  intros Ht. rewrite task_record_duration.
  rewrite timer_state_idle by reflexivity.
  unfold session_get. rewrite session_start_stop. simpl. simpl in Ht. now rewrite Ht.
Qed.

(** Stop was never pressed: no duration is ever stored. *)
Lemma timer_never_stopped (inputs : list (widgets * clock)) (wd : world) :
  Forall (fun i => stop_task_timer i.1 = false) inputs ->
  session_state wd !! "task_duration" = None ->
  session_state (session inputs wd) !! "task_duration" = None.
Proof.
  intros Hall. revert wd.
  induction Hall as [|[w clk] inputs Hw _ IH]; intros wd Hnone; [assumption |].
  rewrite session_cons. apply IH. unfold interact. simpl in *.
  rewrite rerun_session. unfold next_session.
  destruct (save_task_results w).
  - apply lookup_delete_eq.
  - now rewrite timer_state_not_stopped.
Qed.

(** The timer was never started: Stop has no effect, no duration is ever
    stored. *)
Lemma timer_never_started (inputs : list (widgets * clock)) (wd : world) :
  Forall (fun i => start_task_timer i.1 = false) inputs ->
  session_state wd !! "start_time" = None ->
  session_state wd !! "task_duration" = None ->
  session_state (session inputs wd) !! "start_time" = None
  /\ session_state (session inputs wd) !! "task_duration" = None.
Proof.
  intros Hall. revert wd.
  induction Hall as [|[w clk] inputs Hw _ IH]; intros wd Hs Hd; [auto |].
  rewrite session_cons. simpl in Hw.
  assert (Hidle : timer_state w clk (session_state wd) = session_state wd).
  { unfold timer_state. rewrite Hw, Hs. simpl. now rewrite andb_false_r. }
  apply IH; unfold interact; simpl; rewrite rerun_session; unfold next_session;
    rewrite Hidle; destruct (save_task_results w); try assumption;
    repeat (rewrite lookup_delete_eq || rewrite lookup_delete_ne by discriminate);
    reflexivity.
Qed.

(** Save without a stored duration records the empty string. *)
Lemma no_duration_saved_empty (w : widgets) (clk : clock) (s : gmap string float) :
  stop_task_timer w = false ->
  s !! "task_duration" = None ->
  duration_field (task_record w clk s) = Some (PyStr "").
Proof.
  intros Hw Hnone. rewrite task_record_duration. unfold session_get.
  now rewrite timer_state_not_stopped, Hnone.
Qed.

(** C9: a stored duration that tests false, such as 0.0, is saved as the
    empty string: both when it is found in the session state at Save, and
    when it comes from a Start and a Stop whose clock readings differ by
    zero.  The row written to the task file has an empty duration cell. *)
Theorem falsy_duration_saved_empty (w : widgets) (c1 c2 c3 : clock) (wd : world)
        (duration : float) :
  truthy (PyFloat duration) = false ->
  (session_state wd !! "task_duration" = Some duration ->
   save_task_results w = true -> stop_task_timer w = false ->
   duration_field (task_record w c3 (session_state wd)) = Some (PyStr "")
   /\ record_row (task_record w c3 (session_state wd)) !! 3%nat = Some ""
   /\ fs (rerun w c3 wd).2 !! TASK_CSV
      = Some (file_after_save (task_record w c3 (session_state wd))
                              (fs wd !! TASK_CSV)))
  /\ ((time_time c2 - time_time c1)%float = duration ->
      duration_field
        (task_record (click SaveTaskResults w) c3
           (session_state
              (session [(click StartTaskTimer w, c1); (click StopTaskTimer w, c2)] wd)))
      = Some (PyStr "")).
Proof.
  intros Hfalsy. split.
  - intros Hstored Hsave Hstop.
    assert (Hfield : duration_field (task_record w c3 (session_state wd))
                     = Some (PyStr "")).
    { rewrite task_record_duration. unfold session_get.
      rewrite timer_state_not_stopped, Hstored by assumption.
      cbv zeta. now rewrite Hfalsy. }
    split; [exact Hfield |]. split.
    + unfold duration_field, task_record, task_dict in Hfield.
      unfold record_row, task_record, task_dict, row_text, values.
      simpl in Hfield |- *. injection Hfield as ->. reflexivity.
    + pose proof (rerun_stage_file Task w c3 wd) as Hf. simpl in Hf.
      now rewrite Hsave in Hf.
  - intros Hdiff. rewrite task_record_duration.
    rewrite timer_state_idle by reflexivity.
    unfold session_get. rewrite session_start_stop, Hdiff.
    cbv zeta. now rewrite Hfalsy.
Qed.

(** ** What a timestamp reads back as *)

Lemma has_char_app (a : ascii) (s1 s2 : string) :
  has_char a (s1 +:+ s2) = has_char a s1 || has_char a s2.
Proof.
  induction s1 as [|c s1 IH]; [reflexivity |].
  rewrite append_cons. simpl. now rewrite IH, orb_assoc.
Qed.

Lemma length_app (s1 s2 : string) :
  String.length (s1 +:+ s2) = (String.length s1 + String.length s2)%nat.
Proof.
  induction s1 as [|c s1 IH]; [reflexivity |].
  rewrite append_cons. simpl. now rewrite IH.
Qed.

Lemma eqb_length_ne (s1 s2 : string) :
  String.length s1 <> String.length s2 -> String.eqb s1 s2 = false.
Proof. intros Hne. apply String.eqb_neq. intros ->. congruence. Qed.

Lemma lower_length (s : string) : String.length (lower s) = String.length s.
Proof. induction s as [|c s IH]; simpl; congruence. Qed.

Lemma isspace_not_colon (c : ascii) : isspace_ascii c = true -> Ascii.eqb c ":" = false.
Proof. destruct c as [[] [] [] [] [] [] [] []]; vm_compute; congruence. Qed.

Lemma isdigit_not_colon (c : ascii) : isdigit_ascii c = true -> Ascii.eqb c ":" = false.
Proof. destruct c as [[] [] [] [] [] [] [] []]; vm_compute; congruence. Qed.

Lemma letter_e_not_colon (c : ascii) :
  Ascii.eqb (tolower_ascii c) "e" = true -> Ascii.eqb c ":" = false.
Proof. destruct c as [[] [] [] [] [] [] [] []]; vm_compute; congruence. Qed.

Lemma skip_spaces_colon (s : string) : has_char ":" (skip_spaces s) = has_char ":" s.
Proof.
  induction s as [|c s IH]; [reflexivity |]. simpl.
  destruct (isspace_ascii c) eqn:Hc; [|reflexivity].
  now rewrite IH, (isspace_not_colon c Hc).
Qed.

Lemma skip_sign_colon (s : string) : has_char ":" (skip_sign s).2 = has_char ":" s.
Proof.
  destruct s as [|c s]; [reflexivity |]. simpl.
  destruct (Ascii.eqb c "-") eqn:Hm; [apply Ascii.eqb_eq in Hm; now subst c |].
  destruct (Ascii.eqb c "+") eqn:Hp; [apply Ascii.eqb_eq in Hp; now subst c |].
  reflexivity.
Qed.

Lemma read_digits_colon (s : string) (acc : Z) (n : nat) :
  has_char ":" (read_digits s acc n).2 = has_char ":" s.
Proof.
  revert acc n. induction s as [|c s IH]; intros acc n; [reflexivity |]. simpl.
  destruct (isdigit_ascii c) eqn:Hc; [|reflexivity].
  now rewrite IH, (isdigit_not_colon c Hc).
Qed.

Lemma skip_spaces_nil_colon (s : string) :
  skip_spaces s = "" -> has_char ":" s = false.
Proof. intros H. now rewrite <- skip_spaces_colon, H. Qed.

Lemma str_to_int64_colon (s : string) :
  has_char ":" s = true -> str_to_int64 s = None.
Proof.
  intros Hs. unfold str_to_int64.
  pose proof (skip_sign_colon (skip_spaces s)) as H1. rewrite skip_spaces_colon, Hs in H1.
  destruct (skip_sign (skip_spaces s)) as [neg p]. simpl in H1.
  pose proof (read_digits_colon p 0 0) as H2. rewrite H1 in H2.
  destruct (read_digits p 0 0) as [[v n] rest]. simpl in H2.
  destruct n; [reflexivity |].
  destruct (skip_spaces rest) eqn:H3; [|reflexivity].
  apply skip_spaces_nil_colon in H3. congruence.
Qed.

Lemma float_syntax_colon (s : string) :
  has_char ":" s = true -> float_syntax s = false.
Proof.
  intros Hs. unfold float_syntax.
  pose proof (skip_sign_colon (skip_spaces s)) as H1. rewrite skip_spaces_colon, Hs in H1.
  destruct (skip_sign (skip_spaces s)) as [neg p0]. simpl in H1.
  pose proof (read_digits_colon p0 0 0) as H2. rewrite H1 in H2.
  destruct (read_digits p0 0 0) as [[v1 n1] p1]. simpl in H2.
  set (point := match p1 with
                | String c p' => _
                | EmptyString => _
                end).
  assert (Hpoint : has_char ":" point.2 = true).
  { subst point. destruct p1 as [|c p']; [discriminate |].
    destruct (Ascii.eqb c ".") eqn:Hc; [|exact H2].
    apply Ascii.eqb_eq in Hc. subst c. simpl in H2.
    pose proof (read_digits_colon p' 0 0) as H3. rewrite H2 in H3.
    destruct (read_digits p' 0 0) as [[v2 n2] p'']. exact H3. }
  destruct point as [n2 p2]. simpl in Hpoint.
  destruct (n1 + n2)%nat; [reflexivity |].
  set (tail := match p2 with
               | String c p' => _
               | EmptyString => _
               end).
  assert (Htail : has_char ":" tail = true).
  { subst tail. destruct p2 as [|c p']; [discriminate |].
    destruct (Ascii.eqb (tolower_ascii c) "e") eqn:Hc; [|exact Hpoint].
    simpl in Hpoint. rewrite (letter_e_not_colon c Hc) in Hpoint. simpl in Hpoint.
    pose proof (read_digits_colon (skip_sign p').2 0 0) as H3.
    rewrite skip_sign_colon, Hpoint in H3.
    destruct (read_digits (skip_sign p').2 0 0) as [[v3 n3] p'']. simpl in H3.
    destruct n3; [|exact H3].
    simpl. now rewrite (letter_e_not_colon c Hc). }
  destruct (skip_spaces tail) eqn:H4; [|reflexivity].
  apply skip_spaces_nil_colon in H4. congruence.
Qed.

(** A string with a colon in it that is longer than any special word is
    neither a missing value, a number nor a boolean. *)
Lemma plain_text_cell (s : string) :
  has_char ":" s = true -> (9 < String.length s)%nat ->
  is_na s = false /\ is_int s = false /\ is_float s = false /\ is_bool s = false.
Proof.
  intros Hc Hlen.
  assert (Hna : is_na s = false).
  { unfold is_na, na_values. simpl existsb.
    rewrite !eqb_length_ne by (simpl; lia). reflexivity. }
  assert (Hlow : forall word, (String.length word <= 9)%nat ->
                              String.eqb (lower s) word = false).
  { intros word Hw. apply eqb_length_ne. rewrite lower_length. lia. }
  repeat split.
  - exact Hna.
  - unfold is_int. rewrite str_to_int64_colon by assumption.
    rewrite bool_decide_eq_false_2 by (intros [? ?]; discriminate).
    apply andb_false_r.
  - unfold is_float, to_double. rewrite Hna, float_syntax_colon by assumption.
    rewrite !Hlow by (simpl; lia). reflexivity.
  - unfold is_bool, to_boolean. rewrite Hna.
    rewrite !Hlow by (simpl; lia). reflexivity.
Qed.

Lemma Z_to_string_length (z : Z) : (1 <= String.length (Z_to_string z))%nat.
Proof.
  unfold Z_to_string.
  assert (Hu : forall d, (1 <= String.length (NilZero.string_of_uint d))%nat).
  { intros d. destruct d; simpl; lia. }
  destruct z as [|p|p]; simpl; [lia | apply Hu |].
  unfold NilZero.string_of_int. simpl. lia.
Qed.

Lemma pad2_length (n : nat) : (2 <= String.length (pad2 n))%nat.
Proof.
  unfold pad2, two_digits. rewrite length_app.
  pose proof (Z_to_string_length (Z.of_nat n / 10)).
  pose proof (Z_to_string_length (Z.of_nat n mod 10)). lia.
Qed.

Lemma strftime_length (t : struct_time) : (9 < String.length (strftime t))%nat.
Proof.
  unfold strftime. rewrite !length_app.
  pose proof (pad2_length (tm_mon t)). pose proof (pad2_length (tm_mday t)).
  pose proof (pad2_length (tm_hour t)). pose proof (pad2_length (tm_min t)).
  pose proof (pad2_length (tm_sec t)). simpl. lia.
Qed.

Lemma strftime_colon (t : struct_time) : has_char ":" (strftime t) = true.
Proof.
  unfold strftime. rewrite !has_char_app.
  change (has_char ":" ":") with true.
  rewrite ?orb_true_r. reflexivity.
Qed.

Lemma timestamp_cell (t : struct_time) :
  is_na (strftime t) = false /\ is_int (strftime t) = false
  /\ is_float (strftime t) = false /\ is_bool (strftime t) = false.
Proof. apply plain_text_cell; [apply strftime_colon | apply strftime_length]. Qed.

(** ** The exit questionnaire *)

Lemma exit_row_cells (a : exit_answer) :
  record_row (exit_record a)
  = [ans_timestamp a; Z_to_string (ans_satisfaction a);
     Z_to_string (ans_difficulty a); ans_feedback a].
Proof. reflexivity. Qed.

Lemma on_scale_cell (z : Z) :
  on_scale z -> is_int (Z_to_string z) = true /\ convert CInt (Z_to_string z) = PyInt z.
Proof.
  unfold on_scale. intros Hz.
  assert (Hcases : z = 1 \/ z = 2 \/ z = 3 \/ z = 4 \/ z = 5) by lia.
  destruct Hcases as [-> | [-> | [-> | [-> | ->]]]]; split; reflexivity.
Qed.

Lemma frame_of_table_even (ks : list string) (rows : list (list string)) :
  rows <> [] ->
  Forall (fun r => length r = length ks) rows ->
  frame_of_table ks rows
  = {| df_columns := header_names ks;
       df_dtypes := dtype_of <$> column_types (length ks) rows;
       df_index := RangeIndex (length rows);
       df_rows := convert_row (column_types (length ks) rows) <$> rows |}.
Proof.
  intros Hne Hrows. destruct rows as [|r rows]; [congruence |].
  inversion Hrows as [|? ? Hr _]; subst.
  unfold frame_of_table. rewrite Hr, Nat.sub_diag. simpl drop. f_equal.
  rewrite <- list_fmap_compose. apply list_fmap_ext. intros ? ? ?. reflexivity.
Qed.

Lemma column_types_four (rows : list (list string)) :
  column_types 4 rows
  = [infer_type (column 0 rows); infer_type (column 1 rows);
     infer_type (column 2 rows); infer_type (column 3 rows)].
Proof. reflexivity. Qed.

Lemma convert_row_four (t0 t1 t2 t3 : coltype) (a b c d : string) :
  convert_row [t0; t1; t2; t3] [a; b; c; d]
  = [convert t0 a; convert t1 b; convert t2 c; convert t3 d].
Proof. reflexivity. Qed.

Lemma exit_rows_width (answers : list exit_answer) :
  Forall (fun r => length r = length (stage_keys Exit)) (exit_rows answers).
Proof. apply Forall_fmap, Forall_forall. intros a _. reflexivity. Qed.

(** ** The type of a column *)

Lemma forallb_elem_false {A} (P : A -> bool) (l : list A) (x : A) :
  x ∈ l -> P x = false -> forallb P l = false.
Proof.
  intros Hx HP. destruct (forallb P l) eqn:Hall; [|reflexivity].
  rewrite forallb_forall in Hall. apply list_elem_of_In in Hx.
  specialize (Hall x Hx). congruence.
Qed.

Lemma eqb_by_class (P : ascii -> bool) (c a : ascii) :
  P c = true -> P a = false -> Ascii.eqb c a = false.
Proof. intros Hc Ha. apply Ascii.eqb_neq. intros ->. congruence. Qed.

Lemma skip_spaces_char (a : ascii) (s : string) :
  isspace_ascii a = false -> has_char a (skip_spaces s) = has_char a s.
Proof.
  intros Ha. induction s as [|c s IH]; [reflexivity |]. simpl.
  destruct (isspace_ascii c) eqn:Hc; [|reflexivity].
  now rewrite IH, (eqb_by_class isspace_ascii c a Hc Ha).
Qed.

Lemma skip_sign_char (a : ascii) (s : string) :
  Ascii.eqb a "-" = false -> Ascii.eqb a "+" = false ->
  has_char a (skip_sign s).2 = has_char a s.
Proof.
  intros Hm Hp. destruct s as [|c s]; [reflexivity |]. cbn [skip_sign has_char].
  destruct (Ascii.eqb c "-") eqn:Hc.
  { apply Ascii.eqb_eq in Hc. subst c. cbn [snd].
    now rewrite (Ascii.eqb_sym "-" a), Hm. }
  destruct (Ascii.eqb c "+") eqn:Hc'.
  { apply Ascii.eqb_eq in Hc'. subst c. cbn [snd].
    now rewrite (Ascii.eqb_sym "+" a), Hp. }
  reflexivity.
Qed.

Lemma read_digits_char (a : ascii) (s : string) (acc : Z) (n : nat) :
  isdigit_ascii a = false -> has_char a (read_digits s acc n).2 = has_char a s.
Proof.
  intros Ha. revert acc n. induction s as [|c s IH]; intros acc n; [reflexivity |].
  simpl. destruct (isdigit_ascii c) eqn:Hc; [|reflexivity].
  now rewrite IH, (eqb_by_class isdigit_ascii c a Hc Ha).
Qed.

(** A word that holds a character which is neither a blank, a digit nor a
    sign is not an integer. *)
Lemma str_to_int64_char (a : ascii) (s : string) :
  isspace_ascii a = false -> isdigit_ascii a = false ->
  Ascii.eqb a "-" = false -> Ascii.eqb a "+" = false ->
  has_char a s = true -> str_to_int64 s = None.
Proof.
  intros Hspace Hdigit Hm Hp Hs. unfold str_to_int64.
  pose proof (skip_sign_char a (skip_spaces s) Hm Hp) as H1.
  rewrite (skip_spaces_char a s Hspace), Hs in H1.
  destruct (skip_sign (skip_spaces s)) as [neg p]. simpl in H1.
  pose proof (read_digits_char a p 0 0 Hdigit) as H2. rewrite H1 in H2.
  destruct (read_digits p 0 0) as [[v n] rest]. simpl in H2.
  destruct n; [reflexivity |].
  destruct (skip_spaces rest) eqn:H3; [|reflexivity].
  rewrite <- (skip_spaces_char a rest Hspace), H3 in H2. discriminate H2.
Qed.

(** The error code and the value of [str_to_int64] agree. *)
Lemma str_to_int64_error_None (s : string) :
  str_to_int64_error s = None <-> is_Some (str_to_int64 s).
Proof.
  unfold str_to_int64_error, str_to_int64.
  destruct (skip_sign (skip_spaces s)) as [neg p].
  destruct (read_digits p 0 0) as [[v n] rest].
  destruct n; [split; [discriminate | intros [? ?]; discriminate] |].
  destruct ((INT64_MIN <=? (if neg then - v else v))
            && ((if neg then - v else v) <=? INT64_MAX));
    destruct (skip_spaces rest);
    split; intros H; try discriminate H; try reflexivity; eauto;
    destruct H as [? H]; discriminate H.
Qed.

Lemma scan_word_true (found : bool) (word : string) :
  scan_word found word = Some true ->
  has_char "." word = true \/ has_char "e" word = true \/ has_char "E" word = true.
Proof.
  revert found. induction word as [|c word IH]; intros found; [discriminate |].
  cbn [scan_word has_char].
  destruct (Ascii.eqb c ".") eqn:Hpoint; [intros _; left; reflexivity |].
  destruct (negb found && (Ascii.eqb c SPACE || Ascii.eqb c "+" || Ascii.eqb c "-")).
  { intros H. destruct (IH _ H) as [H1 | [H1 | H1]]; rewrite H1, ?orb_true_r; auto. }
  destruct (negb found && negb (isdigit_ascii c)); [discriminate |].
  destruct (negb found).
  { intros H. destruct (IH _ H) as [H1 | [H1 | H1]]; rewrite H1, ?orb_true_r; auto. }
  destruct (Ascii.eqb c "e") eqn:He; [intros _; right; left; reflexivity |].
  destruct (Ascii.eqb c "E") eqn:HE; [intros _; right; right; reflexivity |].
  simpl. destruct (negb (isdigit_ascii c)); [discriminate |].
  intros H. destruct (IH _ H) as [H1 | [H1 | H1]]; rewrite H1; auto.
Qed.

Lemma scan_word_int (c : string) :
  is_Some (str_to_int64 c) -> scan_word false c <> Some true.
Proof.
  intros [z Hz] Hscan.
  destruct (scan_word_true _ _ Hscan) as [H | [H | H]];
    apply str_to_int64_char in H; try reflexivity; congruence.
Qed.

Lemma is_int_parts (c : string) :
  is_int c = true -> is_na c = false /\ is_Some (str_to_int64 c).
Proof.
  unfold is_int. intros H. apply andb_true_iff in H. destruct H as [Hna Hint].
  apply negb_true_iff in Hna. apply bool_decide_eq_true_1 in Hint. auto.
Qed.

Lemma column_of_ints (cells : list string) :
  forallb is_int cells = true ->
  column_has_float cells = false /\ try_int64 cells = Converted
  /\ existsb is_na cells = false.
Proof.
  induction cells as [|c cells IH]; [auto |].
  cbn [forallb column_has_float try_int64 existsb]. intros H.
  apply andb_true_iff in H. destruct H as [Hc Hall].
  destruct (IH Hall) as (Hfloat & Htry & Hna).
  destruct (is_int_parts c Hc) as [Hcna Hint].
  rewrite Hcna, Hfloat, Htry, Hna.
  rewrite (proj2 (str_to_int64_error_None c) Hint).
  pose proof (scan_word_int c Hint) as Hscan.
  destruct (scan_word false c) as [[|]|]; [congruence | auto ..].
Qed.

Lemma infer_type_int (cells : list string) :
  cells <> [] -> forallb is_int cells = true -> infer_type cells = CInt.
Proof.
  intros Hne Hall. destruct (column_of_ints cells Hall) as (Hfloat & Htry & Hna).
  destruct cells; [congruence |]. unfold infer_type. now rewrite Hfloat, Htry, Hna.
Qed.

Lemma infer_later_str (cells : list string) (c : string) :
  c ∈ cells -> is_float c = false -> is_bool c = false -> infer_later cells = CStr.
Proof.
  intros Hc Hf Hb. unfold infer_later.
  now rewrite (forallb_elem_false is_float _ c), (forallb_elem_false is_bool _ c).
Qed.

Lemma try_int64_not_converted (cells : list string) (c : string) :
  c ∈ cells -> is_na c = false -> str_to_int64 c = None ->
  try_int64 cells <> Converted.
Proof.
  intros Hc Hna Hint.
  assert (Herr : str_to_int64_error c <> None).
  { intros H. apply str_to_int64_error_None in H. destruct H as [z H]. congruence. }
  induction cells as [|x cells IH]; [now apply elem_of_nil in Hc |].
  apply elem_of_cons in Hc. cbn [try_int64]. destruct Hc as [<- | Hc].
  - rewrite Hna. destruct (str_to_int64_error c) as [[]|]; congruence.
  - destruct (is_na x); [now apply IH |].
    destruct (str_to_int64_error x) as [[]|]; try discriminate. now apply IH.
Qed.

Lemma try_uint64_sint (cells : list string) (st : uint_state) :
  seen_sint st = true -> try_uint64_words cells st <> Converted.
Proof.
  revert st. induction cells as [|x cells IH]; intros st Hst; cbn [try_uint64_words].
  - rewrite Hst. destruct (seen_uint st); simpl; discriminate.
  - destruct (is_na x); [now apply IH |].
    destruct (str_to_uint64 x) as [z | | []]; try discriminate; now apply IH.
Qed.

Lemma try_uint64_not_converted (cells : list string) (c : string) (st : uint_state) :
  c ∈ cells -> is_na c = false -> (forall z, str_to_uint64 c <> UINT z) ->
  try_uint64_words cells st <> Converted.
Proof.
  intros Hc Hna Huint. revert st.
  induction cells as [|x cells IH]; intros st; [now apply elem_of_nil in Hc |].
  apply elem_of_cons in Hc. cbn [try_uint64_words]. destruct Hc as [<- | Hc].
  - rewrite Hna. destruct (str_to_uint64 c) as [z | | []]; try discriminate.
    + now destruct (Huint z).
    + now apply try_uint64_sint.
  - destruct (is_na x); [now apply IH |].
    destruct (str_to_uint64 x) as [z | | []]; try discriminate; now apply IH.
Qed.

Lemma skip_spaces_nil_head (c : ascii) (s : string) :
  skip_spaces (String c s) = "" -> isspace_ascii c = true.
Proof. simpl. destruct (isspace_ascii c); [reflexivity | discriminate]. Qed.

Lemma isspace_not_float_char (c : ascii) :
  isspace_ascii c = true ->
  Ascii.eqb c "." = false /\ Ascii.eqb (tolower_ascii c) "e" = false.
Proof. destruct c as [[] [] [] [] [] [] [] []]; vm_compute; intros H; split; congruence. Qed.

(** An unsigned integer is a float as well. *)
Lemma uint_float_syntax (c : string) (z : Z) :
  str_to_uint64 c = UINT z -> float_syntax c = true.
Proof.
  unfold str_to_uint64, float_syntax.
  destruct (skip_spaces c) as [|a p'] eqn:Hskip; [discriminate |].
  cbn [skip_sign].
  destruct (Ascii.eqb a "-"); [discriminate |].
  assert (Hp : (if Ascii.eqb a "+" then (false, p') else (false, String a p'))
               = (false, if Ascii.eqb a "+" then p' else String a p'))
    by (destruct (Ascii.eqb a "+"); reflexivity).
  rewrite Hp. clear Hp.
  destruct (read_digits (if Ascii.eqb a "+" then p' else String a p') 0 0)
    as [[v n] rest].
  destruct n as [|n]; [discriminate |].
  destruct (v <=? UINT64_MAX); [|discriminate].
  destruct (skip_spaces rest) eqn:Hrest; [|discriminate]. intros _.
  destruct rest as [|c2 rest']; [reflexivity |].
  destruct (isspace_not_float_char c2 (skip_spaces_nil_head _ _ Hrest)) as [H1 H2].
  rewrite H1. cbn [Nat.add]. rewrite H2, Hrest. reflexivity.
Qed.

Lemma uint_is_float (c : string) (z : Z) : str_to_uint64 c = UINT z -> is_float c = true.
Proof.
  intros H. unfold is_float, to_double. rewrite (uint_float_syntax c z H).
  apply orb_true_iff. right. apply bool_decide_eq_true_2. eauto.
Qed.

(** A column that holds a text which is neither a number, a boolean nor a
    missing value is a column of text. *)
Lemma text_column (cells : list string) (c : string) :
  c ∈ cells -> is_int c = false -> is_float c = false -> is_bool c = false ->
  infer_type cells = CStr \/ infer_type cells = CRaw.
Proof.
  intros Hc Hi Hf Hb.
  assert (Hna : is_na c = false)
    by (unfold is_float in Hf; now apply orb_false_iff in Hf).
  assert (Hint : str_to_int64 c = None).
  { unfold is_int in Hi. rewrite Hna in Hi. simpl in Hi.
    apply bool_decide_eq_false_1 in Hi.
    destruct (str_to_int64 c); [destruct Hi; eauto | reflexivity]. }
  assert (Huint : forall z, str_to_uint64 c <> UINT z).
  { intros z Hz. apply uint_is_float in Hz. congruence. }
  pose proof (infer_later_str cells c Hc Hf Hb) as Hlater.
  pose proof (try_int64_not_converted cells c Hc Hna Hint) as Htry.
  pose proof (try_uint64_not_converted cells c
                {| seen_sint := false; seen_uint := false; seen_null := false |}
                Hc Hna Huint) as Htry'.
  destruct cells as [|c0 cells]; [left; reflexivity |].
  unfold infer_type. rewrite Hlater.
  destruct (column_has_float (c0 :: cells)); [now left |].
  destruct (try_int64 (c0 :: cells)); try congruence; try (now left).
  unfold try_uint64. destruct (try_uint64_words (c0 :: cells) _); auto. congruence.
Qed.

Lemma convert_in_text_column (cells : list string) (c s : string) :
  c ∈ cells -> is_int c = false -> is_float c = false -> is_bool c = false ->
  is_na s = false -> convert (infer_type cells) s = PyStr s.
Proof.
  intros Hc Hi Hf Hb Hna.
  destruct (text_column cells c Hc Hi Hf Hb) as [-> | ->]; simpl;
    [now rewrite Hna | reflexivity].
Qed.

Lemma exit_scale_columns (answers : list exit_answer) :
  answers <> [] -> Forall valid_answer answers ->
  infer_type (column 1 (exit_rows answers)) = CInt
  /\ infer_type (column 2 (exit_rows answers)) = CInt.
Proof.
  intros Hne Hall.
  split; (apply infer_type_int; [destruct answers; [congruence | discriminate] |]);
    unfold column, exit_rows; rewrite <- list_fmap_compose;
    apply forallb_forall; intros c Hc; apply in_map_iff in Hc;
    destruct Hc as (a & <- & Ha);
    apply list_elem_of_In in Ha;
    rewrite Forall_forall in Hall; destruct (Hall a Ha) as [Hs Hd];
    simpl; [apply (on_scale_cell _ Hs) | apply (on_scale_cell _ Hd)].
Qed.

Lemma Series_mean_int (zs : list Z) :
  Series_mean (Int64, PyInt <$> zs) = Ok (arithmetic_mean zs).
Proof.
  assert (Hsum : forall l, sum_Z (int_of <$> (PyInt <$> l)) = sum_Z l).
  { induction l as [|z l IH]; [reflexivity |]. simpl. now rewrite <- IH. }
  unfold Series_mean, arithmetic_mean. cbn [fst snd].
  f_equal. f_equal; f_equal; [apply Hsum | f_equal; apply length_fmap].
Qed.

(** The frame that an exit store of valid answers loads as: its two scale
    columns are integer columns holding the answers. *)
Lemma exit_frame_columns (answers : list exit_answer) :
  answers <> [] -> Forall valid_answer answers ->
  let df := frame_of_table (stage_keys Exit) (exit_rows answers) in
  df_empty df = false
  /\ df_columns df = exit_columns
  /\ df_getitem df "satisfaction" = Ok (Int64, PyInt <$> (ans_satisfaction <$> answers))
  /\ df_getitem df "difficulty" = Ok (Int64, PyInt <$> (ans_difficulty <$> answers)).
Proof.
  intros Hne Hall df. subst df.
  rewrite frame_of_table_even;
    [|destruct answers; [congruence | discriminate] | apply exit_rows_width].
  destruct (exit_scale_columns answers Hne Hall) as [H1 H2].
  change (length (stage_keys Exit)) with 4%nat.
  rewrite column_types_four, H1, H2.
  split; [|split; [reflexivity |]].
  - unfold df_empty. simpl. rewrite length_fmap. unfold exit_rows. rewrite length_fmap.
    destruct answers; [congruence | reflexivity].
  - unfold df_getitem.
    change (index_of "satisfaction" _) with (Some 1%nat).
    change (index_of "difficulty" _) with (Some 2%nat).
    cbv iota. simpl nth. simpl df_rows.
    split; f_equal; f_equal; unfold exit_rows;
      rewrite <- !list_fmap_compose; apply Forall_fmap_ext_1;
      (eapply Forall_impl; [exact Hall |]); intros a [Hs Hd];
      unfold compose; rewrite exit_row_cells, convert_row_four; simpl nth;
      [apply (on_scale_cell _ Hs) | apply (on_scale_cell _ Hd)].
Qed.

Lemma mean_of_run (df : DataFrame) (col : string) (wd : world) :
  mean_of df col wd
  = (match df_getitem df col with
     | Ok s => Series_mean s
     | Raise e => Raise e
     end, wd).
Proof. unfold mean_of, bind, lift. destruct (df_getitem df col); reflexivity. Qed.

Lemma exit_store_load (answers : list exit_answer) (wd : world) :
  answers <> [] ->
  store_holds (fs wd) EXIT_CSV (stage_keys Exit) (exit_rows answers) ->
  load_from_csv EXIT_CSV wd
  = (Ok (frame_of_table (stage_keys Exit) (exit_rows answers)), wd).
Proof.
  intros Hne Hst. rewrite load_from_csv_run.
  unfold store_holds in Hst.
  destruct (exit_rows answers) as [|r rows] eqn:Hrows.
  { destruct answers; [congruence | discriminate]. }
  rewrite Hst, <- Hrows.
  rewrite read_csv_store; [reflexivity | simpl; lia | apply exit_rows_width].
Qed.

Lemma stores_ok_rerun (w : widgets) (clk : clock) (wd : world) :
  stores_ok (fs wd) -> stores_ok (fs (rerun w clk wd).2).
Proof.
  intros Hok st. destruct (Hok st) as (rows & Hst & Hwidth).
  pose proof (rerun_store st w clk wd rows Hst) as Hst'.
  destruct (pressed st w); [|eauto].
  eexists. split; [exact Hst' |].
  apply Forall_app. split; [assumption |].
  constructor; [|constructor].
  now rewrite record_row_length, stage_record_keys.
Qed.

Lemma stores_ok_session (inputs : list (widgets * clock)) (wd : world) :
  stores_ok (fs wd) -> stores_ok (fs (session inputs wd)).
Proof.
  revert wd. induction inputs as [|[w clk] inputs IH]; intros wd Hok; [assumption |].
  rewrite session_cons. apply IH. now apply stores_ok_rerun.
Qed.

Lemma stores_ok_init : stores_ok (fs world_init).
Proof. intros st. exists []. split; [reflexivity | constructor]. Qed.

Lemma stores_ok_load (wd : world) (st : stage) (l : list ui) :
  stores_ok (fs wd) ->
  exists df, load_from_csv (stage_path st) (with_screen wd l) = (Ok df, with_screen wd l).
Proof.
  intros Hok. destruct (Hok st) as (rows & Hst & Hwidth).
  rewrite load_from_csv_run. simpl fs. unfold store_holds in Hst.
  destruct rows as [|r rows]; rewrite Hst; [eauto |].
  rewrite read_csv_store by (assumption || apply stage_keys_wide). eauto.
Qed.

(** The report up to its statistics, when the four stores load. *)
Lemma report_tab_run (wd : world) (consent_df demographic_df task_df exit_df : DataFrame) :
  (forall l, load_from_csv CONSENT_CSV (with_screen wd l) = (Ok consent_df, with_screen wd l)) ->
  (forall l, load_from_csv DEMOGRAPHIC_CSV (with_screen wd l)
             = (Ok demographic_df, with_screen wd l)) ->
  (forall l, load_from_csv TASK_CSV (with_screen wd l) = (Ok task_df, with_screen wd l)) ->
  (forall l, load_from_csv EXIT_CSV (with_screen wd l) = (Ok exit_df, with_screen wd l)) ->
  report_tab wd
  = report_averages exit_df
      (with_screen wd
         (screen wd
          ++ [table_or_info consent_df "No consent data available yet.";
              table_or_info demographic_df "No demographic data available yet.";
              table_or_info task_df "No task data available yet.";
              table_or_info exit_df "No exit questionnaire data available yet."])).
Proof.
  intros Hc Hd Ht He. unfold report_tab, table_or_info.
  replace wd with (with_screen wd (screen wd)) at 1 by (destruct wd; reflexivity).
  unfold bind at 1. rewrite Hc.
  unfold bind at 1.
  replace ((if negb (df_empty consent_df)
            then show (st_dataframe consent_df)
            else show (st_info "No consent data available yet."))
             (with_screen wd (screen wd)))
    with (Ok tt, with_screen wd (screen wd ++ [table_or_info consent_df
                                                 "No consent data available yet."]))
    by (unfold table_or_info; destruct (negb (df_empty consent_df)); reflexivity).
  unfold bind at 1. rewrite Hd.
  unfold bind at 1.
  replace ((if negb (df_empty demographic_df)
            then show (st_dataframe demographic_df)
            else show (st_info "No demographic data available yet."))
             (with_screen wd _))
    with (Ok tt, with_screen wd
                   ((screen wd ++ [table_or_info consent_df
                                     "No consent data available yet."])
                    ++ [table_or_info demographic_df
                          "No demographic data available yet."]))
    by (unfold table_or_info; destruct (negb (df_empty demographic_df)); reflexivity).
  unfold bind at 1. rewrite Ht.
  unfold bind at 1.
  replace ((if negb (df_empty task_df)
            then show (st_dataframe task_df)
            else show (st_info "No task data available yet."))
             (with_screen wd _))
    with (Ok tt, with_screen wd
                   (((screen wd ++ [table_or_info consent_df
                                      "No consent data available yet."])
                     ++ [table_or_info demographic_df
                           "No demographic data available yet."])
                    ++ [table_or_info task_df "No task data available yet."]))
    by (unfold table_or_info; destruct (negb (df_empty task_df)); reflexivity).
  unfold bind at 1. rewrite He.
  unfold bind at 1.
  replace ((if negb (df_empty exit_df)
            then show (st_dataframe exit_df)
            else show (st_info "No exit questionnaire data available yet."))
             (with_screen wd _))
    with (Ok tt, with_screen wd
                   ((((screen wd ++ [table_or_info consent_df
                                       "No consent data available yet."])
                      ++ [table_or_info demographic_df
                            "No demographic data available yet."])
                     ++ [table_or_info task_df "No task data available yet."])
                    ++ [table_or_info exit_df
                          "No exit questionnaire data available yet."]))
    by (unfold table_or_info; destruct (negb (df_empty exit_df)); reflexivity).
  rewrite <- !app_assoc. reflexivity.
Qed.

Lemma report_averages_run (answers : list exit_answer) (wd : world) :
  answers <> [] -> Forall valid_answer answers ->
  report_averages (frame_of_table (stage_keys Exit) (exit_rows answers)) wd
  = (Ok tt,
     shown (shown wd (satisfaction_line (arithmetic_mean (ans_satisfaction <$> answers))))
           (difficulty_line (arithmetic_mean (ans_difficulty <$> answers)))).
Proof.
  intros Hne Hall.
  destruct (exit_frame_columns answers Hne Hall) as (Hempty & _ & Hsat & Hdif).
  unfold report_averages, when. rewrite Hempty. cbn [negb].
  unfold bind at 1. rewrite mean_of_run, Hsat, Series_mean_int.
  unfold bind at 1. rewrite mean_of_run, Hdif, Series_mean_int.
  reflexivity.
Qed.


Lemma convert_text (s : string) : is_na s = false -> convert CStr s = PyStr s.
Proof. unfold convert. now intros ->. Qed.

(** C5: the record with satisfaction 5, difficulty 1 and feedback "none",
    stamped by [strftime], appended to an exit store of valid answers and
    loaded again, is the last row, with its four values unchanged: the
    timestamp is the string that was written, the two answers are the
    integers 5 and 1, the feedback is the string "none". *)
Theorem exit_record_round_trip (answers : list exit_answer) (t : struct_time) (wd : world) :
  Forall valid_answer answers ->
  store_holds (fs wd) EXIT_CSV (stage_keys Exit) (exit_rows answers) ->
  exists wd' df,
    save_to_csv (exit_dict (strftime t) 5 1 "none") EXIT_CSV wd = (Ok tt, wd')
    /\ load_from_csv EXIT_CSV wd' = (Ok df, wd')
    /\ df_columns df = keys (exit_dict (strftime t) 5 1 "none")
    /\ last (df_rows df) = Some (values (exit_dict (strftime t) 5 1 "none"))
    /\ values (exit_dict (strftime t) 5 1 "none")
       = [PyStr (strftime t); PyInt 5; PyInt 1; PyStr "none"].
Proof.
  intros Hall Hst.
  set (a := {| ans_timestamp := strftime t; ans_satisfaction := 5;
               ans_difficulty := 1; ans_feedback := "none" |}).
  change (exit_dict (strftime t) 5 1 "none") with (exit_record a).
  assert (Hall' : Forall valid_answer (answers ++ [a])).
  { apply Forall_app. split; [assumption |].
    constructor; [|constructor]. unfold valid_answer, on_scale. simpl. lia. }
  assert (Hne : answers ++ [a] <> []) by (destruct answers; discriminate).
  exists (saved (exit_record a) EXIT_CSV wd),
         (frame_of_table (stage_keys Exit) (exit_rows (answers ++ [a]))).
  split; [apply save_to_csv_run |].
  assert (Hst' : store_holds (fs (saved (exit_record a) EXIT_CSV wd)) EXIT_CSV
                             (stage_keys Exit) (exit_rows (answers ++ [a]))).
  { unfold exit_rows. rewrite fmap_app.
    apply (store_holds_saved (fs wd) _ EXIT_CSV (exit_record a));
      [apply lookup_insert_eq | exact Hst]. }
  split; [now apply exit_store_load |].
  destruct (exit_frame_columns _ Hne Hall') as (_ & Hcols & _ & _).
  split; [exact Hcols |].
  rewrite frame_of_table_even;
    [|destruct answers; discriminate | apply exit_rows_width].
  destruct (exit_scale_columns _ Hne Hall') as [H1 H2].
  destruct (timestamp_cell t) as (Hna & Hint & Hfloat & Hbool).
  assert (H0 : convert (infer_type (column 0 (exit_rows (answers ++ [a]))))
                       (strftime t) = PyStr (strftime t)).
  { apply (convert_in_text_column _ (strftime t)); try assumption.
    unfold column, exit_rows. rewrite !fmap_app. apply elem_of_app. right.
    apply elem_of_cons. now left. }
  assert (H3 : convert (infer_type (column 3 (exit_rows (answers ++ [a]))))
                       "none" = PyStr "none").
  { apply (convert_in_text_column _ "none"); try reflexivity.
    unfold column, exit_rows. rewrite !fmap_app. apply elem_of_app. right.
    apply elem_of_cons. now left. }
  change (length (stage_keys Exit)) with 4%nat.
  rewrite column_types_four, H1, H2. cbn [df_rows].
  set (t0 := infer_type (column 0 _)) in *.
  set (t3 := infer_type (column 3 _)) in *.
  unfold exit_rows at 1. rewrite !fmap_app.
  change ((fun a0 => record_row (exit_record a0)) <$> [a])
    with [record_row (exit_record a)].
  rewrite list_fmap_singleton, last_snoc.
  rewrite exit_row_cells, convert_row_four.
  subst a. cbn [ans_timestamp ans_satisfaction ans_difficulty ans_feedback].
  rewrite H0, H3. split; reflexivity.
Qed.

(** ** What an integer reads back as *)

Ltac digit_step :=
  change (isdigit_ascii _) with true; cbv iota; unfold digit_value;
  match goal with
  | |- context [Z.of_nat (nat_of_ascii ?c) - 48] =>
      let v := eval vm_compute in (Z.of_nat (nat_of_ascii c) - 48) in
      change (Z.of_nat (nat_of_ascii c) - 48) with v
  end.

Lemma read_digits_acc (d : Decimal.uint) (acc : positive) (n : nat) :
  read_digits (NilEmpty.string_of_uint d) (Zpos acc) n
  = (Zpos (Pos.of_uint_acc d acc), (n + Decimal.nb_digits d)%nat, "").
Proof.
  revert acc n. induction d; intros acc n;
    cbn [NilEmpty.string_of_uint read_digits Pos.of_uint_acc Decimal.nb_digits];
    [now rewrite Nat.add_0_r | ..];
    digit_step; rewrite Nat.add_succ_r;
    match goal with
    | |- read_digits _ ?a _ = (Zpos (Pos.of_uint_acc _ ?b), _, _) =>
        replace a with (Zpos b) by lia
    end;
    apply IHd.
Qed.

Lemma read_digits_uint (d : Decimal.uint) (n : nat) :
  read_digits (NilEmpty.string_of_uint d) 0 n
  = (Z.of_N (Pos.of_uint d), (n + Decimal.nb_digits d)%nat, "").
Proof.
  revert n. induction d; intros n;
    cbn [NilEmpty.string_of_uint read_digits Pos.of_uint Decimal.nb_digits];
    [now rewrite Nat.add_0_r | ..];
    digit_step; rewrite Nat.add_succ_r; simpl Z.add;
    [apply IHd | apply read_digits_acc ..].
Qed.

Lemma int64_text (v : Z) (n : nat) :
  INT64_MIN <= v <= INT64_MAX ->
  match S n, skip_spaces "" with
  | S _, EmptyString =>
      if (INT64_MIN <=? v) && (v <=? INT64_MAX) then Some v else None
  | _, _ => None
  end = Some v.
Proof.
  intros [Hlo Hhi]. cbn [skip_spaces].
  apply Z.leb_le in Hlo. apply Z.leb_le in Hhi. now rewrite Hlo, Hhi.
Qed.

Lemma nb_digits_nonnil (d : Decimal.uint) :
  d <> Decimal.Nil -> exists k, Decimal.nb_digits d = S k.
Proof. destruct d; [congruence | eexists; reflexivity ..]. Qed.

Lemma str_to_int64_uint (d : Decimal.uint) :
  d <> Decimal.Nil ->
  INT64_MIN <= Z.of_N (Pos.of_uint d) <= INT64_MAX ->
  str_to_int64 (NilEmpty.string_of_uint d) = Some (Z.of_N (Pos.of_uint d)).
Proof.
  intros Hd Hrange.
  assert (Hskip : skip_sign (skip_spaces (NilEmpty.string_of_uint d))
                  = (false, NilEmpty.string_of_uint d))
    by (destruct d; [congruence | reflexivity ..]).
  destruct (nb_digits_nonnil d Hd) as (k & Hk).
  unfold str_to_int64. rewrite Hskip, read_digits_uint, Hk.
  now apply int64_text.
Qed.

Lemma str_to_int64_minus (d : Decimal.uint) :
  d <> Decimal.Nil ->
  INT64_MIN <= - Z.of_N (Pos.of_uint d) <= INT64_MAX ->
  str_to_int64 (String "-" (NilEmpty.string_of_uint d))
  = Some (- Z.of_N (Pos.of_uint d)).
Proof.
  intros Hd Hrange. destruct (nb_digits_nonnil d Hd) as (k & Hk).
  unfold str_to_int64.
  change (skip_sign (skip_spaces (String "-" ?s))) with (true, s).
  cbv iota beta. rewrite read_digits_uint, Hk.
  now apply int64_text.
Qed.

(** An integer of 64 bits is read back from its decimal text. *)
Lemma str_to_int64_Z_to_string (z : Z) :
  INT64_MIN <= z <= INT64_MAX -> str_to_int64 (Z_to_string z) = Some z.
Proof.
  intros Hz. unfold Z_to_string. destruct z as [|p|p].
  - reflexivity.
  - cbn [Z.to_int NilZero.string_of_int]. unfold NilZero.string_of_uint.
    pose proof (Unsigned.to_uint_nonnil p) as Hnil.
    pose proof (Unsigned.of_to p) as Hof.
    pose proof (str_to_int64_uint (Pos.to_uint p) Hnil) as Hpos.
    rewrite Hof in Hpos. specialize (Hpos Hz).
    destruct (Pos.to_uint p); [congruence | exact Hpos ..].
  - cbn [Z.to_int NilZero.string_of_int]. unfold NilZero.string_of_uint.
    pose proof (Unsigned.to_uint_nonnil p) as Hnil.
    pose proof (Unsigned.of_to p) as Hof.
    pose proof (str_to_int64_minus (Pos.to_uint p) Hnil) as Hneg.
    rewrite Hof in Hneg. specialize (Hneg Hz).
    destruct (Pos.to_uint p); [congruence | exact Hneg ..].
Qed.

Lemma is_na_not_int (s : string) : is_na s = true -> str_to_int64 s = None.
Proof.
  unfold is_na. intros H. apply existsb_exists in H.
  destruct H as (x & Hin & Heq). apply String.eqb_eq in Heq. subst x.
  unfold na_values in Hin. simpl in Hin.
  repeat (destruct Hin as [<- | Hin]; [reflexivity |]). destruct Hin.
Qed.

Lemma int_cell (z : Z) :
  INT64_MIN <= z <= INT64_MAX ->
  is_int (Z_to_string z) = true /\ convert CInt (Z_to_string z) = PyInt z.
Proof.
  intros Hz. pose proof (str_to_int64_Z_to_string z Hz) as Hread.
  unfold is_int, convert. rewrite Hread. split; [|reflexivity].
  destruct (is_na (Z_to_string z)) eqn:Hna.
  - apply is_na_not_int in Hna. congruence.
  - reflexivity.
Qed.

Lemma column_types_lookup (width j : nat) (table : list (list string)) :
  (j < width)%nat ->
  column_types width table !! j = Some (infer_type (column j table)).
Proof.
  intros Hj. unfold column_types. rewrite list_lookup_fmap, lookup_seq_lt by exact Hj.
  reflexivity.
Qed.

Lemma convert_row_lookup (types : list coltype) (r : list string) (j : nat)
      (t : coltype) (s : string) :
  types !! j = Some t -> r !! j = Some s ->
  convert_row types r !! j = Some (convert t s).
Proof.
  intros Ht Hs. unfold convert_row. rewrite lookup_zip_with, Ht, Hs. reflexivity.
Qed.

Lemma column_elem (j : nat) (table : list (list string)) (r : list string) (s : string) :
  r ∈ table -> r !! j = Some s -> s ∈ column j table.
Proof.
  intros Hr Hs. unfold column. apply list_elem_of_fmap. exists r.
  split; [|exact Hr]. now rewrite nth_lookup, Hs.
Qed.

Lemma record_row_lookup (d : dict) (j : nat) (v : pyval) :
  values d !! j = Some v -> record_row d !! j = Some (cell_text v).
Proof.
  intros Hv. unfold record_row, row_text. now rewrite list_lookup_fmap, Hv.
Qed.

Lemma record_rows_width (ks : list string) (ds : list dict) :
  Forall (fun d => keys d = ks) ds ->
  Forall (fun r => length r = length ks) (record_row <$> ds).
Proof.
  intros Hds. apply Forall_fmap. eapply Forall_impl; [exact Hds |].
  simpl. intros d <-. apply record_row_length.
Qed.


(** The cell of column [j] in the row read from the record [d] of [ds]:
    the text that was written, converted as the whole column is. *)
Lemma row_cell (ks : list string) (ds : list dict) (i j : nat) (d : dict) (v : pyval) :
  Forall (fun d => keys d = ks) ds ->
  ds !! i = Some d -> values d !! j = Some v ->
  cell_text v ∈ column j (record_row <$> ds)
  /\ convert_row (column_types (length ks) (record_row <$> ds)) (record_row d) !! j
     = Some (convert (infer_type (column j (record_row <$> ds))) (cell_text v)).
Proof.
  intros Hks Hd Hv.
  pose proof (record_row_lookup d j v Hv) as Hcell.
  assert (Hrow : (record_row <$> ds) !! i = Some (record_row d))
    by now rewrite list_lookup_fmap, Hd.
  split.
  - eapply column_elem; [|exact Hcell]. eapply list_elem_of_lookup_2, Hrow.
  - apply convert_row_lookup; [|exact Hcell].
    apply column_types_lookup.
    rewrite Forall_forall in Hks.
    rewrite <- (Hks d) by (eapply list_elem_of_lookup_2, Hd).
    rewrite <- record_row_length. eapply lookup_lt_Some, Hcell.
Qed.

(** The cell of row [i] and column [j] of a loaded stage store. *)
Lemma loaded_cell (st : stage) (ds : list dict) (wd : world) (i j : nat) (d : dict)
      (v : pyval) :
  Forall (fun d => keys d = stage_keys st) ds ->
  store_holds (fs wd) (stage_path st) (stage_keys st) (record_row <$> ds) ->
  ds !! i = Some d -> values d !! j = Some v ->
  cell_text v ∈ column j (record_row <$> ds)
  /\ exists df row,
      load_from_csv (stage_path st) wd = (Ok df, wd)
      /\ df_rows df !! i = Some row
      /\ row !! j
         = Some (convert (infer_type (column j (record_row <$> ds))) (cell_text v)).
Proof.
  intros Hks Hst Hd Hv.
  pose proof (record_rows_width _ _ Hks) as Hwidth.
  destruct (row_cell _ ds i j d v Hks Hd Hv) as [Hin Hcell].
  split; [exact Hin |].
  destruct (load_store wd (stage_path st) (stage_keys st) (record_row <$> ds)
              (stage_keys_wide st) Hwidth Hst) as (df & Hload & Hrows).
  exists df, (convert_row (column_types (length (stage_keys st)) (record_row <$> ds))
                          (record_row d)).
  split; [exact Hload |]. split; [|exact Hcell].
  now rewrite Hrows, list_lookup_fmap, list_lookup_fmap, Hd.
Qed.

Lemma forallb_column (P : string -> bool) (j : nat) (ds : list dict) :
  Forall (fun d => exists v, values d !! j = Some v /\ P (cell_text v) = true) ds ->
  forallb P (column j (record_row <$> ds)) = true.
Proof.
  induction 1 as [|d ds (v & Hv & HP) _ IH]; [reflexivity |].
  change (column j (record_row <$> d :: ds))
    with (nth j (record_row d) "" :: column j (record_row <$> ds)).
  cbn [forallb]. rewrite IH, andb_true_r.
  now rewrite nth_lookup, (record_row_lookup d j v Hv).
Qed.

Lemma Forall_column (P : string -> Prop) (j : nat) (ds : list dict) :
  Forall (fun d => exists v, values d !! j = Some v /\ P (cell_text v)) ds ->
  Forall P (column j (record_row <$> ds)).
Proof.
  induction 1 as [|d ds (v & Hv & HP) _ IH]; [constructor |].
  change (column j (record_row <$> d :: ds))
    with (nth j (record_row d) "" :: column j (record_row <$> ds)).
  constructor; [|exact IH].
  now rewrite nth_lookup, (record_row_lookup d j v Hv).
Qed.


(** ** Loading what was appended *)


End Facts.

(** * Further properties of the script *)

Section More.

Context `{FT : FloatText}.

(** ** What a run writes *)

Lemma save_if_untouched (b : bool) (d : dict) (path path' : string)
      (f : gmap string string) :
  (b = true -> path' <> path) -> save_if b d path f !! path' = f !! path'.
Proof.
  intros Hb. unfold save_if. destruct b; [|reflexivity].
  apply lookup_insert_ne. intros ->. now apply Hb.
Qed.

Lemma rerun_file_untouched (w : widgets) (clk : clock) (wd : world) (path : string) :
  (forall st, pressed st w = true -> path <> stage_path st) ->
  fs (rerun w clk wd).2 !! path = fs wd !! path.
Proof.
  intros Hp. rewrite rerun_fs, after_forms_fs. simpl fs.
  rewrite (save_if_untouched _ _ EXIT_CSV) by apply (Hp Exit).
  rewrite (save_if_untouched _ _ TASK_CSV) by apply (Hp Task).
  rewrite (save_if_untouched _ _ DEMOGRAPHIC_CSV) by apply (Hp Demographics).
  now rewrite (save_if_untouched _ _ CONSENT_CSV) by apply (Hp Consent).
Qed.

(** X1: a script run writes to the file of a stage only when that stage is
    submitted in the run: every other path, the files of the stages that are
    not submitted among them, holds after the run what it held before,
    whether or not the report of the run raised. *)
Theorem run_writes_only_submitted_stores (w : widgets) (clk : clock) (wd : world)
        (path : string) :
  (forall st, pressed st w = true -> path <> stage_path st) ->
  fs (rerun w clk wd).2 !! path = fs wd !! path
  /\ forall st rows,
      path = stage_path st ->
      store_holds (fs wd) (stage_path st) (stage_keys st) rows ->
      store_holds (fs (rerun w clk wd).2) (stage_path st) (stage_keys st) rows.
Proof.
  intros Hp. pose proof (rerun_file_untouched w clk wd path Hp) as Hsame.
  split; [exact Hsame |].
  intros st rows -> Hst. eapply store_holds_lookup; eassumption.
Qed.

(** X2: a run in which no button is pressed (a checkbox ticked, a slider
    moved, text typed) persists nothing: the files and the session state are
    what they were. *)
Theorem run_without_button_persists_nothing (w : widgets) (clk : clock) (wd : world) :
  no_button w ->
  fs (rerun w clk wd).2 = fs wd
  /\ session_state (rerun w clk wd).2 = session_state wd.
Proof.
  intros (Hc & Hd & Hstart & Hstop & Hsave & He). split.
  - rewrite rerun_fs, after_forms_fs, Hc, Hd, Hsave, He. reflexivity.
  - rewrite rerun_session. unfold next_session. rewrite Hsave.
    now apply timer_state_idle.
Qed.

Lemma rerun_file_grows (w : widgets) (clk : clock) (wd : world) (path text : string) :
  fs wd !! path = Some text ->
  exists suffix, fs (rerun w clk wd).2 !! path = Some (text +:+ suffix).
Proof.
  intros Hfile.
  assert (Hstage : forall st, path = stage_path st ->
            exists suffix, fs (rerun w clk wd).2 !! path = Some (text +:+ suffix)).
  { intros st ->. rewrite rerun_stage_file, Hfile.
    destruct (pressed st w).
    - eexists. reflexivity.
    - exists "". now rewrite append_nil_r. }
  destruct (decide (path = stage_path Consent)) as [H1 | H1]; [eauto |].
  destruct (decide (path = stage_path Demographics)) as [H2 | H2]; [eauto |].
  destruct (decide (path = stage_path Task)) as [H3 | H3]; [eauto |].
  destruct (decide (path = stage_path Exit)) as [H4 | H4]; [eauto |].
  exists "". rewrite append_nil_r, <- Hfile.
  apply rerun_file_untouched. intros [] _; assumption.
Qed.

(** X3: files are only ever appended to: whatever a file holds, it still
    starts with it after any sequence of script runs; no run rewrites,
    truncates or deletes a line that was written. *)
Theorem files_only_grow (inputs : list (widgets * clock)) (wd : world)
        (path text : string) :
  fs wd !! path = Some text ->
  exists suffix, fs (session inputs wd) !! path = Some (text +:+ suffix).
Proof.
  revert wd text. induction inputs as [|[w clk] inputs IH]; intros wd text Hfile.
  - exists "". now rewrite append_nil_r.
  - rewrite session_cons.
    destruct (rerun_file_grows w clk wd path text Hfile) as (s1 & H1).
    destruct (IH (interact wd (w, clk)) _ H1) as (s2 & H2).
    exists (s1 +:+ s2). now rewrite <- append_assoc.
Qed.

(** ** The task timer over several runs *)

Lemma rerun_save_clears (w : widgets) (clk : clock) (wd : world) :
  save_task_results w = true -> timer_clear (session_state (rerun w clk wd).2).
Proof.
  intros Hsave. rewrite rerun_session. unfold next_session. rewrite Hsave. split.
  - rewrite lookup_delete_ne by discriminate. apply lookup_delete_eq.
  - apply lookup_delete_eq.
Qed.

(** X4: the run in which Save Task Results is pressed leaves neither a start
    time nor a duration in the session state, whatever the timer held, so a
    duration is written to one record only: Start never pressed again, the
    next Save records an empty duration, Stop pressed or not. *)
Theorem save_clears_timer (w w' : widgets) (clk clk' : clock) (wd : world) :
  save_task_results w = true ->
  start_task_timer w' = false ->
  timer_clear (session_state (rerun w clk wd).2)
  /\ duration_field (task_record w' clk' (session_state (rerun w clk wd).2))
     = Some (PyStr "").
Proof.
  intros Hsave Hstart.
  destruct (rerun_save_clears w clk wd Hsave) as [Hs Hd].
  split; [now split |].
  rewrite task_record_duration. unfold session_get, timer_state.
  rewrite Hstart, Hs. simpl. rewrite andb_false_r. now rewrite Hd.
Qed.

(** The session state of a session depends on the session state it starts
    from alone. *)
Lemma session_timer (inputs : list (widgets * clock)) (wd : world) :
  session_state (session inputs wd)
  = foldl (fun s i => next_session i.1 i.2 s) (session_state wd) inputs.
Proof.
  revert wd. induction inputs as [|[w clk] inputs IH]; intros wd; [reflexivity |].
  rewrite session_cons, IH. unfold interact. cbn [foldl fst snd].
  now rewrite rerun_session.
Qed.

(** X5: Stop keeps the start time: pressed a second time, it replaces the
    duration by the time elapsed since the same Start, not since the first
    Stop. *)
Theorem second_stop_measures_from_start (w : widgets) (c1 c2 c3 : clock) (wd : world) :
  let runs := [(click StartTaskTimer w, c1); (click StopTaskTimer w, c2);
               (click StopTaskTimer w, c3)] in
  session_state (session runs wd) !! "start_time" = Some (time_time c1)
  /\ session_state (session runs wd) !! "task_duration"
     = Some (time_time c3 - time_time c1)%float.
Proof.
  cbv zeta. rewrite session_timer. cbn [foldl fst snd].
  unfold next_session, timer_state. simpl.
  rewrite lookup_insert_eq. simpl.
  rewrite lookup_insert_ne by discriminate. rewrite lookup_insert_eq. simpl.
  split.
  - rewrite !lookup_insert_ne by discriminate. apply lookup_insert_eq.
  - apply lookup_insert_eq.
Qed.

(** X6: Start pressed again after a Stop replaces the start time and keeps
    the stored duration: saved before the next Stop, the record holds the
    duration of the earlier measurement. *)
Theorem restart_keeps_stored_duration (w : widgets) (c1 c2 c3 c4 : clock) (wd : world) :
  truthy (PyFloat (time_time c2 - time_time c1)) = true ->
  let runs := [(click StartTaskTimer w, c1); (click StopTaskTimer w, c2);
               (click StartTaskTimer w, c3)] in
  session_state (session runs wd) !! "start_time" = Some (time_time c3)
  /\ duration_field
       (task_record (click SaveTaskResults w) c4 (session_state (session runs wd)))
     = Some (PyFloat (time_time c2 - time_time c1)).
Proof.
  intros Ht. cbv zeta.
  assert (Hs : session_state
                 (session [(click StartTaskTimer w, c1); (click StopTaskTimer w, c2);
                           (click StartTaskTimer w, c3)] wd)
               = <["start_time" := time_time c3]>
                   (<["task_duration" := (time_time c2 - time_time c1)%float]>
                      (<["start_time" := time_time c1]> (session_state wd)))).
  { rewrite session_timer. cbn [foldl fst snd].
    unfold next_session, timer_state. simpl.
    rewrite lookup_insert_eq. reflexivity. }
  rewrite Hs. split; [apply lookup_insert_eq |].
  rewrite task_record_duration, timer_state_idle by reflexivity.
  unfold session_get. rewrite lookup_insert_ne by discriminate.
  rewrite lookup_insert_eq. cbv zeta. simpl in Ht |- *. now rewrite Ht.
Qed.

(** X7: Stop has no effect while no start time is stored: in a session where
    Start is never pressed, from a clear timer, every run leaves the timer
    clear and every Save records an empty duration. *)
Theorem stop_without_start_ignored (inputs : list (widgets * clock)) (wd : world)
        (w : widgets) (clk : clock) :
  Forall (fun i => start_task_timer i.1 = false) inputs ->
  start_task_timer w = false ->
  timer_clear (session_state wd) ->
  timer_clear (session_state (session inputs wd))
  /\ duration_field (task_record w clk (session_state (session inputs wd)))
     = Some (PyStr "").
Proof.
  intros Hall Hw [Hs Hd].
  destruct (timer_never_started inputs wd Hall Hs Hd) as [Hs' Hd'].
  split; [now split |].
  rewrite task_record_duration. unfold session_get, timer_state.
  rewrite Hw, Hs'. simpl. rewrite andb_false_r. now rewrite Hd'.
Qed.

(** X8: a timer that is started, and started again, but never stopped
    stores no duration: in a session where Stop is never pressed, from a
    state without a duration, every Save records an empty duration. *)
Theorem never_stopped_saved_empty (inputs : list (widgets * clock)) (wd : world)
        (w : widgets) (clk : clock) :
  Forall (fun i => stop_task_timer i.1 = false) inputs ->
  stop_task_timer w = false ->
  session_state wd !! "task_duration" = None ->
  session_state (session inputs wd) !! "task_duration" = None
  /\ duration_field (task_record w clk (session_state (session inputs wd)))
     = Some (PyStr "").
Proof.
  intros Hall Hw Hd.
  pose proof (timer_never_stopped inputs wd Hall Hd) as Hd'.
  split; [exact Hd' |]. now apply no_duration_saved_empty.
Qed.

(** X9: no key but the two of the timer is ever written to or deleted from
    the session state, by any sequence of script runs. *)
Theorem session_changes_timer_keys_only (inputs : list (widgets * clock)) (wd : world)
        (key : string) :
  key <> "start_time" -> key <> "task_duration" ->
  session_state (session inputs wd) !! key = session_state wd !! key.
Proof.
  intros Hs Hd. rewrite session_timer. generalize (session_state wd) as s.
  induction inputs as [|[w clk] inputs IH]; intros s; [reflexivity |].
  cbn [foldl fst snd]. rewrite IH.
  assert (Ht : timer_state w clk s !! key = s !! key).
  { unfold timer_state.
    destruct (stop_task_timer w && _), (start_task_timer w);
      now rewrite ?lookup_insert_ne by congruence. }
  unfold next_session. destruct (save_task_results w); [|exact Ht].
  now rewrite !lookup_delete_ne by congruence.
Qed.

(** ** What a run shows *)

Lemma after_forms_screen (w : widgets) (clk : clock) (wd : world) :
  screen (after_forms w clk wd) = screen wd ++ form_messages w.
Proof.
  unfold after_forms, form_messages.
  rewrite exit_tab_run, tasks_tab_run, demographics_tab_run, consent_tab_run.
  destruct (submit_consent w), (consent_given w), (submitted w),
    (save_task_results w), (submitted_exit w);
    simpl; rewrite <- ?app_assoc, ?app_nil_r; reflexivity.
Qed.

Lemma rerun_report (w : widgets) (clk : clock) (wd : world) :
  rerun w clk wd = report_tab (after_forms w clk (cleared wd)).
Proof. unfold rerun. fold (cleared wd). apply main_run. Qed.

Lemma rerun_screen (w : widgets) (clk : clock) (wd : world) :
  exists l, screen (rerun w clk wd).2 = form_messages w ++ l.
Proof.
  destruct (rerun_run w clk wd) as (r & l & ->). exists l. simpl.
  now rewrite after_forms_screen.
Qed.

Lemma success_in_form_messages (st : stage) (w : widgets) :
  pressed st w = true -> success_message st ∈ form_messages w.
Proof.
  unfold form_messages. destruct st; simpl; intros Hp.
  - apply andb_true_iff in Hp. destruct Hp as [-> ->].
    apply elem_of_app. left. apply list_elem_of_singleton. reflexivity.
  - rewrite Hp. apply elem_of_app. right. apply elem_of_app. left.
    apply list_elem_of_singleton. reflexivity.
  - rewrite Hp. do 2 (apply elem_of_app; right). apply elem_of_app. left.
    apply list_elem_of_singleton. reflexivity.
  - rewrite Hp. do 3 (apply elem_of_app; right).
    apply list_elem_of_singleton. reflexivity.
Qed.

(** X10: the forms save before the report reads: the record of a stage
    submitted in a run is in the file of the stage after the run, and its
    success message is on the page, whatever the file held before (a text
    that cannot be read as a table included) and whether the report of the
    run returned or raised. *)
Theorem submission_saved_whatever_report (st : stage) (w : widgets) (clk : clock)
        (wd : world) :
  pressed st w = true ->
  fs (rerun w clk wd).2 !! stage_path st
  = Some (file_after_save (stage_record st w clk (session_state wd))
                          (fs wd !! stage_path st))
  /\ success_message st ∈ screen (rerun w clk wd).2.
Proof.
  intros Hp. split.
  - now rewrite rerun_stage_file, Hp.
  - destruct (rerun_screen w clk wd) as (l & ->).
    apply elem_of_app. left. now apply success_in_form_messages.
Qed.

Lemma page_free_ret {A} (a : A) : page_free (ret a).
Proof. intros wd. unfold ret, with_screen. simpl. rewrite app_nil_r. now destruct wd. Qed.

Lemma page_free_lift {A} (r : result A) : page_free (lift r).
Proof. intros wd. unfold lift, with_screen. simpl. rewrite app_nil_r. now destruct wd. Qed.

Lemma page_free_show (u : ui) : page_free (show u).
Proof. intros wd. reflexivity. Qed.

Lemma page_free_load (path : string) : page_free (load_from_csv path).
Proof.
  intros wd. rewrite !load_from_csv_run. unfold with_screen. simpl.
  rewrite app_nil_r. now destruct wd.
Qed.

Lemma page_free_bind {A B} (m : M A) (k : A -> M B) :
  page_free m -> (forall a, page_free (k a)) -> page_free (bind m k).
Proof.
  intros Hm Hk wd. unfold bind. rewrite (Hm wd).
  pose proof (Hm (cleared wd)) as Hwd1.
  change (cleared (cleared wd)) with (cleared wd) in Hwd1.
  destruct (m (cleared wd)) as [[a|e] wd1]; cbn [fst snd] in *; [|reflexivity].
  injection Hwd1 as Hwd1. cbn [cleared screen app] in Hwd1.
  remember (screen wd1) as l1 eqn:Hl1. subst wd1. clear Hl1.
  rewrite (Hk a (with_screen wd (screen wd ++ l1))).
  rewrite (Hk a (with_screen _ l1)).
  unfold with_screen, cleared. cbn [fs session_state screen fst snd app].
  now rewrite app_assoc.
Qed.

Ltac page_free_steps :=
  repeat first
    [ apply page_free_load | apply page_free_show | apply page_free_ret
    | apply page_free_lift
    | match goal with |- page_free (if ?b then _ else _) => destruct b end
    | apply page_free_bind; [|intros ?] ].

Lemma page_free_report_tab : page_free report_tab.
Proof. unfold report_tab, report_averages, when, mean_of. page_free_steps. Qed.

Lemma after_forms_idle (w : widgets) (clk : clock) (wd : world) :
  no_button w -> after_forms w clk wd = wd.
Proof.
  intros (Hc & Hd & Hstart & Hstop & Hsave & He). unfold after_forms.
  rewrite exit_tab_run, tasks_tab_run, demographics_tab_run, consent_tab_run.
  rewrite Hc, Hd, Hsave, He. cbv zeta.
  rewrite timer_state_idle by assumption. now destruct wd.
Qed.

Ltac shown_in_list :=
  repeat first [apply list_elem_of_here | apply list_elem_of_further].

Ltac not_shown H :=
  repeat (apply elem_of_cons in H; destruct H as [H | H]; [discriminate H |]);
  apply elem_of_nil in H; destruct H.

Lemma form_messages_spec (w : widgets) :
  (forall st, success_message st ∈ form_messages w <-> pressed st w = true)
  /\ (consent_warning ∈ form_messages w
      <-> submit_consent w = true /\ consent_given w = false).
Proof.
  unfold form_messages, pressed. split; [intros st|];
    destruct (submit_consent w), (consent_given w), (submitted w),
      (save_task_results w), (submitted_exit w); try destruct st;
    cbn [app andb success_message]; unfold consent_warning;
    (split; intros H;
     [first [reflexivity | now split | exfalso; not_shown H]
     | first [discriminate H | (destruct H; discriminate) | solve [shown_in_list]]]).
Qed.

(** X11: a run shows the messages of the forms and then the report, and
    nothing else: its page is the messages of the forms followed by what
    the report shows on an empty page for the files as the run leaves them,
    and the run ends as that report ends.  The messages of the forms are
    one per button pressed, in the order of the tabs: the success message
    of a stage is among them exactly when the stage is submitted, the
    warning exactly when consent is submitted without the box checked.  A
    run without a button pressed is the report alone. *)
Theorem run_shows_form_messages (w : widgets) (clk : clock) (wd : world) :
  let left := cleared (rerun w clk wd).2 in
  screen (rerun w clk wd).2 = form_messages w ++ screen (report_tab left).2
  /\ (rerun w clk wd).1 = (report_tab left).1
  /\ length (form_messages w)
     = length (filter (fun b => b = true)
                 [submit_consent w; submitted w; save_task_results w; submitted_exit w])
  /\ (forall st, success_message st ∈ form_messages w <-> pressed st w = true)
  /\ (consent_warning ∈ form_messages w
      <-> submit_consent w = true /\ consent_given w = false)
  /\ (no_button w -> rerun w clk wd = report_tab (cleared wd)).
Proof.
  cbv zeta. rewrite rerun_report.
  rewrite (page_free_report_tab (after_forms w clk (cleared wd))).
  cbn [fst snd with_screen screen cleared fs session_state].
  rewrite after_forms_screen. cbn [cleared screen app].
  destruct (form_messages_spec w) as [Hsuccess Hwarning].
  split; [reflexivity |]. split; [reflexivity |].
  split; [|split; [exact Hsuccess |split; [exact Hwarning |]]].
  - unfold form_messages.
    destruct (submit_consent w), (consent_given w), (submitted w),
      (save_task_results w), (submitted_exit w); reflexivity.
  - intros Hidle. rewrite (after_forms_idle w clk _ Hidle).
    rewrite (page_free_report_tab (cleared wd)).
    destruct Hidle as (Hc & Hd & _ & _ & Hsave & He).
    unfold form_messages. now rewrite Hc, Hd, Hsave, He.
Qed.

(** ** The report *)

Lemma load_absent (path : string) (wd : world) :
  fs wd !! path = None -> load_from_csv path wd = (Ok DataFrame_empty, wd).
Proof. intros Hf. now rewrite load_from_csv_run, Hf. Qed.

(** X12: where none of the four files exists, the report shows the four
    notices that no data is available, computes no average and returns. *)
Theorem report_of_empty_folder (wd : world) :
  (forall st, fs wd !! stage_path st = None) ->
  report_tab wd = (Ok tt, with_screen wd (screen wd ++ info_messages)).
Proof.
  intros Hnone.
  rewrite (report_tab_run wd DataFrame_empty DataFrame_empty DataFrame_empty
             DataFrame_empty);
    try (intros l; apply load_absent; simpl fs).
  - reflexivity.
  - apply (Hnone Consent).
  - apply (Hnone Demographics).
  - apply (Hnone Task).
  - apply (Hnone Exit).
Qed.

(** X13: the report only reads: whatever the files hold and whether it
    returns or raises, it leaves the files and the session state as they
    were, and what was on the page stays there, before what it shows. *)
Theorem report_changes_nothing (wd : world) :
  fs (report_tab wd).2 = fs wd
  /\ session_state (report_tab wd).2 = session_state wd
  /\ exists l, screen (report_tab wd).2 = screen wd ++ l.
Proof.
  destruct (readonly_report_tab wd) as (r & l & ->). simpl. eauto.
Qed.

Lemma load_any_screen (path : string) (wd : world) (df : DataFrame) (l l' : list ui) :
  load_from_csv path (with_screen wd l) = (Ok df, with_screen wd l) ->
  load_from_csv path (with_screen wd l') = (Ok df, with_screen wd l').
Proof.
  rewrite !load_from_csv_run. simpl fs. intros H. injection H as H. now rewrite H.
Qed.

Lemma report_tab_answers (answers : list exit_answer) (wd : world) :
  Forall valid_answer answers ->
  store_holds (fs wd) EXIT_CSV (stage_keys Exit) (exit_rows answers) ->
  stores_ok (fs wd) ->
  exists tables,
    length tables = 4%nat
    /\ report_tab wd
       = (Ok tt, with_screen wd (screen wd ++ tables ++ averages answers)).
Proof.
  intros Hall Hst Hok.
  assert (Hdf : forall st, exists df, forall l,
             load_from_csv (stage_path st) (with_screen wd l) = (Ok df, with_screen wd l)).
  { intros st. destruct (stores_ok_load wd st [] Hok) as (df & Hdf).
    exists df. intros l. eapply load_any_screen, Hdf. }
  destruct (Hdf Consent) as (consent_df & Hc).
  destruct (Hdf Demographics) as (demographic_df & Hd).
  destruct (Hdf Task) as (task_df & Ht).
  destruct answers as [|a answers].
  - assert (He : forall l, load_from_csv EXIT_CSV (with_screen wd l)
                           = (Ok DataFrame_empty, with_screen wd l))
      by (intros l; apply load_absent; exact Hst).
    rewrite (report_tab_run wd _ _ _ _ Hc Hd Ht He).
    eexists [_; _; _; _]. split; reflexivity.
  - assert (Hne : a :: answers <> []) by discriminate.
    assert (He : forall l, load_from_csv EXIT_CSV (with_screen wd l)
                           = (Ok (frame_of_table (stage_keys Exit)
                                                 (exit_rows (a :: answers))),
                              with_screen wd l))
      by (intros l; now apply exit_store_load).
    rewrite (report_tab_run wd _ _ _ _ Hc Hd Ht He).
    rewrite report_averages_run by assumption.
    eexists [_; _; _; _]. split; [reflexivity |].
    unfold shown, with_screen, averages. simpl. now rewrite <- !app_assoc.
Qed.

Lemma exit_store_rerun (answers : list exit_answer) (w : widgets) (clk : clock)
      (wd : world) :
  store_holds (fs wd) EXIT_CSV (stage_keys Exit) (exit_rows answers) ->
  store_holds (fs (rerun w clk wd).2) EXIT_CSV (stage_keys Exit)
    (exit_rows (if submitted_exit w then answers ++ [run_answer w clk] else answers)).
Proof.
  intros Hst. pose proof (rerun_store Exit w clk wd _ Hst) as Hst'.
  simpl in Hst'. destruct (submitted_exit w); [|exact Hst'].
  unfold exit_rows. rewrite fmap_app. exact Hst'.
Qed.

Lemma exit_store_ok_rerun (w : widgets) (clk : clock) (wd : world) :
  sliders_on_scale w -> exit_store_ok (fs wd) -> exit_store_ok (fs (rerun w clk wd).2).
Proof.
  intros Hw (answers & Hst & Hall). eexists. split.
  - apply exit_store_rerun, Hst.
  - destruct (submitted_exit w); [|exact Hall].
    apply Forall_app. split; [exact Hall |]. constructor; [exact Hw | constructor].
Qed.

Lemma exit_store_ok_session (inputs : list (widgets * clock)) (wd : world) :
  Forall (fun i => sliders_on_scale i.1) inputs ->
  exit_store_ok (fs wd) -> exit_store_ok (fs (session inputs wd)).
Proof.
  intros Hall. revert wd.
  induction Hall as [|[w clk] inputs Hw _ IH]; intros wd Hok; [assumption |].
  rewrite session_cons. apply IH. now apply exit_store_ok_rerun.
Qed.

(** The report of a run, when the stores are in order. *)
Lemma rerun_answers (answers : list exit_answer) (w : widgets) (clk : clock)
      (wd : world) :
  stores_ok (fs wd) ->
  Forall valid_answer answers ->
  store_holds (fs wd) EXIT_CSV (stage_keys Exit) (exit_rows answers) ->
  sliders_on_scale w ->
  exists tables,
    length tables = 4%nat
    /\ (rerun w clk wd).1 = Ok tt
    /\ screen (rerun w clk wd).2
       = form_messages w ++ tables
         ++ averages (if submitted_exit w then answers ++ [run_answer w clk]
                      else answers).
Proof.
  intros Hok Hall Hst Hw.
  pose proof (stores_ok_rerun w clk wd Hok) as Hok'.
  pose proof (exit_store_rerun answers w clk wd Hst) as Hst'.
  rewrite rerun_fs in Hok', Hst'.
  assert (Hall' : Forall valid_answer
                    (if submitted_exit w then answers ++ [run_answer w clk]
                     else answers)).
  { destruct (submitted_exit w); [|exact Hall].
    apply Forall_app. split; [exact Hall |]. constructor; [exact Hw | constructor]. }
  destruct (report_tab_answers _ _ Hall' Hst' Hok') as (tables & Hlen & Hrun).
  exists tables. split; [exact Hlen |].
  rewrite rerun_report, Hrun. cbn [fst snd with_screen screen].
  rewrite after_forms_screen. simpl. split; reflexivity.
Qed.

(** X14: a session never raises on stores that only it wrote to: from a
    data folder whose stores are in order (the folder without files is),
    with the two sliders on their scale in every run, every run returns,
    and leaves the stores in order. *)
Theorem session_never_raises (inputs : list (widgets * clock)) (w : widgets)
        (clk : clock) (wd : world) :
  stores_ok (fs wd) -> exit_store_ok (fs wd) ->
  Forall (fun i => sliders_on_scale i.1) inputs -> sliders_on_scale w ->
  (rerun w clk (session inputs wd)).1 = Ok tt
  /\ stores_ok (fs (session (inputs ++ [(w, clk)]) wd))
  /\ exit_store_ok (fs (session (inputs ++ [(w, clk)]) wd)).
Proof.
  intros Hok Hexit Hall Hw.
  pose proof (stores_ok_session inputs wd Hok) as Hok'.
  destruct (exit_store_ok_session inputs wd Hall Hexit) as (answers & Hst & Hvalid).
  destruct (rerun_answers answers w clk _ Hok' Hvalid Hst Hw) as (_ & _ & Hrun & _).
  split; [exact Hrun |]. split.
  - now apply stores_ok_session.
  - apply exit_store_ok_session; [|assumption].
    apply Forall_app. split; [assumption |]. constructor; [exact Hw | constructor].
Qed.

(** X15: the report of a run counts the answer submitted in the same run:
    when Submit Exit Questionnaire is pressed, the page of the run ends with
    the two averages over the answers the store held and the new one. *)
Theorem report_counts_submitted_answer (answers : list exit_answer) (w : widgets)
        (clk : clock) (wd : world) :
  stores_ok (fs wd) ->
  Forall valid_answer answers ->
  store_holds (fs wd) EXIT_CSV (stage_keys Exit) (exit_rows answers) ->
  sliders_on_scale w ->
  submitted_exit w = true ->
  let all := answers ++ [run_answer w clk] in
  (rerun w clk wd).1 = Ok tt
  /\ exists before,
      screen (rerun w clk wd).2
      = before ++ [satisfaction_line (arithmetic_mean (ans_satisfaction <$> all));
                   difficulty_line (arithmetic_mean (ans_difficulty <$> all))].
Proof.
  intros Hok Hall Hst Hw He all.
  destruct (rerun_answers answers w clk wd Hok Hall Hst Hw)
    as (tables & _ & Hrun & Hscreen).
  split; [exact Hrun |]. rewrite Hscreen, He. fold all.
  exists (form_messages w ++ tables). rewrite <- app_assoc.
  subst all. unfold averages. destruct answers; reflexivity.
Qed.

(** ** What a cell is loaded as *)

Lemma try_int64_no_overflow (cells : list string) :
  Forall (fun c => overflows_int64 c = false) cells -> try_int64 cells <> Overflows.
Proof.
  induction 1 as [|x cells Hx _ IH]; [discriminate |].
  cbn [try_int64]. destruct (is_na x); [exact IH |].
  unfold overflows_int64 in Hx.
  destruct (str_to_int64_error x) as [[]|]; try discriminate; exact IH.
Qed.

Lemma convert_later_na (cells : list string) (s : string) :
  s ∈ cells -> is_na s = true ->
  convert (infer_later cells) s = PyFloat PrimFloat.nan.
Proof.
  intros Hs Hna.
  assert (Hex : existsb is_na cells = true).
  { apply existsb_exists. exists s. split; [now apply list_elem_of_In | exact Hna]. }
  unfold infer_later. rewrite Hex.
  destruct (forallb is_float cells); [simpl; now rewrite Hna |].
  destruct (forallb is_bool cells); simpl; now rewrite Hna.
Qed.

Lemma convert_na (cells : list string) (s : string) :
  s ∈ cells -> is_na s = true ->
  Forall (fun c => overflows_int64 c = false) cells ->
  convert (infer_type cells) s = PyFloat PrimFloat.nan.
Proof.
  intros Hs Hna Hall.
  pose proof (try_int64_no_overflow cells Hall) as Htry.
  pose proof (convert_later_na cells s Hs Hna) as Hlater.
  assert (Hex : existsb is_na cells = true).
  { apply existsb_exists. exists s. split; [now apply list_elem_of_In | exact Hna]. }
  destruct cells as [|c cells]; [now apply elem_of_nil in Hs |].
  unfold infer_type. rewrite Hex.
  destruct (column_has_float (c :: cells)); [exact Hlater |].
  destruct (try_int64 (c :: cells)); try exact Hlater; [|congruence].
  simpl. now rewrite Hna.
Qed.

(** X16: a value written as an empty cell or as one of the words that
    pandas reads as missing ([NA], [null], [None], [nan], [n/a], ...) is
    loaded as NaN: notes left empty, a duration saved as the empty string,
    a participant named [None].  This holds in every column without an
    integer outside the signed 64 bits, whatever else the column holds;
    beside an integer above them, the cells are left as they are. *)
Theorem missing_value_loads_as_nan (st : stage) (ds : list dict) (wd : world)
        (i j : nat) (d : dict) (v : pyval) :
  Forall (fun d => keys d = stage_keys st) ds ->
  store_holds (fs wd) (stage_path st) (stage_keys st) (record_row <$> ds) ->
  column_holds (fun v => overflows_int64 (cell_text v) = false) j ds ->
  ds !! i = Some d -> values d !! j = Some v ->
  is_na (cell_text v) = true ->
  exists df row,
    load_from_csv (stage_path st) wd = (Ok df, wd)
    /\ df_rows df !! i = Some row
    /\ row !! j = Some (PyFloat PrimFloat.nan).
Proof.
  intros Hks Hst Hcol Hd Hv Hna.
  destruct (loaded_cell st ds wd i j d v Hks Hst Hd Hv)
    as (Hin & df & row & Hload & Hrow & Hcell).
  exists df, row. split; [exact Hload |]. split; [exact Hrow |].
  rewrite Hcell. f_equal. apply (convert_na _ _ Hin Hna).
  now apply Forall_column.
Qed.


(** X18: the timestamp of a record that a form built is loaded as the
    string that [strftime] wrote, in every stage store and whatever the
    other records of the store are. *)
Theorem timestamp_loads_unchanged (st : stage) (ds : list dict) (wd : world)
        (i : nat) (w : widgets) (clk : clock) (s : gmap string float) :
  Forall (fun d => keys d = stage_keys st) ds ->
  store_holds (fs wd) (stage_path st) (stage_keys st) (record_row <$> ds) ->
  ds !! i = Some (stage_record st w clk s) ->
  exists df row,
    load_from_csv (stage_path st) wd = (Ok df, wd)
    /\ df_rows df !! i = Some row
    /\ row !! 0%nat = Some (PyStr (strftime (localtime clk))).
Proof.
  intros Hks Hst Hd.
  assert (Hv : values (stage_record st w clk s) !! 0%nat
               = Some (PyStr (strftime (localtime clk))))
    by (destruct st; reflexivity).
  destruct (loaded_cell st ds wd i 0 _ _ Hks Hst Hd Hv)
    as (Hin & df & row & Hload & Hrow & Hcell).
  exists df, row. split; [exact Hload |]. split; [exact Hrow |].
  rewrite Hcell. simpl cell_text in *.
  destruct (timestamp_cell (localtime clk)) as (Hna & Hint & Hfloat & Hbool).
  now rewrite (convert_in_text_column _ _ _ Hin Hint Hfloat Hbool Hna).
Qed.

(** X19: a column in which every record holds an integer of 64 bits (the
    age, the two answers on the scale) is loaded as an integer column:
    every cell is the integer that was written. *)
Theorem integers_load_unchanged (st : stage) (ds : list dict) (wd : world)
        (i j : nat) (d : dict) (z : Z) :
  Forall (fun d => keys d = stage_keys st) ds ->
  store_holds (fs wd) (stage_path st) (stage_keys st) (record_row <$> ds) ->
  Forall (fun d => exists z, values d !! j = Some (PyInt z)
                             /\ INT64_MIN <= z <= INT64_MAX) ds ->
  ds !! i = Some d -> values d !! j = Some (PyInt z) ->
  exists df row,
    load_from_csv (stage_path st) wd = (Ok df, wd)
    /\ df_rows df !! i = Some row
    /\ row !! j = Some (PyInt z).
Proof.
  intros Hks Hst Hints Hd Hv.
  destruct (loaded_cell st ds wd i j d _ Hks Hst Hd Hv)
    as (Hin & df & row & Hload & Hrow & Hcell).
  exists df, row. split; [exact Hload |]. split; [exact Hrow |].
  rewrite Hcell. simpl cell_text in *.
  assert (Hz : INT64_MIN <= z <= INT64_MAX).
  { rewrite Forall_forall in Hints.
    destruct (Hints d) as (z' & Hv' & Hz');
      [eapply list_elem_of_lookup_2, Hd |].
    congruence. }
  rewrite infer_type_int.
  - f_equal. now apply int_cell.
  - intros Hnil. rewrite Hnil in Hin. now apply elem_of_nil in Hin.
  - apply forallb_column. eapply Forall_impl; [exact Hints |].
    simpl. intros d0 (z0 & Hv0 & Hz0). exists (PyInt z0).
    split; [exact Hv0 |]. now apply int_cell.
Qed.

Lemma float_cell (f : float) :
  prints_exactly f ->
  is_na (cell_text (PyFloat f)) = false
  /\ str_to_int64 (cell_text (PyFloat f)) = None
  /\ overflows_int64 (cell_text (PyFloat f)) = false
  /\ is_float (cell_text (PyFloat f)) = true
  /\ convert CFloat (cell_text (PyFloat f)) = PyFloat f.
Proof.
  intros (Hnan & Hna & Hint & Hover & Hsyn & Hread). simpl. rewrite Hnan.
  unfold is_float, convert, to_double. rewrite Hna, Hsyn, Hread.
  repeat split; assumption.
Qed.

(** A column of floats and missing values, with a float in it, is a column
    of floats. *)
Lemma infer_type_float (cells : list string) (c : string) :
  c ∈ cells -> is_na c = false -> str_to_int64 c = None ->
  Forall (fun x => overflows_int64 x = false) cells ->
  forallb is_float cells = true ->
  infer_type cells = CFloat.
Proof.
  intros Hc Hna Hint Hover Hall.
  pose proof (try_int64_no_overflow cells Hover) as H1.
  pose proof (try_int64_not_converted cells c Hc Hna Hint) as H2.
  destruct cells as [|c0 cells]; [now apply elem_of_nil in Hc |].
  unfold infer_type, infer_later. rewrite Hall.
  destruct (column_has_float (c0 :: cells)); [reflexivity |].
  destruct (try_int64 (c0 :: cells)); congruence.
Qed.

(** X20: a column in which every record holds a float or the empty string,
    as the duration of the task records, is loaded as a float column: a
    float is read back as the float it was (where its text is read back
    exactly), the empty string as NaN. *)
Theorem durations_load_as_floats (st : stage) (ds : list dict) (wd : world)
        (i j : nat) (d : dict) (f : float) :
  Forall (fun d => keys d = stage_keys st) ds ->
  store_holds (fs wd) (stage_path st) (stage_keys st) (record_row <$> ds) ->
  Forall (fun d => exists v, values d !! j = Some v /\ float_or_nothing v) ds ->
  ds !! i = Some d -> values d !! j = Some (PyFloat f) ->
  exists df row,
    load_from_csv (stage_path st) wd = (Ok df, wd)
    /\ df_rows df !! i = Some row
    /\ row !! j = Some (PyFloat f).
Proof.
  intros Hks Hst Hall Hd Hv.
  destruct (loaded_cell st ds wd i j d _ Hks Hst Hd Hv)
    as (Hin & df & row & Hload & Hrow & Hcell).
  exists df, row. split; [exact Hload |]. split; [exact Hrow |].
  assert (Hf : prints_exactly f).
  { rewrite Forall_forall in Hall.
    destruct (Hall d) as (v & Hv' & [Hempty | (f' & Hf' & Hp)]);
      [eapply list_elem_of_lookup_2, Hd | congruence |].
    congruence. }
  destruct (float_cell f Hf) as (Hna & Hint & _ & _ & Hconv).
  assert (Htype : infer_type (column j (record_row <$> ds)) = CFloat).
  { apply (infer_type_float _ _ Hin Hna Hint).
    - apply Forall_column. eapply Forall_impl; [exact Hall |]. simpl.
      intros d0 (v & Hv0 & [-> | (f0 & -> & Hp)]); eexists; (split; [exact Hv0 |]).
      + reflexivity.
      + now apply float_cell.
    - apply forallb_column. eapply Forall_impl; [exact Hall |]. simpl.
      intros d0 (v & Hv0 & [-> | (f0 & -> & Hp)]); eexists; (split; [exact Hv0 |]).
      + reflexivity.
      + now apply float_cell. }
  now rewrite Hcell, Htype, Hconv.
Qed.

(** ** Files that the script did not write *)

Lemma tokenize_blank_byte (c : ascii) (p : parser_t) :
  Ascii.eqb c LF || is_whitespace c = true ->
  state p = START_RECORD \/ state p = WHITESPACE_LINE ->
  (state (tokenize_byte c p) = START_RECORD
   \/ state (tokenize_byte c p) = WHITESPACE_LINE)
  /\ lines (tokenize_byte c p) = lines p.
Proof.
  intros Hc Hstate. destruct p as [st w fl L]. simpl in Hstate.
  destruct (Ascii.eqb c LF) eqn:Hlf.
  - destruct Hstate as [-> | ->]; unfold tokenize_byte, start_record; simpl;
      rewrite Hlf; simpl; auto.
  - simpl in Hc.
    assert (Hcr : Ascii.eqb c CR = false).
    { unfold is_whitespace in Hc. apply orb_true_iff in Hc.
      destruct Hc as [Hc | Hc]; apply Ascii.eqb_eq in Hc; subst c; reflexivity. }
    destruct Hstate as [-> | ->]; unfold tokenize_byte, start_record; simpl;
      rewrite Hlf, Hcr, Hc; simpl; auto.
Qed.

Lemma tokenize_only_blanks (s : string) (p : parser_t) :
  only_blanks s = true ->
  state p = START_RECORD \/ state p = WHITESPACE_LINE ->
  lines p = [] ->
  (state (tokenize_bytes s p) = START_RECORD
   \/ state (tokenize_bytes s p) = WHITESPACE_LINE)
  /\ lines (tokenize_bytes s p) = [].
Proof.
  revert p. induction s as [|c s IH]; intros p Hs Hstate Hlines; [auto |].
  simpl in Hs. apply andb_true_iff in Hs. destruct Hs as [Hc Hs].
  destruct (tokenize_blank_byte c p Hc Hstate) as [Hstate' Hlines'].
  cbn [tokenize_bytes]. apply IH; [exact Hs | exact Hstate' | congruence].
Qed.

Lemma read_csv_only_blanks (text : string) :
  only_blanks text = true -> read_csv text = Raise EmptyDataError.
Proof.
  intros Hb.
  destruct (tokenize_only_blanks text parser_new Hb) as [Hstate Hlines];
    [now left | reflexivity |].
  unfold read_csv, tokenize_all, parser_handle_eof.
  destruct Hstate as [-> | ->]; now rewrite Hlines.
Qed.

Lemma load_same_files (path : string) (wd wd' : world) :
  fs wd' = fs wd -> load_from_csv path wd' = ((load_from_csv path wd).1, wd').
Proof. intros Hfs. now rewrite !load_from_csv_run, Hfs. Qed.

Lemma show_table_run (df : DataFrame) (info : string) (wd : world) :
  (if negb (df_empty df) then show (st_dataframe df) else show (st_info info)) wd
  = (Ok tt, shown wd (table_or_info df info)).
Proof. unfold table_or_info. destruct (negb (df_empty df)); reflexivity. Qed.

(** The report raises as soon as one of the four files cannot be read. *)
Lemma report_raises (st : stage) (e : exn) (wd : world) :
  (load_from_csv (stage_path st) wd).1 = Raise e ->
  exists e', (report_tab wd).1 = Raise e'.
Proof.
  intros Hraise. unfold report_tab.
  unfold bind at 1. rewrite (load_same_files _ wd) by reflexivity.
  destruct (load_from_csv CONSENT_CSV wd).1 as [consent_df|e1] eqn:H1;
    [|eexists; reflexivity].
  unfold bind at 1. rewrite show_table_run.
  unfold bind at 1. rewrite (load_same_files _ wd) by reflexivity.
  destruct (load_from_csv DEMOGRAPHIC_CSV wd).1 as [demographic_df|e2] eqn:H2;
    [|eexists; reflexivity].
  unfold bind at 1. rewrite show_table_run.
  unfold bind at 1. rewrite (load_same_files _ wd) by reflexivity.
  destruct (load_from_csv TASK_CSV wd).1 as [task_df|e3] eqn:H3;
    [|eexists; reflexivity].
  unfold bind at 1. rewrite show_table_run.
  unfold bind at 1. rewrite (load_same_files _ wd) by reflexivity.
  destruct (load_from_csv EXIT_CSV wd).1 as [exit_df|e4] eqn:H4;
    [|eexists; reflexivity].
  destruct st; simpl stage_path in Hraise; congruence.
Qed.

(** X21: an existing file without a line (empty, or of blank lines only) is
    not taken for a missing one: loading it raises [EmptyDataError], and
    where it is the file of a stage the report raises, instead of showing
    that no data is available. *)
Theorem blank_file_is_not_absent (path text : string) (wd : world) :
  fs wd !! path = Some text -> only_blanks text = true ->
  load_from_csv path wd = (Raise EmptyDataError, wd)
  /\ forall st, path = stage_path st -> exists e, (report_tab wd).1 = Raise e.
Proof.
  intros Hf Hb.
  assert (Hload : load_from_csv path wd = (Raise EmptyDataError, wd))
    by now rewrite load_from_csv_run, Hf, read_csv_only_blanks.
  split; [exact Hload |]. intros st ->.
  apply (report_raises st EmptyDataError). now rewrite Hload.
Qed.

(** X22: a stage file that cannot be read makes the run raise, and a run
    that does not submit that stage leaves it as unreadable as it was: the
    page shows the error until the file is repaired from outside. *)
Theorem unreadable_store_fails_run (st : stage) (e : exn) (w : widgets) (clk : clock)
        (wd : world) :
  (load_from_csv (stage_path st) wd).1 = Raise e ->
  pressed st w = false ->
  (exists e', (rerun w clk wd).1 = Raise e')
  /\ (load_from_csv (stage_path st) (rerun w clk wd).2).1 = Raise e.
Proof.
  intros Hraise Hp.
  pose proof (rerun_stage_file st w clk wd) as Hfile. rewrite Hp in Hfile.
  assert (Hafter : (load_from_csv (stage_path st) (rerun w clk wd).2).1 = Raise e).
  { rewrite load_from_csv_run in Hraise |- *. simpl in Hraise |- *.
    now rewrite Hfile. }
  split; [|exact Hafter].
  rewrite rerun_report. apply (report_raises st e).
  rewrite load_from_csv_run in Hafter |- *. simpl in Hafter |- *.
  now rewrite <- rerun_fs.
Qed.

(** X23: whether the header is written depends on the file being there,
    not on what it holds: a record saved to an existing file without a
    line is written without a header, and is then read as the header: the
    store loads as a table without rows, whose columns are named by the
    values of the record (taken to be pairwise different: a repeated column
    name would be renamed). *)
Theorem record_saved_to_empty_file_is_header (d : dict) (path text : string)
        (wd : world) :
  fs wd !! path = Some text -> ends_at_line text [] -> (1 < length (keys d))%nat ->
  NoDup (record_row d) ->
  exists wd' df,
    save_to_csv d path wd = (Ok tt, wd')
    /\ fs wd' !! path = Some (text +:+ csv_writerow (record_row d))
    /\ load_from_csv path wd' = (Ok df, wd')
    /\ df_columns df = header_names (record_row d)
    /\ df_rows df = []
    /\ df_empty df = true.
Proof.
  intros Hf Hends Hwide _.
  exists (saved d path wd), (frame_of_table (record_row d) []).
  split; [apply save_to_csv_run |].
  assert (Hfile : fs (saved d path wd) !! path
                  = Some (text +:+ csv_writerow (record_row d))).
  { unfold saved. simpl. rewrite lookup_insert_eq, Hf. reflexivity. }
  split; [exact Hfile |]. split; [|repeat split].
  rewrite load_from_csv_run, Hfile. f_equal.
  unfold read_csv, tokenize_all. rewrite tokenize_bytes_app, Hends.
  rewrite <- (append_nil_r (csv_writerow (record_row d))).
  rewrite csv_writerow_read
    by (apply visible_row_wide; now rewrite record_row_length).
  reflexivity.
Qed.

(** X24: the averages are read from the columns named [satisfaction] and
    [difficulty]: where the exit store has rows and no column named
    [satisfaction], the report shows the four tables and raises [KeyError],
    without a line of averages. *)
Theorem report_without_answer_column (wd : world)
        (consent_df demographic_df task_df exit_df : DataFrame) :
  load_from_csv CONSENT_CSV wd = (Ok consent_df, wd) ->
  load_from_csv DEMOGRAPHIC_CSV wd = (Ok demographic_df, wd) ->
  load_from_csv TASK_CSV wd = (Ok task_df, wd) ->
  load_from_csv EXIT_CSV wd = (Ok exit_df, wd) ->
  df_empty exit_df = false ->
  index_of "satisfaction" (df_columns exit_df) = None ->
  report_tab wd
  = (Raise KeyError,
     with_screen wd
       (screen wd
        ++ [table_or_info consent_df "No consent data available yet.";
            table_or_info demographic_df "No demographic data available yet.";
            table_or_info task_df "No task data available yet.";
            st_dataframe exit_df])).
Proof.
  intros Hc Hd Ht He Hrows Hcol.
  assert (Hany : forall path df, load_from_csv path wd = (Ok df, wd) ->
            forall l, load_from_csv path (with_screen wd l) = (Ok df, with_screen wd l)).
  { intros path df Hload l. rewrite (load_same_files path wd) by reflexivity.
    now rewrite Hload. }
  rewrite (report_tab_run wd _ _ _ _ (Hany _ _ Hc) (Hany _ _ Hd) (Hany _ _ Ht)
             (Hany _ _ He)).
  unfold report_averages, when. rewrite Hrows. cbn [negb].
  unfold bind at 1. rewrite mean_of_run. unfold df_getitem. rewrite Hcol.
  unfold table_or_info at 4. rewrite Hrows. reflexivity.
Qed.

(** ** The stores over a session *)

(** X25: after any session, each store holds the rows it held before,
    followed by one row per run that submitted its stage, in the order of
    the runs, whatever was submitted to the other stages in between. *)
Theorem store_keeps_submission_order (st : stage) (inputs : list (widgets * clock))
        (wd : world) (rows : list (list string)) :
  store_holds (fs wd) (stage_path st) (stage_keys st) rows ->
  store_holds (fs (session inputs wd)) (stage_path st) (stage_keys st)
    (rows ++ (record_row <$> submissions st inputs (session_state wd)))
  /\ Forall (fun d => keys d = stage_keys st)
            (submissions st inputs (session_state wd)).
Proof.
  revert wd rows. induction inputs as [|[w clk] inputs IH]; intros wd rows Hst.
  - simpl. rewrite app_nil_r. split; [exact Hst | constructor].
  - rewrite session_cons.
    pose proof (rerun_store st w clk wd rows Hst) as Hrun.
    destruct (IH (interact wd (w, clk)) _ Hrun) as [Hst' Hkeys].
    unfold interact in Hst', Hkeys. cbn [fst snd] in Hst', Hkeys.
    rewrite rerun_session in Hst', Hkeys.
    cbn [submissions fst snd]. destruct (pressed st w).
    + split.
      * rewrite fmap_app. simpl. now rewrite <- app_assoc in Hst'.
      * constructor; [apply stage_record_keys | exact Hkeys].
    + split; [exact Hst' | exact Hkeys].
Qed.

End More.

(** * Concrete runs *)

(** C3: Start and Stop pressed at the same clock reading, then Save: the
    timer ran and the difference of the two readings, 0.0, is stored, but the
    record that is saved has the empty string for its duration, and the row
    written to the task file has an empty duration cell. *)
Theorem zero_duration_recorded_empty `{FT : FloatText} :
  let start := (click StartTaskTimer example_widgets, clock_at 100 0) in
  let stop := (click StopTaskTimer example_widgets, clock_at 100 0) in
  let save := (click SaveTaskResults example_widgets, clock_at 101 1) in
  session_state (session [start; stop] world_init) !! "task_duration" = Some 0%float
  /\ duration_field
       (task_record save.1 save.2 (session_state (session [start; stop] world_init)))
     = Some (PyStr "")
  /\ fs (session [start; stop; save] world_init) !! TASK_CSV
     = Some (line "timestamp,task_name,success,duration_seconds,notes"
             +:+ line "2024-03-07 09:05:01,Task 1: Example Task,Yes,,").
Proof. vm_compute. repeat split; reflexivity. Qed.

(** The runs below print and read floats with [decimal_text]. *)
#[local] Existing Instance decimal_text.


Lemma unchecked_consent_appends_nothing_witness :
  fs (session (FT := decimal_text) [unchecked_press 0; unchecked_press 1; unchecked_press 2]
              world_init) !! CONSENT_CSV
  = fs world_init !! CONSENT_CSV.
Proof.
  apply (unchecked_consent_appends_nothing (FT := decimal_text)).
  repeat constructor.
Defined.


Lemma exit_record_round_trip_witness :
  exists wd' df,
    save_to_csv (FT := decimal_text)
                (exit_dict (strftime (localtime (clock_at 101 1))) 5 1 "none")
                EXIT_CSV one_answer_world = (Ok tt, wd')
    /\ load_from_csv EXIT_CSV wd' = (Ok df, wd')
    /\ df_columns df = exit_columns
    /\ last (df_rows df)
       = Some [PyStr "2024-03-07 09:05:01"; PyInt 5; PyInt 1; PyStr "none"].
Proof.
  destruct (exit_record_round_trip (FT := decimal_text)
              [answer "2024-03-07 09:05:00" 4 3 ""] (localtime (clock_at 101 1))
              one_answer_world)
    as (wd' & df & Hsave & Hload & Hcols & Hlast & _).
  - repeat constructor; unfold on_scale; simpl; lia.
  - vm_compute. reflexivity.
  - exists wd', df. auto.
Defined.

Lemma each_submit_appends_one_record_witness :
  exists new,
    store_holds
      (fs (session (FT := decimal_text)
             (resubmit (click SubmitDemographics example_widgets)
                       [clock_at 100 0; clock_at 100 0; clock_at 160 1])
             world_init))
      DEMOGRAPHIC_CSV (stage_keys Demographics) new
    /\ length new = 3%nat.
Proof.
  destruct (each_submit_appends_one_record (FT := decimal_text) Demographics
              (click SubmitDemographics example_widgets)
              [clock_at 100 0; clock_at 100 0; clock_at 160 1] world_init [])
    as (new & Hst & Hlen & _).
  - reflexivity.
  - constructor.
  - reflexivity.
  - exists new. auto.
Defined.

Lemma header_written_by_first_append_witness :
  exists wd',
    save_to_csv (FT := decimal_text) (consent_dict "2024-03-07 09:05:00" true)
                CONSENT_CSV world_init = (Ok tt, wd')
    /\ fs wd' !! CONSENT_CSV
       = Some (line "timestamp,consent_given" +:+ line "2024-03-07 09:05:00,True").
Proof.
  destruct (header_written_by_first_append (FT := decimal_text)
              (consent_dict "2024-03-07 09:05:00" true) CONSENT_CSV world_init)
    as (wd' & Hsave & Hfirst & _).
  - reflexivity.
  - reflexivity.
  - exists wd'. split; [exact Hsave |]. apply Hfirst. reflexivity.
Defined.

Lemma mismatched_record_is_appended_witness :
  exists wd',
    save_all (FT := decimal_text)
             [consent_dict "2024-03-07 09:05:00" true;
              exit_dict "2024-03-07 09:06:00" 5 1 "none"]
             CONSENT_CSV world_init = (Ok tt, wd')
    /\ fs wd' !! CONSENT_CSV
       = Some (line "timestamp,consent_given" +:+ line "2024-03-07 09:05:00,True"
               +:+ line "2024-03-07 09:06:00,5,1,none")
    /\ load_from_csv EXIT_CSV wd' = (Ok DataFrame_empty, wd')
    /\ load_from_csv CONSENT_CSV wd' = (Raise ParserError, wd').
Proof.
  destruct (mismatched_record_is_appended (FT := decimal_text)
              (consent_dict "2024-03-07 09:05:00" true)
              (exit_dict "2024-03-07 09:06:00" 5 1 "none") CONSENT_CSV world_init)
    as (wd' & Hsave & Hfile & Hload).
  - reflexivity.
  - simpl. lia.
  - reflexivity.
  - exists wd'. split; [exact Hsave |]. split; [exact Hfile |].
    split; [|exact Hload].
    rewrite load_from_csv_run.
    unfold save_all in Hsave. simpl in Hsave. unfold bind in Hsave.
    rewrite !save_to_csv_run in Hsave. injection Hsave as <-. reflexivity.
Defined.

Lemma falsy_duration_saved_empty_witness :
  duration_field
    (task_record (click SaveTaskResults example_widgets)
       (clock_at 101 1)
       (session_state
          (session (FT := decimal_text)
             [(click StartTaskTimer example_widgets, clock_at 100 0);
              (click StopTaskTimer example_widgets, clock_at 100 0)] world_init)))
  = Some (PyStr "").
Proof.
  apply (falsy_duration_saved_empty (FT := decimal_text) example_widgets
           (clock_at 100 0) (clock_at 100 0) (clock_at 101 1) world_init 0%float);
    reflexivity.
Defined.

Lemma consent_store_flags_true_witness :
  let wd := session (FT := decimal_text)
                    [checked_press 0; unchecked_press 1; checked_press 2] world_init in
  exists df,
    load_from_csv CONSENT_CSV wd = (Ok df, wd)
    /\ Forall (fun row => row !! 1%nat = Some (PyBool true)) (df_rows df).
Proof.
  intros wd.
  apply (consent_store_flags_true (FT := decimal_text)
           [checked_press 0; unchecked_press 1; checked_press 2] world_init).
  exists []. split; [reflexivity | constructor].
Defined.

(** ** Further runs *)

(** Three exit questionnaires submitted to an empty data folder: the page of
    the last run ends with the two averages. *)
Example report_after_three_answers :
  drop 5 (screen (session three_exit_submissions world_init))
  = [st_write "**Average Satisfaction (1–5)**: 4.00";
     st_write "**Average Difficulty (1–5)**: 3.00"].
Proof. vm_compute. reflexivity. Qed.

(** A second record with the keys of the first in another order: the file
    keeps the header of the first, and the value the record gave for [b] is
    loaded under the column [a]. *)
Example swapped_keys_misfiled :
  let d0 := [("a", PyStr "x"); ("b", PyStr "y")] in
  let d := [("b", PyStr "for b"); ("a", PyStr "for a")] in
  let wd := (save_all [d0; d] "data/store.csv" world_init).2 in
  fs wd !! "data/store.csv" = Some (line "a,b" +:+ line "x,y" +:+ line "for b,for a")
  /\ (load_from_csv "data/store.csv" wd).1
     = Ok {| df_columns := ["a"; "b"];
             df_dtypes := [Object; Object];
             df_index := [[PyInt 0]; [PyInt 1]];
             df_rows := [[PyStr "x"; PyStr "y"]; [PyStr "for b"; PyStr "for a"]] |}.
Proof. vm_compute. split; reflexivity. Qed.

(** Why rows have to be visible: in a store of one column, a record whose
    only value is made of blanks is written as a line that the reader skips. *)
Example blank_row_skipped :
  tokenize_all (csv_writerows [["note"]; ["first"]; ["  "]; ["last"]])
  = Ok [["note"]; ["first"]; ["last"]].
Proof. reflexivity. Qed.

(** An integer above the signed 64 bits: with integers that are not
    negative its column is read as unsigned integers; with an empty cell
    the column is left as text, and the empty cell is not a missing value. *)
Example integer_above_int64 :
  read_csv (csv_writerows [["id"; "note"]; ["9223372036854775808"; "x"]; ["7"; "y"]])
  = Ok {| df_columns := ["id"; "note"];
          df_dtypes := [UInt64; Object];
          df_index := [[PyInt 0]; [PyInt 1]];
          df_rows := [[PyInt 9223372036854775808; PyStr "x"];
                      [PyInt 7; PyStr "y"]] |}
  /\ read_csv (csv_writerows [["id"; "note"]; ["9223372036854775808"; "x"]; [""; "y"]])
     = Ok {| df_columns := ["id"; "note"];
             df_dtypes := [Object; Object];
             df_index := [[PyInt 0]; [PyInt 1]];
             df_rows := [[PyStr "9223372036854775808"; PyStr "x"];
                         [PyStr ""; PyStr "y"]] |}.
Proof. vm_compute. split; reflexivity. Qed.

(** An integer column with an empty cell becomes a float column. *)
Example integers_with_missing_value :
  read_csv (csv_writerows [["age"; "name"]; ["36"; "Ada"]; [""; "Bob"]])
  = Ok {| df_columns := ["age"; "name"];
          df_dtypes := [Float64; Object];
          df_index := [[PyInt 0]; [PyInt 1]];
          df_rows := [[PyFloat 36; PyStr "Ada"]; [PyFloat PrimFloat.nan; PyStr "Bob"]] |}.
Proof. vm_compute. reflexivity. Qed.

(** A timer that ran for twelve and a half seconds is recorded as such. *)
Example duration_recorded :
  let start := (click StartTaskTimer example_widgets, clock_at 100 0) in
  let stop := (click StopTaskTimer example_widgets, clock_at 112.5 12) in
  let save := (click SaveTaskResults example_widgets, clock_at 120 20) in
  fs (session [start; stop; save] world_init) !! TASK_CSV
  = Some (line "timestamp,task_name,success,duration_seconds,notes"
          +:+ line "2024-03-07 09:05:20,Task 1: Example Task,Yes,12.5,").
Proof. vm_compute. reflexivity. Qed.

(** ** Runs for the further properties *)

Lemma run_writes_only_submitted_stores_witness :
  fs (rerun (click SubmitDemographics example_widgets) (clock_at 100 0)
            one_answer_world).2 !! EXIT_CSV
  = fs one_answer_world !! EXIT_CSV.
Proof.
  apply (run_writes_only_submitted_stores (FT := decimal_text)
           (click SubmitDemographics example_widgets) (clock_at 100 0)
           one_answer_world EXIT_CSV).
  intros [] H; try discriminate H; intros E; vm_compute in E; discriminate E.
Defined.

Lemma run_without_button_persists_nothing_witness :
  fs (rerun example_widgets (clock_at 100 0) one_answer_world).2 = fs one_answer_world
  /\ session_state (rerun example_widgets (clock_at 100 0) one_answer_world).2
     = session_state one_answer_world.
Proof.
  apply (run_without_button_persists_nothing (FT := decimal_text)).
  repeat split.
Defined.

Lemma files_only_grow_witness :
  exists suffix,
    fs (session three_exit_submissions one_answer_world) !! EXIT_CSV
    = Some ((line "timestamp,satisfaction,difficulty,open_feedback"
             +:+ line "2024-03-07 09:05:00,4,3,") +:+ suffix).
Proof.
  apply (files_only_grow (FT := decimal_text) three_exit_submissions one_answer_world).
  vm_compute. reflexivity.
Defined.

Lemma save_clears_timer_witness :
  duration_field
    (task_record (click StopTaskTimer example_widgets) (clock_at 130 30)
       (session_state
          (rerun (click SaveTaskResults example_widgets) (clock_at 120 20)
                 (session [start_press; stop_press] world_init)).2))
  = Some (PyStr "").
Proof.
  apply (save_clears_timer (FT := decimal_text)
           (click SaveTaskResults example_widgets)
           (click StopTaskTimer example_widgets)); reflexivity.
Defined.

Lemma restart_keeps_stored_duration_witness :
  duration_field
    (task_record (click SaveTaskResults example_widgets) (clock_at 300 40)
       (session_state
          (session [start_press; stop_press;
                    (click StartTaskTimer example_widgets, clock_at 200 30)]
                   world_init)))
  = Some (PyFloat (112.5 - 100)).
Proof.
  apply (restart_keeps_stored_duration (FT := decimal_text) example_widgets
           (clock_at 100 0) (clock_at 112.5 12) (clock_at 200 30) (clock_at 300 40)
           world_init).
  reflexivity.
Defined.

Lemma stop_without_start_ignored_witness :
  duration_field
    (task_record (click SaveTaskResults example_widgets) (clock_at 120 20)
       (session_state (session [stop_press; stop_press] world_init)))
  = Some (PyStr "").
Proof.
  apply (stop_without_start_ignored (FT := decimal_text) [stop_press; stop_press]
           world_init).
  - repeat constructor.
  - reflexivity.
  - split; reflexivity.
Defined.

Lemma never_stopped_saved_empty_witness :
  duration_field
    (task_record (click SaveTaskResults example_widgets) (clock_at 120 20)
       (session_state (session [start_press; start_press] world_init)))
  = Some (PyStr "").
Proof.
  apply (never_stopped_saved_empty (FT := decimal_text) [start_press; start_press]
           world_init).
  - repeat constructor.
  - reflexivity.
  - reflexivity.
Defined.

Lemma session_changes_timer_keys_only_witness :
  let wd := with_session world_init (<["visits" := 3%float]> ∅) in
  session_state
    (session [start_press; stop_press;
              (click SaveTaskResults example_widgets, clock_at 120 20)] wd)
  !! "visits"
  = session_state wd !! "visits".
Proof.
  intros wd.
  apply (session_changes_timer_keys_only (FT := decimal_text)); discriminate.
Defined.

Lemma submission_saved_whatever_report_witness :
  let w := click SubmitDemographics example_widgets in
  let clk := clock_at 100 0 in
  (rerun w clk mismatched_world).1 = Raise ParserError
  /\ fs (rerun w clk mismatched_world).2 !! DEMOGRAPHIC_CSV
     = Some (line "timestamp,name,age,occupation,familiarity"
             +:+ line "2024-03-07 09:05:00,Ada,36,Engineer,I'm slightly familiar")
  /\ success_message Demographics ∈ screen (rerun w clk mismatched_world).2.
Proof.
  intros w clk.
  destruct (submission_saved_whatever_report (FT := decimal_text) Demographics w clk
              mismatched_world) as [Hfile Hshown].
  - reflexivity.
  - split; [vm_compute; reflexivity |]. split; [|exact Hshown].
    etransitivity; [exact Hfile | vm_compute; reflexivity].
Defined.

Lemma report_of_empty_folder_witness :
  report_tab world_init = (Ok tt, with_screen world_init (screen world_init ++ info_messages)).
Proof.
  apply (report_of_empty_folder (FT := decimal_text)).
  intros []; reflexivity.
Defined.

Lemma session_never_raises_witness :
  (rerun (click SubmitDemographics example_widgets) (clock_at 103 3)
         (session three_exit_submissions world_init)).1 = Ok tt.
Proof.
  apply (session_never_raises (FT := decimal_text) three_exit_submissions
           (click SubmitDemographics example_widgets) (clock_at 103 3) world_init).
  - apply stores_ok_init.
  - exists []. split; [reflexivity | constructor].
  - repeat constructor; unfold on_scale; simpl; lia.
  - split; unfold on_scale; simpl; lia.
Defined.

Lemma report_counts_submitted_answer_witness :
  let w := click SubmitExit (with_answers 2 5 "" example_widgets) in
  let wd := session three_exit_submissions world_init in
  exists before,
    screen (rerun w (clock_at 103 3) wd).2
    = before ++ [satisfaction_line (arithmetic_mean [5; 4; 3; 2]);
                 difficulty_line (arithmetic_mean [2; 3; 4; 5])].
Proof.
  intros w wd.
  apply (report_counts_submitted_answer (FT := decimal_text) three_answers w
           (clock_at 103 3) wd).
  - apply stores_ok_session, stores_ok_init.
  - repeat constructor; unfold on_scale; simpl; lia.
  - vm_compute. reflexivity.
  - split; unfold on_scale; simpl; lia.
  - reflexivity.
Defined.

Lemma missing_value_loads_as_nan_witness :
  exists df row,
    load_from_csv TASK_CSV (save_all two_task_records TASK_CSV world_init).2
    = (Ok df, (save_all two_task_records TASK_CSV world_init).2)
    /\ df_rows df !! 1%nat = Some row
    /\ row !! 3%nat = Some (PyFloat PrimFloat.nan).
Proof.
  apply (missing_value_loads_as_nan (FT := decimal_text) Task two_task_records
           (save_all two_task_records TASK_CSV world_init).2 1 3
           (task_dict "2024-03-07 09:07:00" "Task 1: Example Task" "No" (PyStr "")
                      "gave up")
           (PyStr "")).
  - repeat constructor.
  - vm_compute. reflexivity.
  - constructor; [|constructor; [|constructor]];
      (eexists; split; [reflexivity | vm_compute; reflexivity]).
  - reflexivity.
  - reflexivity.
  - reflexivity.
Defined.


Lemma timestamp_loads_unchanged_witness :
  exists df row,
    load_from_csv DEMOGRAPHIC_CSV
      (save_all two_demographic_records DEMOGRAPHIC_CSV world_init).2
    = (Ok df, (save_all two_demographic_records DEMOGRAPHIC_CSV world_init).2)
    /\ df_rows df !! 0%nat = Some row
    /\ row !! 0%nat = Some (PyStr "2024-03-07 09:05:00").
Proof.
  apply (timestamp_loads_unchanged (FT := decimal_text) Demographics
           two_demographic_records
           (save_all two_demographic_records DEMOGRAPHIC_CSV world_init).2 0
           example_widgets (clock_at 100 0) ∅).
  - repeat constructor.
  - vm_compute. reflexivity.
  - reflexivity.
Defined.

Lemma integers_load_unchanged_witness :
  exists df row,
    load_from_csv DEMOGRAPHIC_CSV
      (save_all two_demographic_records DEMOGRAPHIC_CSV world_init).2
    = (Ok df, (save_all two_demographic_records DEMOGRAPHIC_CSV world_init).2)
    /\ df_rows df !! 1%nat = Some row
    /\ row !! 2%nat = Some (PyInt 120).
Proof.
  apply (integers_load_unchanged (FT := decimal_text) Demographics
           two_demographic_records
           (save_all two_demographic_records DEMOGRAPHIC_CSV world_init).2 1 2
           (demographic_dict "2024-03-07 09:09:00" "None" 120 "" "I've never used it")).
  - repeat constructor.
  - vm_compute. reflexivity.
  - constructor; [|constructor; [|constructor]];
      (eexists; split; [reflexivity | split; apply Z.leb_le; reflexivity]).
  - reflexivity.
  - reflexivity.
Defined.

Lemma durations_load_as_floats_witness :
  exists df row,
    load_from_csv TASK_CSV (save_all two_task_records TASK_CSV world_init).2
    = (Ok df, (save_all two_task_records TASK_CSV world_init).2)
    /\ df_rows df !! 0%nat = Some row
    /\ row !! 3%nat = Some (PyFloat 12.5).
Proof.
  apply (durations_load_as_floats (FT := decimal_text) Task two_task_records
           (save_all two_task_records TASK_CSV world_init).2 0 3
           (task_dict "2024-03-07 09:05:20" "Task 1: Example Task" "Yes" (PyFloat 12.5)
                      "")).
  - repeat constructor.
  - vm_compute. reflexivity.
  - constructor; [|constructor; [|constructor]].
    + exists (PyFloat 12.5). split; [reflexivity |]. right. exists 12.5%float.
      split; [reflexivity |]. vm_compute. repeat split.
    + exists (PyStr ""). split; [reflexivity | now left].
  - reflexivity.
  - reflexivity.
Defined.

Lemma blank_file_is_not_absent_witness :
  load_from_csv CONSENT_CSV blank_consent_world = (Raise EmptyDataError, blank_consent_world)
  /\ exists e, (report_tab blank_consent_world).1 = Raise e.
Proof.
  destruct (blank_file_is_not_absent (FT := decimal_text) CONSENT_CSV
              (line "" +:+ line "  ") blank_consent_world) as [Hload Hreport].
  - reflexivity.
  - reflexivity.
  - split; [exact Hload |]. apply (Hreport Consent). reflexivity.
Defined.

Lemma unreadable_store_fails_run_witness :
  let w := click SubmitDemographics example_widgets in
  (exists e, (rerun w (clock_at 100 0) mismatched_world).1 = Raise e)
  /\ (load_from_csv CONSENT_CSV (rerun w (clock_at 100 0) mismatched_world).2).1
     = Raise ParserError.
Proof.
  intros w.
  apply (unreadable_store_fails_run (FT := decimal_text) Consent ParserError w
           (clock_at 100 0) mismatched_world).
  - vm_compute. reflexivity.
  - reflexivity.
Defined.

Lemma record_saved_to_empty_file_is_header_witness :
  exists wd' df,
    save_to_csv (consent_dict "2024-03-07 09:05:00" true) CONSENT_CSV blank_consent_world
    = (Ok tt, wd')
    /\ load_from_csv CONSENT_CSV wd' = (Ok df, wd')
    /\ df_columns df = ["2024-03-07 09:05:00"; "True"]
    /\ df_empty df = true.
Proof.
  destruct (record_saved_to_empty_file_is_header (FT := decimal_text)
              (consent_dict "2024-03-07 09:05:00" true) CONSENT_CSV
              (line "" +:+ line "  ") blank_consent_world)
    as (wd' & df & Hsave & _ & Hload & Hcols & _ & Hempty).
  - reflexivity.
  - reflexivity.
  - simpl. lia.
  - apply NoDup_cons_2; [|apply NoDup_singleton].
    intros H. apply list_elem_of_singleton in H. discriminate H.
  - exists wd', df. repeat split; assumption.
Defined.

Lemma report_without_answer_column_witness :
  (report_tab misfiled_world).1 = Raise KeyError.
Proof.
  rewrite (report_without_answer_column (FT := decimal_text) misfiled_world
             DataFrame_empty DataFrame_empty DataFrame_empty
             (frame_of_table ["timestamp"; "consent_given"]
                             [["2024-03-07 09:05:00"; "True"]]));
    [reflexivity | vm_compute; reflexivity ..].
Defined.

Lemma store_keeps_submission_order_witness :
  store_holds (fs (session three_exit_submissions world_init)) EXIT_CSV
              (stage_keys Exit)
              ([] ++ (record_row <$> submissions Exit three_exit_submissions ∅)).
Proof.
  apply (store_keeps_submission_order (FT := decimal_text) Exit three_exit_submissions
           world_init []).
  reflexivity.
Defined.
